(** * ESP32-C6 WiFi scanner firmware: session state machine, command
      dispatcher, frame classifier and network registry.

    A shallow embedding of [src/esp32_c6_wifi_functional.ino].  The sketch
    keeps its state in globals and talks to the outside world through the
    serial port and the radio driver; here the globals are one record that is
    threaded through every procedure.  The calls that act on the outside
    world are recorded as the events of a trace: what is written to [Serial],
    the commands given to the radio ([WiFi.mode], [WiFi.begin],
    [WiFi.disconnect], [WiFi.scanNetworks], [WiFi.scanDelete],
    [esp_wifi_set_*]), [delay] and [ESP.restart].  The calls that only read
    a value ([WiFi.status], [WiFi.SSID(i)] and the other accessors of a scan
    result, [WiFi.localIP], [WiFi.gatewayIP], [WiFi.dnsIP], [WiFi.RSSI],
    [WiFi.channel], [WiFi.macAddress], the [ESP.get*] family, [millis]) are
    not events: their answers are the fields of [Hardware], and a trace says
    nothing about how often they are made.

    The two entry points are [processCommand], on the line that [loop] has
    assembled, and [packetSnifferCallback], which the driver calls once per
    received frame from its own task.  [processCommand] is described as a
    whole, with no frame arriving while it runs; for [startPacketMonitoring],
    whose assignments to the counters and to the monitoring flag race with
    the callback, the body is also given statement by statement
    ([startPacketMonitoring_body]) and run with frames arriving between any
    two statements ([run_preempted]). *)

From Stdlib Require Import ZArith Ascii String Decimal DecimalString DecimalPos Lia Bool.
From stdpp Require Import base list strings.

Open Scope string_scope.
Open Scope list_scope.
Open Scope Z_scope.

(* string concatenation computes under [simpl] *)
#[local] Arguments String.append !s1 s2 : simpl nomatch.

(** ** Machine integers *)

(** [uint32_t] counters: unsigned, 32 bits, [++] wraps around. *)
Definition UINT32_MOD : Z := 4294967296.
Definition u32_incr (x : Z) : Z := (x + 1) mod UINT32_MOD.
Definition is_u32 (x : Z) : Prop := 0 <= x < UINT32_MOD.

(** [long] on the 32-bit target, the result type of [atol]. *)
Definition LONG_MIN : Z := -2147483648.
Definition LONG_MAX : Z := 2147483647.
Definition clamp_long (z : Z) : Z :=
  if z <? LONG_MIN then LONG_MIN else if LONG_MAX <? z then LONG_MAX else z.

(** ** The Arduino [String] operations the sketch uses *)

Module WString.

(** C [isspace] in the default locale: space, \t \n \v \f \r. *)
Definition isspace (c : ascii) : bool :=
  let n := N_of_ascii c in
  ((n =? 32) || ((9 <=? n) && (n <=? 13)))%N.

Definition isupper (c : ascii) : bool :=
  let n := N_of_ascii c in ((65 <=? n) && (n <=? 90))%N.

Definition tolower (c : ascii) : ascii :=
  if isupper c then ascii_of_N (N_of_ascii c + 32) else c.

(** [String::toLowerCase]: [tolower] on every character. *)
Fixpoint toLowerCase (s : string) : string :=
  match s with
  | EmptyString => EmptyString
  | String c r => String (tolower c) (toLowerCase r)
  end.

Fixpoint ltrim (s : string) : string :=
  match s with
  | EmptyString => EmptyString
  | String c r => if isspace c then ltrim r else s
  end.

Fixpoint rtrim (s : string) : string :=
  match s with
  | EmptyString => EmptyString
  | String c r =>
      match rtrim r with
      | EmptyString => if isspace c then EmptyString else String c EmptyString
      | r' => String c r'
      end
  end.

(** [String::trim]: drops the leading and the trailing white space. *)
Definition trim (s : string) : string := rtrim (ltrim s).

Definition startsWith (s pre : string) : bool := String.prefix pre s.

Fixpoint drop (n : nat) (s : string) : string :=
  match n, s with
  | O, _ => s
  | S n', String _ r => drop n' r
  | S _, EmptyString => EmptyString
  end.

Fixpoint take (n : nat) (s : string) : string :=
  match n, s with
  | S n', String c r => String c (take n' r)
  | _, _ => EmptyString
  end.

(** [String::substring(left, right)]: the arguments are swapped when
    [left > right], the result is empty when [left] is past the end, and
    [right] is cut to the length. *)
Definition substring (s : string) (left right : nat) : string :=
  let (l, r) := if Nat.ltb right left then (right, left) else (left, right) in
  if Nat.leb (String.length s) l then EmptyString
  else take (Nat.min r (String.length s) - l) (drop l s).

(** [String::substring(left)] is [substring(left, length)]. *)
Definition substring_from (s : string) (left : nat) : string :=
  substring s left (String.length s).

(** [String::indexOf(pattern)]: position of the first occurrence, -1 when
    there is none. *)
Definition indexOf (s pat : string) : Z :=
  match String.index 0 pat s with
  | Some i => Z.of_nat i
  | None => -1
  end.

Definition digit_of (c : ascii) : option Z :=
  let n := N_of_ascii c in
  if ((48 <=? n) && (n <=? 57))%N then Some (Z.of_N n - 48) else None.

Fixpoint atol_digits (s : string) (acc : Z) : Z :=
  match s with
  | EmptyString => acc
  | String c r =>
      match digit_of c with
      | Some d => atol_digits r (acc * 10 + d)
      | None => acc
      end
  end.

(** [String::toInt] is [atol] on the buffer: leading white space, an
    optional sign, then the longest run of decimal digits; no digits give
    0, and a value that does not fit a [long] saturates. *)
Definition toInt (s : string) : Z :=
  match ltrim s with
  | String "-" r => clamp_long (- atol_digits r 0)
  | String "+" r => clamp_long (atol_digits r 0)
  | r => clamp_long (atol_digits r 0)
  end.

(** [String(n)] for an integer [n]: its decimal rendering. *)
Definition of_int (z : Z) : string := NilZero.string_of_int (Z.to_int z).

Definition of_bool_yes_no (b : bool) : string := if b then "Yes" else "No".

End WString.

(** ** Global state *)

Record ScannerState := mkScannerState {
  scanning_active : bool;
  monitoring_active : bool;
  connected_to_wifi : bool;
  current_channel : Z;
  packet_count : Z;
  data_packets : Z;
  mgmt_packets : Z;
  ctrl_packets : Z;
  connected_ssid : string
}.

Record NetworkInfo := mkNetworkInfo {
  ssid : string;
  bssid : string;
  channel : Z;
  rssi : Z;
  encryption : Z;
  is_wifi6 : bool;
  is_hidden : bool
}.

Definition MAX_NETWORKS : Z := 50.

(** All the globals of the sketch that outlive a command. *)
Record Firmware := mkFirmware {
  scanner_state : ScannerState;
  detected_networks : list NetworkInfo;
  network_count : Z
}.

Definition empty_network : NetworkInfo :=
  mkNetworkInfo "" "" 0 0 0 false false.

(** The state right after boot: the default member initialisers. *)
Definition initial_scanner_state : ScannerState :=
  mkScannerState false false false 1 0 0 0 0 "".

Definition initial_firmware : Firmware :=
  mkFirmware initial_scanner_state
             (replicate (Z.to_nat MAX_NETWORKS) empty_network) 0.

(** The four frame counters, in the order total, management, data, control. *)
Definition counters (s : ScannerState) : Z * Z * Z * Z :=
  (packet_count s, mgmt_packets s, data_packets s, ctrl_packets s).

(** The session mode of the specification, read off the flags. *)
Inductive Mode := Idle | Scanning | Connected | Monitoring.

Definition mode_of (s : ScannerState) : Mode :=
  if monitoring_active s then Monitoring
  else if connected_to_wifi s then Connected
  else if scanning_active s then Scanning
  else Idle.

(** ** Frame classifier *)

(** [wifi_promiscuous_pkt_type_t], the tag the driver hands to the callback. *)
Inductive wifi_promiscuous_pkt_type_t :=
  WIFI_PKT_MGMT | WIFI_PKT_CTRL | WIFI_PKT_DATA | WIFI_PKT_MISC.

(** The two fields of [pkt->rx_ctrl] the callback reads. *)
Record wifi_promiscuous_pkt_t := mkPkt { rx_rssi : Z; rx_sig_len : Z }.

Definition incr_packet_count (s : ScannerState) : ScannerState :=
  mkScannerState (scanning_active s) (monitoring_active s) (connected_to_wifi s)
    (current_channel s) (u32_incr (packet_count s)) (data_packets s)
    (mgmt_packets s) (ctrl_packets s) (connected_ssid s).

Definition incr_data_packets (s : ScannerState) : ScannerState :=
  mkScannerState (scanning_active s) (monitoring_active s) (connected_to_wifi s)
    (current_channel s) (packet_count s) (u32_incr (data_packets s))
    (mgmt_packets s) (ctrl_packets s) (connected_ssid s).

Definition incr_mgmt_packets (s : ScannerState) : ScannerState :=
  mkScannerState (scanning_active s) (monitoring_active s) (connected_to_wifi s)
    (current_channel s) (packet_count s) (data_packets s)
    (u32_incr (mgmt_packets s)) (ctrl_packets s) (connected_ssid s).

Definition incr_ctrl_packets (s : ScannerState) : ScannerState :=
  mkScannerState (scanning_active s) (monitoring_active s) (connected_to_wifi s)
    (current_channel s) (packet_count s) (data_packets s)
    (mgmt_packets s) (u32_incr (ctrl_packets s)) (connected_ssid s).

(** [packetSnifferCallback]: runs to completion on every delivered frame. *)
Definition packetSnifferCallback
    (pkt : wifi_promiscuous_pkt_t) (type : wifi_promiscuous_pkt_type_t)
    (s : ScannerState) : ScannerState :=
  if negb (monitoring_active s) then s
  else
    let s1 := incr_packet_count s in
    let s2 :=
      match type with
      | WIFI_PKT_MGMT => incr_mgmt_packets s1
      | WIFI_PKT_DATA => incr_data_packets s1
      | WIFI_PKT_CTRL => incr_ctrl_packets s1
      | _ => s1
      end in
    (* the analysis branch is empty in the source *)
    if (-80 <? rx_rssi pkt) && (24 <? rx_sig_len pkt) then s2 else s2.

(** The callback on the whole firmware state: only [scanner_state] moves. *)
Definition deliver_frame
    (pkt : wifi_promiscuous_pkt_t) (type : wifi_promiscuous_pkt_type_t)
    (fw : Firmware) : Firmware :=
  mkFirmware (packetSnifferCallback pkt type (scanner_state fw))
             (detected_networks fw) (network_count fw).

(** ** The outside world *)

Inductive wifi_mode_t := WIFI_MODE_NULL | WIFI_STA.

Inductive wl_status_t :=
  | WL_NO_SHIELD | WL_STOPPED | WL_IDLE_STATUS | WL_NO_SSID_AVAIL
  | WL_SCAN_COMPLETED | WL_CONNECTED | WL_CONNECT_FAILED
  | WL_CONNECTION_LOST | WL_DISCONNECTED.

Definition is_WL_CONNECTED (st : wl_status_t) : bool :=
  match st with WL_CONNECTED => true | _ => false end.

Inductive printf_arg := ArgInt (z : Z) | ArgStr (s : string).

(** One event per call that acts on the outside world, in program order:
    serial output, sleeps, commands to the radio, restart.  Calls that only
    read a value are not events; see [Hardware]. *)
Inductive event :=
  | Serial_print (s : string)
  | Serial_println (s : string)
  | Serial_printf (fmt : string) (args : list printf_arg)
  | delay (ms : Z)
  | WiFi_mode (m : wifi_mode_t)
  | WiFi_begin (ssid password : string)
  | WiFi_disconnect
  | WiFi_scanNetworks (async show_hidden passive : bool) (max_ms_per_chan : Z)
  | WiFi_scanDelete
  | esp_wifi_set_channel (primary : Z)
  | esp_wifi_set_promiscuous_filter_all
  | esp_wifi_set_promiscuous (en : bool)
  | ESP_restart.

(** What the driver and the chip answer to the calls that only read a value,
    while one command runs.  These calls leave no event in the trace. *)
Record Hardware := mkHardware {
  (* result of [WiFi.scanNetworks] and the per-index accessors *)
  hw_scan_n : Z;
  hw_SSID : Z -> string;
  hw_BSSIDstr : Z -> string;
  hw_scan_channel : Z -> Z;
  hw_scan_RSSI : Z -> Z;
  hw_encryptionType : Z -> Z;
  (* [WiFi.status()], by the number of earlier polls since [WiFi.begin] *)
  hw_status : nat -> wl_status_t;
  (* the live link *)
  hw_localIP : string;
  hw_gatewayIP : string;
  hw_dnsIP : string;
  hw_RSSI : Z;
  hw_channel : Z;
  hw_macAddress : string;
  (* [ESP] and the clock *)
  hw_ChipModel : string;
  hw_ChipRevision : Z;
  hw_CpuFreqMHz : Z;
  hw_FlashChipSize : Z;
  hw_FlashChipSpeed : Z;
  hw_FreeHeap : Z;
  hw_FreePsram : Z;
  hw_SdkVersion : string;
  hw_millis : Z
}.

(** [wifi_auth_mode_t] of the driver headers. *)
Definition WIFI_AUTH_OPEN : Z := 0.
Definition WIFI_AUTH_WEP : Z := 1.
Definition WIFI_AUTH_WPA_PSK : Z := 2.
Definition WIFI_AUTH_WPA2_PSK : Z := 3.
Definition WIFI_AUTH_WPA_WPA2_PSK : Z := 4.
Definition WIFI_AUTH_WPA2_ENTERPRISE : Z := 5.
Definition WIFI_AUTH_WPA3_PSK : Z := 6.
Definition WIFI_AUTH_WPA2_WPA3_PSK : Z := 7.

(** Characters that a Rocq string literal cannot spell. *)
Definition LF : string := String "010" EmptyString.
Definition CR : string := String "013" EmptyString.
Definition BS : string := String "008" EmptyString.
Definition ESC : string := String "027" EmptyString.
(* UTF-8 of the check mark and of the white bullet *)
Definition CHECK_MARK : string :=
  String "226" (String "156" (String "147" EmptyString)).
Definition WHITE_BULLET : string :=
  String "226" (String "151" (String "166" EmptyString)).

(** ** Procedures: state and trace threading *)

(** A procedure reads and writes the globals and appends to the trace.  It
    yields [None] when control never comes back to the caller, which only
    [ESP.restart()] causes. *)
Definition M (A : Type) : Type := Firmware -> option A * Firmware * list event.

Definition ret {A} (a : A) : M A := fun fw => (Some a, fw, []).

Definition bind {A B} (m : M A) (k : A -> M B) : M B :=
  fun fw =>
    let '(oa, fw1, t1) := m fw in
    match oa with
    | None => (None, fw1, t1)
    | Some a => let '(ob, fw2, t2) := k a fw1 in (ob, fw2, t1 ++ t2)
    end.

Notation "x <- m ;; k" := (bind m (fun x => k))
  (at level 100, m at next level, right associativity).
Notation "m ;; k" := (bind m (fun _ => k))
  (at level 100, right associativity).

Definition get_state : M ScannerState :=
  fun fw => (Some (scanner_state fw), fw, []).

Definition put_state (s : ScannerState) : M unit :=
  fun fw => (Some tt, mkFirmware s (detected_networks fw) (network_count fw), []).

Definition get_network_count : M Z := fun fw => (Some (network_count fw), fw, []).

Definition put_network_count (n : Z) : M unit :=
  fun fw => (Some tt, mkFirmware (scanner_state fw) (detected_networks fw) n, []).

Definition get_networks : M (list NetworkInfo) :=
  fun fw => (Some (detected_networks fw), fw, []).

(** [detected_networks[i] = net], for an index inside the array. *)
Definition put_network (i : Z) (net : NetworkInfo) : M unit :=
  fun fw => (Some tt, mkFirmware (scanner_state fw)
                                 (<[Z.to_nat i := net]> (detected_networks fw))
                                 (network_count fw), []).

Definition emit (e : event) : M unit := fun fw => (Some tt, fw, [e]).

Definition emits (t : list event) : M unit := fun fw => (Some tt, fw, t).

Definition println (s : string) : M unit := emit (Serial_println s).
Definition print (s : string) : M unit := emit (Serial_print s).

(** [ESP.restart()]: the image starts over with its initial globals and the
    rest of the calling procedure is never run. *)
Definition restart : M unit := fun _ => (None, initial_firmware, [ESP_restart]).

(** What a procedure leaves behind: the new globals and the trace. *)
Definition run {A} (m : M A) (fw : Firmware) : Firmware * list event :=
  let '(_, fw', t) := m fw in (fw', t).

Definition state_after {A} (m : M A) (fw : Firmware) : Firmware := fst (run m fw).
Definition trace_of {A} (m : M A) (fw : Firmware) : list event := snd (run m fw).

(** [for (...) body i] over the given indices, in order. *)
Fixpoint for_each {A} (l : list A) (body : A -> M unit) : M unit :=
  match l with
  | [] => ret tt
  | i :: r => body i ;; for_each r body
  end.

(** Field assignments on [scanner_state]. *)
Definition set_monitoring_active (b : bool) (s : ScannerState) : ScannerState :=
  mkScannerState (scanning_active s) b (connected_to_wifi s)
    (current_channel s) (packet_count s) (data_packets s)
    (mgmt_packets s) (ctrl_packets s) (connected_ssid s).

Definition set_connection (b : bool) (name : string) (s : ScannerState)
  : ScannerState :=
  mkScannerState (scanning_active s) (monitoring_active s) b
    (current_channel s) (packet_count s) (data_packets s)
    (mgmt_packets s) (ctrl_packets s) name.

Definition set_current_channel (ch : Z) (s : ScannerState) : ScannerState :=
  mkScannerState (scanning_active s) (monitoring_active s) (connected_to_wifi s)
    ch (packet_count s) (data_packets s)
    (mgmt_packets s) (ctrl_packets s) (connected_ssid s).

Definition set_packet_count (v : Z) (s : ScannerState) : ScannerState :=
  mkScannerState (scanning_active s) (monitoring_active s) (connected_to_wifi s)
    (current_channel s) v (data_packets s)
    (mgmt_packets s) (ctrl_packets s) (connected_ssid s).

Definition set_data_packets (v : Z) (s : ScannerState) : ScannerState :=
  mkScannerState (scanning_active s) (monitoring_active s) (connected_to_wifi s)
    (current_channel s) (packet_count s) v
    (mgmt_packets s) (ctrl_packets s) (connected_ssid s).

Definition set_mgmt_packets (v : Z) (s : ScannerState) : ScannerState :=
  mkScannerState (scanning_active s) (monitoring_active s) (connected_to_wifi s)
    (current_channel s) (packet_count s) (data_packets s)
    v (ctrl_packets s) (connected_ssid s).

Definition set_ctrl_packets (v : Z) (s : ScannerState) : ScannerState :=
  mkScannerState (scanning_active s) (monitoring_active s) (connected_to_wifi s)
    (current_channel s) (packet_count s) (data_packets s)
    (mgmt_packets s) v (connected_ssid s).

(** One assignment [scanner_state.field = v]: a single store to the global
    as it is at that moment. *)
Definition assign (f : ScannerState -> ScannerState) : M unit :=
  fun fw => (Some tt, mkFirmware (f (scanner_state fw)) (detected_networks fw)
                                 (network_count fw), []).

(** The statements of a list, one after the other. *)
Fixpoint run_steps (steps : list (M unit)) : M unit :=
  match steps with
  | [] => ret tt
  | m :: rest => m ;; run_steps rest
  end.

(** [2412 + (channel - 1) * 5], the expression the sketch repeats. *)
Definition frequencyMHz (ch : Z) : Z := 2412 + (ch - 1) * 5.

(** ** The sketch *)

Section Sketch.

Variable hw : Hardware.

Import WString.

Definition printBanner : M unit :=
  print LF ;;
  emits (replicate 60 (Serial_print "=")) ;;
  println "" ;;
  println "ESP32-C6 WiFi 6 Scanner & RF Spectrum Analyzer" ;;
  println "Version 1.0 - Developed for Cybersecurity Research" ;;
  println "Compatible with 2.4GHz ISM Band (Channels 1-14)" ;;
  emits (replicate 60 (Serial_print "=")) ;;
  println "" ;;
  println ("Hardware: " +:+ hw_ChipModel hw) ;;
  println ("CPU Frequency: " +:+ of_int (hw_CpuFreqMHz hw) +:+ " MHz") ;;
  println ("Flash Size: " +:+ of_int (hw_FlashChipSize hw / 1024 / 1024) +:+ " MB") ;;
  println ("Free Heap: " +:+ of_int (hw_FreeHeap hw) +:+ " bytes") ;;
  emits (replicate 60 (Serial_print "=")) ;;
  println "".

Definition PROMPT : string := LF +:+ "ESP32-C6> ".

Definition showHelp : M unit :=
  println (LF +:+ "Available Commands:") ;;
  println "==================" ;;
  println "help, h              - Show this help menu" ;;
  println "scan, s              - Scan for WiFi networks" ;;
  println "connect <ssid> <pwd> - Connect to WiFi 6 network" ;;
  println "disconnect, dc       - Disconnect from WiFi" ;;
  println "monitor [channel]    - Start packet monitoring" ;;
  println "stop, x              - Stop packet monitoring" ;;
  println "networks, n          - Show discovered networks" ;;
  println "status, st           - Show current status" ;;
  println "channel <1-14>       - Change monitoring channel" ;;
  println "info, i              - Show system information" ;;
  println "export, e            - Export scan results" ;;
  println "clear, cls           - Clear screen" ;;
  println "reset, r             - Reset device" ;;
  println (LF +:+ "Examples:") ;;
  println "  scan" ;;
  println "  connect MyWiFi6 password123" ;;
  println "  monitor 6" ;;
  println "  channel 11" ;;
  print PROMPT.

Definition getEncryptionString (encType : Z) : string :=
  if encType =? WIFI_AUTH_OPEN then "Open"
  else if encType =? WIFI_AUTH_WEP then "WEP"
  else if encType =? WIFI_AUTH_WPA_PSK then "WPA"
  else if encType =? WIFI_AUTH_WPA2_PSK then "WPA2"
  else if encType =? WIFI_AUTH_WPA_WPA2_PSK then "WPA/2"
  else if encType =? WIFI_AUTH_WPA2_ENTERPRISE then "WPA2E"
  else if encType =? WIFI_AUTH_WPA3_PSK then "WPA3"
  else if encType =? WIFI_AUTH_WPA2_WPA3_PSK then "WPA2/3"
  else "Unknown".

Definition checkWiFi6Support (networkIndex : Z) : bool :=
  -50 <? hw_scan_RSSI hw networkIndex.

(** The table row both [startNetworkScan] and [showNetworks] print. *)
Definition network_row (i : Z) (net : NetworkInfo) : event :=
  let ssid_display := if is_hidden net then "<Hidden>" else ssid net in
  let ssid_display :=
    if (20 <? String.length ssid_display)%nat
    then substring ssid_display 0 17 +:+ "..."
    else ssid_display in
  Serial_printf ("%2d  %-20s  %s  %2d  %4d  %s  %s" +:+ LF)
    [ArgInt (i + 1); ArgStr ssid_display; ArgStr (bssid net);
     ArgInt (channel net); ArgInt (rssi net);
     ArgStr (getEncryptionString (encryption net));
     ArgStr (of_bool_yes_no (is_wifi6 net))].

(** What the scan stores in [detected_networks[i]]. *)
Definition scanned_network (i : Z) : NetworkInfo :=
  let name := hw_SSID hw i in
  mkNetworkInfo name (hw_BSSIDstr hw i) (hw_scan_channel hw i)
    (hw_scan_RSSI hw i) (hw_encryptionType hw i)
    (checkWiFi6Support i) (Nat.eqb (String.length name) 0).

(** One turn of the loop of [startNetworkScan]. *)
Definition scan_store (i : Z) : M unit :=
  put_network i (scanned_network i) ;;
  emit (network_row i (scanned_network i)) ;;
  c <- get_network_count ;;
  put_network_count (c + 1).

(** The indices for which [i < n && i < MAX_NETWORKS] holds, counting up
    from 0. *)
Definition scan_indices (n : Z) : list Z :=
  map Z.of_nat (seq 0 (Z.to_nat (Z.min n MAX_NETWORKS))).

Definition startNetworkScan : M unit :=
  s <- get_state ;;
  if monitoring_active s then
    println "Stop packet monitoring before scanning networks."
  else
    println "Starting WiFi network scan..." ;;
    println "Scanning 2.4GHz channels 1-14 for WiFi 6 networks..." ;;
    emit (WiFi_mode WIFI_STA) ;;
    put_network_count 0 ;;
    emit (WiFi_scanNetworks false true false 300) ;;
    let n := hw_scan_n hw in
    (if n =? 0 then
       println "No networks found."
     else
       println ("Scan complete. Found " +:+ of_int n +:+ " networks:") ;;
       println "" ;;
       println "ID  SSID                    BSSID             Ch  RSSI  Enc  WiFi6" ;;
       println "=================================================================" ;;
       for_each (scan_indices n) scan_store ;;
       println "=================================================================" ;;
       println "Use 'connect <ssid> <password>' to join a network") ;;
    emit WiFi_scanDelete.

Definition checkCurrentConnectionWiFi6 : bool :=
  (-40 <? hw_RSSI hw) && (6 <=? hw_channel hw).

(** The polling loop of [connectToWiFi].  [budget] is [20 - attempts] and
    [poll] counts the calls to [WiFi.status()] so far; the condition reads
    the status first and the attempt counter second.  Returns the number of
    polls made when the loop is left. *)
Fixpoint wait_for_link (budget : nat) (poll : nat) : M nat :=
  if is_WL_CONNECTED (hw_status hw poll) then ret (S poll)
  else
    match budget with
    | O => ret (S poll)
    | S budget' =>
        emit (delay 500) ;;
        print "." ;;
        wait_for_link budget' (S poll)
    end.

Definition connectToWiFi (ssid password : string) : M unit :=
  s <- get_state ;;
  if monitoring_active s then
    println "Stop packet monitoring before connecting to WiFi."
  else
    println ("Connecting to: " +:+ ssid) ;;
    print "Attempting connection" ;;
    emit (WiFi_mode WIFI_STA) ;;
    emit (WiFi_begin ssid password) ;;
    polls <- wait_for_link 20 0 ;;
    if is_WL_CONNECTED (hw_status hw polls) then
      s <- get_state ;;
      put_state (set_connection true ssid s) ;;
      println (LF +:+ "Connection successful!") ;;
      println ("IP Address: " +:+ hw_localIP hw) ;;
      println ("Gateway: " +:+ hw_gatewayIP hw) ;;
      println ("DNS: " +:+ hw_dnsIP hw) ;;
      println ("RSSI: " +:+ of_int (hw_RSSI hw) +:+ " dBm") ;;
      println ("Channel: " +:+ of_int (hw_channel hw)) ;;
      (if checkCurrentConnectionWiFi6 then
         println (CHECK_MARK +:+ " Connected to WiFi 6 (802.11ax) network")
       else
         println (WHITE_BULLET +:+ " Connected to legacy WiFi network"))
    else
      println (LF +:+ "Connection failed!") ;;
      println "Check SSID and password, or network availability.".

Definition disconnectWiFi : M unit :=
  s <- get_state ;;
  if connected_to_wifi s then
    emit WiFi_disconnect ;;
    put_state (set_connection false "" s) ;;
    println "Disconnected from WiFi network."
  else
    println "Not connected to any WiFi network.".

Definition updateMonitoringStatus : M unit :=
  s <- get_state ;;
  print (CR +:+ ESC +:+ "[K") ;;
  print ("CH" +:+ of_int (current_channel s) +:+
         " | Packets: " +:+ of_int (packet_count s) +:+
         " | Mgmt: " +:+ of_int (mgmt_packets s) +:+
         " | Data: " +:+ of_int (data_packets s) +:+
         " | Ctrl: " +:+ of_int (ctrl_packets s) +:+
         " | Freq: " +:+ of_int (frequencyMHz (current_channel s)) +:+ "MHz").

(** [startPacketMonitoring] past its two checks, one entry per statement of
    the source and in its order: the four counters are cleared, then the
    channel is stored, the radio is set up, and only then is the monitoring
    flag raised. *)
Definition startPacketMonitoring_body (channel : Z) : list (M unit) :=
  [ emit (WiFi_mode WIFI_MODE_NULL);
    assign (set_packet_count 0);
    assign (set_data_packets 0);
    assign (set_mgmt_packets 0);
    assign (set_ctrl_packets 0);
    assign (set_current_channel channel);
    emit (esp_wifi_set_channel channel);
    emit esp_wifi_set_promiscuous_filter_all;
    emit (esp_wifi_set_promiscuous true);
    assign (set_monitoring_active true);
    println ("Packet monitoring started on channel " +:+ of_int channel);
    println ("Monitoring 2.4GHz frequency: " +:+ of_int (frequencyMHz channel) +:+ " MHz");
    println "Press 'stop' to end monitoring or 'channel <n>' to change channel";
    println "";
    updateMonitoringStatus ].

Definition startPacketMonitoring (channel : Z) : M unit :=
  s <- get_state ;;
  if connected_to_wifi s then
    println "Disconnect from WiFi before starting packet monitoring."
  else
    let channel := if channel =? 0 then current_channel s else channel in
    if (channel <? 1) || (14 <? channel) then
      println "Invalid channel. Use 1-14."
    else
      run_steps (startPacketMonitoring_body channel).

Definition stopPacketMonitoring : M unit :=
  s <- get_state ;;
  if monitoring_active s then
    emit (esp_wifi_set_promiscuous false) ;;
    put_state (set_monitoring_active false s) ;;
    println (LF +:+ "Packet monitoring stopped.") ;;
    println "Final Statistics:" ;;
    println ("  Total Packets: " +:+ of_int (packet_count s)) ;;
    println ("  Management: " +:+ of_int (mgmt_packets s)) ;;
    println ("  Data: " +:+ of_int (data_packets s)) ;;
    println ("  Control: " +:+ of_int (ctrl_packets s))
  else
    println "Packet monitoring is not active.".

Definition showNetworks : M unit :=
  count <- get_network_count ;;
  if count =? 0 then
    println "No networks found. Run 'scan' first."
  else
    nets <- get_networks ;;
    println "Previously Scanned Networks:" ;;
    println "ID  SSID                    BSSID             Ch  RSSI  Enc  WiFi6" ;;
    println "=================================================================" ;;
    emits (map (fun i => network_row i (nth (Z.to_nat i) nets empty_network))
               (map Z.of_nat (seq 0 (Z.to_nat count)))) ;;
    println "=================================================================".

Definition showStatus : M unit :=
  s <- get_state ;;
  count <- get_network_count ;;
  println "ESP32-C6 WiFi Scanner Status:" ;;
  println "=============================" ;;
  println ("Monitoring Active: " +:+ of_bool_yes_no (monitoring_active s)) ;;
  println ("WiFi Connected: " +:+ of_bool_yes_no (connected_to_wifi s)) ;;
  (if connected_to_wifi s then
     println ("Connected SSID: " +:+ connected_ssid s) ;;
     println ("IP Address: " +:+ hw_localIP hw) ;;
     println ("Signal Strength: " +:+ of_int (hw_RSSI hw) +:+ " dBm")
   else ret tt) ;;
  (if monitoring_active s then
     println ("Current Channel: " +:+ of_int (current_channel s)) ;;
     println ("Frequency: " +:+ of_int (frequencyMHz (current_channel s)) +:+ " MHz") ;;
     println ("Packets Captured: " +:+ of_int (packet_count s)) ;;
     println ("  Management: " +:+ of_int (mgmt_packets s)) ;;
     println ("  Data: " +:+ of_int (data_packets s)) ;;
     println ("  Control: " +:+ of_int (ctrl_packets s))
   else ret tt) ;;
  println ("Networks Found: " +:+ of_int count) ;;
  println ("Free Heap: " +:+ of_int (hw_FreeHeap hw) +:+ " bytes") ;;
  println ("Uptime: " +:+ of_int (hw_millis hw / 1000) +:+ " seconds").

Definition changeChannel (channel : Z) : M unit :=
  if (channel <? 1) || (14 <? channel) then
    println "Invalid channel. Use 1-14 (2.4GHz ISM band)."
  else
    s <- get_state ;;
    put_state (set_current_channel channel s) ;;
    if monitoring_active s then
      emit (esp_wifi_set_channel channel) ;;
      println ("Changed to channel " +:+ of_int channel +:+
               " (" +:+ of_int (frequencyMHz channel) +:+ " MHz)")
    else
      println ("Channel set to " +:+ of_int channel +:+
               ". Start monitoring to apply.").

Definition systemInfo : M unit :=
  println "ESP32-C6 System Information:" ;;
  println "============================" ;;
  println ("Chip Model: " +:+ hw_ChipModel hw) ;;
  println ("Chip Revision: " +:+ of_int (hw_ChipRevision hw)) ;;
  println ("CPU Frequency: " +:+ of_int (hw_CpuFreqMHz hw) +:+ " MHz") ;;
  println ("Flash Size: " +:+ of_int (hw_FlashChipSize hw / 1024 / 1024) +:+ " MB") ;;
  println ("Flash Speed: " +:+ of_int (hw_FlashChipSpeed hw / 1000000) +:+ " MHz") ;;
  println ("Free Heap: " +:+ of_int (hw_FreeHeap hw) +:+ " bytes") ;;
  println ("Free PSRAM: " +:+ of_int (hw_FreePsram hw) +:+ " bytes") ;;
  println ("SDK Version: " +:+ hw_SdkVersion hw) ;;
  println ("MAC Address: " +:+ hw_macAddress hw) ;;
  println ("Uptime: " +:+ of_int (hw_millis hw / 1000) +:+ " seconds") ;;
  println (LF +:+ "WiFi Capabilities:") ;;
  println "  802.11b/g/n/ax (WiFi 6) - 2.4GHz" ;;
  println "  20MHz Bandwidth" ;;
  println "  Channels 1-14 (2412-2484 MHz)" ;;
  println "  Promiscuous Mode Support" ;;
  println "  Native USB CDC Interface".

Definition export_row (net : NetworkInfo) : event :=
  Serial_println (ssid net +:+ "," +:+ bssid net +:+ "," +:+
                  of_int (channel net) +:+ "," +:+ of_int (rssi net) +:+ "," +:+
                  getEncryptionString (encryption net) +:+ "," +:+
                  of_bool_yes_no (is_wifi6 net) +:+ "," +:+
                  of_bool_yes_no (is_hidden net)).

Definition exportResults : M unit :=
  s <- get_state ;;
  count <- get_network_count ;;
  nets <- get_networks ;;
  println "Exporting scan results..." ;;
  println (LF +:+ "--- SCAN RESULTS EXPORT ---") ;;
  println ("Timestamp: " +:+ of_int (hw_millis hw)) ;;
  println "Device: ESP32-C6 WiFi Scanner" ;;
  println ("Total Networks: " +:+ of_int count) ;;
  (if monitoring_active s then
     println ("Packet Monitoring: Active (Channel " +:+
              of_int (current_channel s) +:+ ")") ;;
     println ("Packets Captured: " +:+ of_int (packet_count s))
   else ret tt) ;;
  println (LF +:+ "Network Details (CSV Format):") ;;
  println "SSID,BSSID,Channel,RSSI,Encryption,WiFi6,Hidden" ;;
  emits (map (fun i => export_row (nth (Z.to_nat i) nets empty_network))
             (map Z.of_nat (seq 0 (Z.to_nat count)))) ;;
  println ("--- END EXPORT ---" +:+ LF).

(** [a == b] on [String]s. *)
Definition eqs (a b : string) : bool := String.eqb a b.

Definition processCommand (cmd : string) : M unit :=
  let cmd := trim (toLowerCase cmd) in
  println "" ;;
  (if eqs cmd "help" || eqs cmd "h" then
     showHelp
   else if eqs cmd "scan" || eqs cmd "s" then
     startNetworkScan
   else if startsWith cmd "connect " then
     let params := substring_from cmd 8 in
     let spaceIndex := indexOf params " " in
     if 0 <? spaceIndex then
       let ssid := substring params 0 (Z.to_nat spaceIndex) in
       let password := substring_from params (Z.to_nat (spaceIndex + 1)) in
       connectToWiFi ssid password
     else
       println "Usage: connect <ssid> <password>"
   else if eqs cmd "disconnect" || eqs cmd "dc" then
     disconnectWiFi
   else if startsWith cmd "monitor " then
     let channel := toInt (substring_from cmd 8) in
     if (1 <=? channel) && (channel <=? 14) then
       startPacketMonitoring channel
     else
       println "Invalid channel. Use 1-14 or 0 for current channel."
   else if eqs cmd "monitor" || eqs cmd "m" then
     startPacketMonitoring 0
   else if eqs cmd "stop" || eqs cmd "x" then
     stopPacketMonitoring
   else if eqs cmd "networks" || eqs cmd "n" then
     showNetworks
   else if eqs cmd "status" || eqs cmd "st" then
     showStatus
   else if startsWith cmd "channel " then
     let channel := toInt (substring_from cmd 8) in
     changeChannel channel
   else if eqs cmd "clear" || eqs cmd "cls" then
     print (ESC +:+ "[2J" +:+ ESC +:+ "[H") ;;
     printBanner
   else if eqs cmd "info" || eqs cmd "i" then
     systemInfo
   else if eqs cmd "export" || eqs cmd "e" then
     exportResults
   else if eqs cmd "reset" || eqs cmd "r" then
     println "Resetting ESP32-C6..." ;;
     emit (delay 1000) ;;
     restart
   else if (0 <? String.length cmd)%nat then
     println ("Unknown command: " +:+ cmd) ;;
     println "Type 'help' for available commands."
   else ret tt) ;;
  print PROMPT.

End Sketch.

(** ** Observations the properties are stated on *)

(** A delivered frame: the packet and the tag the driver attaches to it. *)
Definition frame : Type := wifi_promiscuous_pkt_t * wifi_promiscuous_pkt_type_t.

(** The classifier run on a sequence of frames, oldest first. *)
Definition deliver_frames (frames : list frame) (fw : Firmware) : Firmware :=
  fold_left (fun fw f => deliver_frame (fst f) (snd f) fw) frames fw.

(** Component-wise order on (total, management, data, control). *)
Definition counters_le (a b : Z * Z * Z * Z) : Prop :=
  let '(t1, m1, d1, c1) := a in
  let '(t2, m2, d2, c2) := b in
  t1 <= t2 /\ m1 <= m2 /\ d1 <= d2 /\ c1 <= c2.

(** management + data + control <= total *)
Definition counters_bounded (s : ScannerState) : Prop :=
  mgmt_packets s + data_packets s + ctrl_packets s <= packet_count s.

Definition counters_nonneg (s : ScannerState) : Prop :=
  0 <= mgmt_packets s /\ 0 <= data_packets s /\ 0 <= ctrl_packets s /\
  0 <= packet_count s.

(** A frame as it comes off the air in the examples below. *)
Definition sample_pkt : wifi_promiscuous_pkt_t := mkPkt (-55) 128.


(** Every character of a string satisfies a test. *)
Fixpoint all_chars (P : ascii -> bool) (s : string) : bool :=
  match s with
  | EmptyString => true
  | String c r => P c && all_chars P r
  end.

Definition is_digit (c : ascii) : bool :=
  match WString.digit_of c with Some _ => true | None => false end.

Definition is_digit_or_minus (c : ascii) : bool :=
  is_digit c || Ascii.eqb c "-".

Definition not_blank (c : ascii) : bool := negb (Ascii.eqb c " ").

Definition not_upper (c : ascii) : bool := negb (WString.isupper c).

(** The credentials handed to [WiFi.begin], in the order of the calls. *)
Fixpoint association_attempts (t : list event) : list (string * string) :=
  match t with
  | [] => []
  | WiFi_begin name pw :: r => (name, pw) :: association_attempts r
  | _ :: r => association_attempts r
  end.

(** The lines written with [Serial.println], in order. *)
Fixpoint printed_lines (t : list event) : list string :=
  match t with
  | [] => []
  | Serial_println l :: r => l :: printed_lines r
  | _ :: r => printed_lines r
  end.

(** A bench set-up for the examples: three access points in range, none of
    which ever lets the station in. *)
Definition bench_hw : Hardware :=
  mkHardware 3
    (fun i => if i =? 1 then "" else "LabNet")
    (fun _ => "24:6f:28:aa:bb:cc")
    (fun i => 1 + 5 * i) (fun i => -45 - 20 * i) (fun i => 3 + i)
    (fun _ => WL_DISCONNECTED)
    "0.0.0.0" "0.0.0.0" "0.0.0.0" (-60) 1 "24:6f:28:00:00:01"
    "ESP32-C6" 1 160 4194304 80000000 300000 0 "v5.1" 123456.

Definition monitoring_firmware : Firmware :=
  mkFirmware (mkScannerState false true false 6 10 6 3 0 "")
             (detected_networks initial_firmware) 0.

Definition connected_firmware : Firmware :=
  mkFirmware (mkScannerState false false true 1 0 0 0 0 "labnet")
             (detected_networks initial_firmware) 0.


(** What a successful [startPacketMonitoring] leaves and prints. *)
Definition started_state (ch : Z) (fw : Firmware) : Firmware :=
  mkFirmware
    (mkScannerState (scanning_active (scanner_state fw)) true false ch
       0 0 0 0 (connected_ssid (scanner_state fw)))
    (detected_networks fw) (network_count fw).

Definition started_trace (ch : Z) : list event :=
  [WiFi_mode WIFI_MODE_NULL;
   esp_wifi_set_channel ch;
   esp_wifi_set_promiscuous_filter_all;
   esp_wifi_set_promiscuous true;
   Serial_println ("Packet monitoring started on channel " +:+ WString.of_int ch);
   Serial_println ("Monitoring 2.4GHz frequency: " +:+
                   WString.of_int (frequencyMHz ch) +:+ " MHz");
   Serial_println "Press 'stop' to end monitoring or 'channel <n>' to change channel";
   Serial_println "";
   Serial_print (CR +:+ ESC +:+ "[K");
   Serial_print ("CH" +:+ WString.of_int ch +:+
                 " | Packets: " +:+ WString.of_int 0 +:+
                 " | Mgmt: " +:+ WString.of_int 0 +:+
                 " | Data: " +:+ WString.of_int 0 +:+
                 " | Ctrl: " +:+ WString.of_int 0 +:+
                 " | Freq: " +:+ WString.of_int (frequencyMHz ch) +:+ "MHz")].

(** The registry as the reports read it: the first [network_count] slots. *)
Definition registry (fw : Firmware) : list NetworkInfo :=
  take (Z.to_nat (network_count fw)) (detected_networks fw).

(** [detected_networks] is an array of [MAX_NETWORKS] slots. *)
Definition registry_allocated (fw : Firmware) : Prop :=
  length (detected_networks fw) = Z.to_nat MAX_NETWORKS.

(** A sweep that reports 73 access points. *)
Definition crowded_hw : Hardware :=
  mkHardware 73
    (fun i => "ap" +:+ WString.of_int i)
    (fun _ => "24:6f:28:aa:bb:cc")
    (fun i => 1 + i mod 13) (fun i => -30 - i) (fun _ => 3)
    (fun _ => WL_DISCONNECTED)
    "0.0.0.0" "0.0.0.0" "0.0.0.0" (-60) 1 "24:6f:28:00:00:01"
    "ESP32-C6" 1 160 4194304 80000000 300000 0 "v5.1" 123456.


(** No upper-case letter in a string. *)
Definition lower_case (s : string) : bool := all_chars not_upper s.

(** Every pair of credentials handed to [WiFi.begin] in a trace is free of
    upper-case letters. *)
Definition attempts_lower_case (t : list event) : Prop :=
  Forall (fun a => lower_case (fst a) && lower_case (snd a) = true)
         (association_attempts t).

(** The same, for whatever a procedure prints and calls, from any state. *)
Definition lower_case_only {A} (m : M A) : Prop :=
  forall fw, attempts_lower_case (snd (m fw)).


(** ** The foreground loop *)

Definition COMMAND_BUFFER_SIZE : Z := 256.

(** The globals of [loop]: the firmware state, the characters of the pending
    line ([command_buffer[0 .. command_index - 1]]; what lies beyond
    [command_index] is never read) and the time of the last periodic status
    line. *)
Record Console := mkConsole {
  firmware : Firmware;
  command_buffer : string;
  last_status_update : Z
}.

Definition command_index (con : Console) : Z :=
  Z.of_nat (String.length (command_buffer con)).

Definition initial_console : Console := mkConsole initial_firmware "" 0.

(** [String(command_buffer)]: the characters up to the first NUL. *)
Fixpoint c_string (buf : string) : string :=
  match buf with
  | EmptyString => EmptyString
  | String c r => if Ascii.eqb c "000" then EmptyString else String c (c_string r)
  end.

(** The pending line without its last character ([command_index--]). *)
Fixpoint drop_last (buf : string) : string :=
  match buf with
  | EmptyString => EmptyString
  | String c EmptyString => EmptyString
  | String c r => String c (drop_last r)
  end.

Definition is_line_end (c : ascii) : bool := Ascii.eqb c "010" || Ascii.eqb c "013".
Definition is_backspace (c : ascii) : bool := Ascii.eqb c "008" || Ascii.eqb c "127".

(** One turn of the [while (Serial.available())] loop, on the character read.
    The first component is [None] when the command restarted the chip. *)
Definition loop_char (hw : Hardware) (c : ascii) (con : Console)
  : option unit * Console * list event :=
  if is_line_end c then
    if 0 <? command_index con then
      let cmd := WString.trim (c_string (command_buffer con)) in
      if (0 <? String.length cmd)%nat then
        let '(o, fw', t) := processCommand hw cmd (firmware con) in
        match o with
        | Some _ => (Some tt, mkConsole fw' "" (last_status_update con), t)
        | None => (None, mkConsole fw' "" 0, t)
        end
      else (Some tt, mkConsole (firmware con) "" (last_status_update con), [])
    else (Some tt, con, [])
  else if is_backspace c then
    if 0 <? command_index con then
      (Some tt,
       mkConsole (firmware con) (drop_last (command_buffer con))
                 (last_status_update con),
       [Serial_print (BS +:+ " " +:+ BS)])
    else (Some tt, con, [])
  else if command_index con <? COMMAND_BUFFER_SIZE - 1 then
    (Some tt,
     mkConsole (firmware con) (command_buffer con +:+ String c EmptyString)
               (last_status_update con),
     [Serial_print (String c EmptyString)])
  else (Some tt, con, []).

(** The characters waiting on the serial port, consumed in order. *)
Fixpoint serial_input (hw : Hardware) (input : string) (con : Console)
  : option unit * Console * list event :=
  match input with
  | EmptyString => (Some tt, con, [])
  | String c rest =>
      let '(o, con1, t1) := loop_char hw c con in
      match o with
      | None => (None, con1, t1)
      | Some _ =>
          let '(o2, con2, t2) := serial_input hw rest con1 in
          (o2, con2, t1 ++ t2)
      end
  end.

(** The periodic status line.  [now] and [now'] are the two readings of
    [millis()], an [unsigned long], so the subtraction is modulo 2^32. *)
Definition loop_status (now now' : Z) (con : Console) : Console * list event :=
  if monitoring_active (scanner_state (firmware con)) &&
     (2000 <? (now - last_status_update con) mod UINT32_MOD)
  then
    let '(fw', t) := run updateMonitoringStatus (firmware con) in
    (mkConsole fw' (command_buffer con) now', t)
  else (con, []).

(** One pass of [loop]. *)
Definition loop (hw : Hardware) (input : string) (now now' : Z) (con : Console)
  : option unit * Console * list event :=
  let '(o, con1, t1) := serial_input hw input con in
  match o with
  | None => (None, con1, t1)
  | Some _ =>
      let '(con2, t2) := loop_status now now' con1 in
      (Some tt, con2, t1 ++ t2 ++ [delay 10])
  end.

(** The echo of a run of ordinary characters. *)
Fixpoint echo (line : string) : list event :=
  match line with
  | EmptyString => []
  | String c r => Serial_print (String c EmptyString) :: echo r
  end.

(** Neither a line end nor a backspace. *)
Definition ordinary (c : ascii) : bool := negb (is_line_end c) && negb (is_backspace c).

(** ** What holds of the globals between two commands *)

Definition session_invariant (fw : Firmware) : Prop :=
  let s := scanner_state fw in
  1 <= current_channel s <= 14 /\
  monitoring_active s && connected_to_wifi s = false /\
  scanning_active s = false /\
  (connected_to_wifi s = false -> connected_ssid s = EmptyString) /\
  (is_u32 (packet_count s) /\ is_u32 (mgmt_packets s) /\
   is_u32 (data_packets s) /\ is_u32 (ctrl_packets s)) /\
  registry_allocated fw /\
  0 <= network_count fw <= MAX_NETWORKS.

(** A procedure that maintains the invariant. *)
Definition keeps_invariant {A} (m : M A) : Prop :=
  forall fw, session_invariant fw -> session_invariant (snd (fst (m fw))).

(** Events on the serial port, as opposed to radio commands, sleeps and
    restart. *)
Definition is_serial (e : event) : bool :=
  match e with
  | Serial_print _ | Serial_println _ | Serial_printf _ _ => true
  | _ => false
  end.

(** A procedure that returns, leaves the globals alone and whose events are
    all serial output; it may read values from the driver and the chip. *)
Definition report_only {A} (m : M A) : Prop :=
  forall fw, exists a t,
    m fw = (Some a, fw, t) /\ forallb is_serial t = true.

(** A procedure that comes back to its caller. *)
Definition returns {A} (m : M A) : Prop :=
  forall fw, exists a fw' t, m fw = (Some a, fw', t).

(** The rows of the table, as [Serial.printf] calls. *)
Fixpoint printed_rows (t : list event) : list event :=
  match t with
  | [] => []
  | Serial_printf fmt args :: r => Serial_printf fmt args :: printed_rows r
  | _ :: r => printed_rows r
  end.

(** The commands of a trace: what it holds besides serial output, that is
    the commands given to the radio, the sleeps and the restart.  Calls that
    only read a value from the driver or the chip are not events, so this
    list says nothing about them. *)
Definition driver_commands (t : list event) : list event :=
  List.filter (fun e => negb (is_serial e)) t.

(** A station that gets in at the third poll. *)
Definition friendly_hw : Hardware :=
  mkHardware 1
    (fun _ => "LabNet")
    (fun _ => "24:6f:28:aa:bb:cc")
    (fun _ => 6) (fun _ => -35) (fun _ => 3)
    (fun k => if (k <? 2)%nat then WL_DISCONNECTED else WL_CONNECTED)
    "192.168.1.20" "192.168.1.1" "192.168.1.1" (-35) 6 "24:6f:28:00:00:01"
    "ESP32-C6" 1 160 4194304 80000000 300000 0 "v5.1" 123456.


(** The states the firmware can be in between two steps: after boot, after a
    command (whatever the hardware answers while it runs) and after a frame. *)
Inductive reachable : Firmware -> Prop :=
  | reach_boot : reachable initial_firmware
  | reach_command (hw : Hardware) (cmd : string) (fw : Firmware) :
      reachable fw -> reachable (state_after (processCommand hw cmd) fw)
  | reach_frame (pkt : wifi_promiscuous_pkt_t)
                (type : wifi_promiscuous_pkt_type_t) (fw : Firmware) :
      reachable fw -> reachable (deliver_frame pkt type fw).


(** ** Frames arriving while [startPacketMonitoring] runs *)





(** * Properties *)

(** ** Frame classifier *)

(** An increment that stays below the width is a plain [+ 1]. *)
Lemma u32_incr_small (x : Z) : 0 <= x < UINT32_MOD - 1 -> u32_incr x = x + 1.
Proof. intros H. unfold u32_incr. apply Z.mod_small. lia. Qed.

Lemma u32_incr_range (x : Z) : is_u32 (u32_incr x).
Proof. unfold is_u32, u32_incr, UINT32_MOD. apply Z.mod_pos_bound. lia. Qed.

(** The callback never touches the flags, the channel or the SSID. *)
Lemma packetSnifferCallback_frame pkt type s :
  let s' := packetSnifferCallback pkt type s in
  scanning_active s' = scanning_active s /\
  monitoring_active s' = monitoring_active s /\
  connected_to_wifi s' = connected_to_wifi s /\
  current_channel s' = current_channel s /\
  connected_ssid s' = connected_ssid s.
Proof.
  unfold packetSnifferCallback.
  destruct (monitoring_active s) eqn:Hm; simpl; [|tauto].
  destruct ((-80 <? rx_rssi pkt) && (24 <? rx_sig_len pkt)), type; simpl; tauto.
Qed.

(** C1: a frame that arrives while monitoring is off leaves the four counters
    (indeed the whole state) as they were; a frame that arrives while
    monitoring is on adds one to [packet_count] and to the one counter that
    matches its tag, and to none of the three when the tag is not one of
    management, data, control.  The counters are [uint32_t], so "adds one" is
    the machine increment, written out here as [+ 1] modulo 2^32. *)
Theorem packetSnifferCallback_counts pkt type s :
  let s' := packetSnifferCallback pkt type s in
  if monitoring_active s then
    packet_count s' = (packet_count s + 1) mod UINT32_MOD /\
    match type with
    | WIFI_PKT_MGMT =>
        mgmt_packets s' = (mgmt_packets s + 1) mod UINT32_MOD /\
        data_packets s' = data_packets s /\ ctrl_packets s' = ctrl_packets s
    | WIFI_PKT_DATA =>
        data_packets s' = (data_packets s + 1) mod UINT32_MOD /\
        mgmt_packets s' = mgmt_packets s /\ ctrl_packets s' = ctrl_packets s
    | WIFI_PKT_CTRL =>
        ctrl_packets s' = (ctrl_packets s + 1) mod UINT32_MOD /\
        mgmt_packets s' = mgmt_packets s /\ data_packets s' = data_packets s
    | WIFI_PKT_MISC =>
        mgmt_packets s' = mgmt_packets s /\
        data_packets s' = data_packets s /\ ctrl_packets s' = ctrl_packets s
    end
  else s' = s.
Proof.
  unfold packetSnifferCallback.
  destruct (monitoring_active s); simpl; [|reflexivity].
  destruct ((-80 <? rx_rssi pkt) && (24 <? rx_sig_len pkt)), type;
    simpl; unfold u32_incr; auto.
Qed.

(** Ten frames on a running monitor: six data, three management, one of a
    type that is none of the three. *)
Example classifier_ten_frames :
  counters
    (scanner_state
       (deliver_frames
          (replicate 6 (sample_pkt, WIFI_PKT_DATA)
             ++ replicate 3 (sample_pkt, WIFI_PKT_MGMT)
             ++ [(sample_pkt, WIFI_PKT_MISC)])
          (started_state 6 initial_firmware)))
  = (10, 3, 6, 0).
Proof. reflexivity. Qed.

(** A frame that arrives after [stop] is dropped. *)
Example late_frame_discarded :
  deliver_frame sample_pkt WIFI_PKT_DATA
    (state_after stopPacketMonitoring monitoring_firmware)
  = state_after stopPacketMonitoring monitoring_firmware.
Proof. reflexivity. Qed.

(** ** Counters while monitoring *)

Lemma deliver_frames_app pre post fw :
  deliver_frames (pre ++ post) fw = deliver_frames post (deliver_frames pre fw).
Proof. unfold deliver_frames. apply fold_left_app. Qed.

Lemma deliver_frames_off (frames : list frame) (fw : Firmware) :
  monitoring_active (scanner_state fw) = false ->
  deliver_frames frames fw = fw.
Proof.
  intros Hm. induction frames as [|[pkt type] frames IH]; [reflexivity|].
  change (deliver_frames ((pkt, type) :: frames) fw)
    with (deliver_frames frames (deliver_frame pkt type fw)).
  assert (E : deliver_frame pkt type fw = fw).
  { destruct fw as [s nets cnt]. unfold deliver_frame, packetSnifferCallback.
    simpl in *. now rewrite Hm. }
  now rewrite E.
Qed.

(** One frame, away from the wrap-around. *)
Lemma deliver_frame_step pkt type fw :
  monitoring_active (scanner_state fw) = true ->
  counters_nonneg (scanner_state fw) ->
  counters_bounded (scanner_state fw) ->
  packet_count (scanner_state fw) < UINT32_MOD - 1 ->
  let fw' := deliver_frame pkt type fw in
  monitoring_active (scanner_state fw') = true /\
  counters_nonneg (scanner_state fw') /\
  counters_bounded (scanner_state fw') /\
  packet_count (scanner_state fw') = packet_count (scanner_state fw) + 1 /\
  counters_le (counters (scanner_state fw)) (counters (scanner_state fw')).
Proof.
  destruct fw as [s nets cnt]; simpl.
  unfold counters_nonneg, counters_bounded, counters_le, counters.
  intros Hm (Hm0 & Hd0 & Hc0 & Ht0) Hb Hlt.
  unfold packetSnifferCallback. rewrite Hm. simpl.
  assert (Ht : u32_incr (packet_count s) = packet_count s + 1)
    by (apply u32_incr_small; lia).
  destruct ((-80 <? rx_rssi pkt) && (24 <? rx_sig_len pkt)), type; simpl;
    rewrite ?Ht; try (rewrite u32_incr_small by lia);
    repeat split; auto; lia.
Qed.

(** Any run of frames that stays below 2^32 in total. *)
Lemma deliver_frames_steps frames : forall fw,
  monitoring_active (scanner_state fw) = true ->
  counters_nonneg (scanner_state fw) ->
  counters_bounded (scanner_state fw) ->
  packet_count (scanner_state fw) + Z.of_nat (length frames) < UINT32_MOD ->
  let fw' := deliver_frames frames fw in
  monitoring_active (scanner_state fw') = true /\
  counters_nonneg (scanner_state fw') /\
  counters_bounded (scanner_state fw') /\
  packet_count (scanner_state fw') =
    packet_count (scanner_state fw) + Z.of_nat (length frames) /\
  counters_le (counters (scanner_state fw)) (counters (scanner_state fw')).
Proof.
  induction frames as [|[pkt type] frames IH]; intros fw Hm Hn Hb Hlt.
  - simpl. split; [exact Hm|]. split; [exact Hn|]. split; [exact Hb|].
    split; [lia|]. unfold counters_le, counters; simpl. lia.
  - change (deliver_frames ((pkt, type) :: frames) fw)
      with (deliver_frames frames (deliver_frame pkt type fw)).
    rewrite length_cons, Nat2Z.inj_succ in Hlt.
    destruct (deliver_frame_step pkt type fw) as (Hm1 & Hn1 & Hb1 & Ht1 & Hle1);
      auto; [lia|].
    destruct (IH (deliver_frame pkt type fw)) as (Hm2 & Hn2 & Hb2 & Ht2 & Hle2);
      auto; [lia|].
    cbv zeta. split; [exact Hm2|]. split; [exact Hn2|]. split; [exact Hb2|].
    split.
    + rewrite Ht2, Ht1, length_cons, Nat2Z.inj_succ. lia.
    + revert Hle1 Hle2. unfold counters_le, counters; simpl. lia.
Qed.

(** ** Start Monitoring *)

(** The state [startPacketMonitoring] leaves when it goes through. *)
Lemma startPacketMonitoring_ok (ch : Z) (fw : Firmware) :
  connected_to_wifi (scanner_state fw) = false ->
  1 <= ch <= 14 ->
  startPacketMonitoring ch fw = (Some tt, started_state ch fw, started_trace ch).
Proof.
  intros Hc Hch. destruct fw as [s nets cnt]; simpl in *.
  unfold startPacketMonitoring, bind, get_state; simpl.
  rewrite Hc.
  replace (ch =? 0) with false by (symmetry; apply Z.eqb_neq; lia).
  replace (ch <? 1) with false by (symmetry; apply Z.ltb_ge; lia).
  replace (14 <? ch) with false by (symmetry; apply Z.ltb_ge; lia).
  simpl. unfold set_monitoring_active, set_current_channel.
  simpl. unfold started_state. simpl. rewrite Hc. reflexivity.
Qed.

Lemma startPacketMonitoring_run (ch : Z) (fw : Firmware) :
  connected_to_wifi (scanner_state fw) = false ->
  1 <= ch <= 14 ->
  run (startPacketMonitoring ch) fw = (started_state ch fw, started_trace ch).
Proof.
  intros Hc Hch. unfold run. now rewrite startPacketMonitoring_ok.
Qed.

Lemma start_state_monitoring (ch : Z) (fw : Firmware) :
  connected_to_wifi (scanner_state fw) = false ->
  1 <= ch <= 14 ->
  let s := scanner_state (state_after (startPacketMonitoring ch) fw) in
  monitoring_active s = true /\ counters s = (0, 0, 0, 0).
Proof.
  intros Hc Hch. unfold state_after.
  rewrite startPacketMonitoring_run by assumption. simpl. auto.
Qed.

(** A run of management frames from freshly zeroed counters, wrap-around
    included: total and management both count the frames modulo 2^32. *)
Lemma deliver_mgmt_frames (n : nat) (fw : Firmware) :
  monitoring_active (scanner_state fw) = true ->
  counters (scanner_state fw) = (0, 0, 0, 0) ->
  let s' := scanner_state
              (deliver_frames (replicate n (sample_pkt, WIFI_PKT_MGMT)) fw) in
  monitoring_active s' = true /\
  counters s' = (Z.of_nat n mod UINT32_MOD, Z.of_nat n mod UINT32_MOD, 0, 0).
Proof.
  intros Hm Hz. induction n as [|n IH].
  - simpl. split; [exact Hm|]. rewrite Hz. reflexivity.
  - rewrite replicate_S_end, deliver_frames_app.
    destruct IH as [Hm' Hc'].
    set (fw1 := deliver_frames (replicate n (sample_pkt, WIFI_PKT_MGMT)) fw) in *.
    change (deliver_frames [(sample_pkt, WIFI_PKT_MGMT)] fw1)
      with (deliver_frame sample_pkt WIFI_PKT_MGMT fw1).
    clearbody fw1. destruct fw1 as [s1 nets cnt]. simpl in *.
    unfold counters in Hc'. injection Hc' as Ht Hg Hd Hc.
    unfold packetSnifferCallback. rewrite Hm'. simpl.
    split; [exact Hm'|]. unfold counters; simpl.
    rewrite Ht, Hg, Hd, Hc. unfold u32_incr.
    rewrite Nat2Z.inj_succ, Z.add_mod_idemp_l by (unfold UINT32_MOD; lia).
    unfold Z.succ. reflexivity.
Qed.

(** C2, as amended: from Start Monitoring on and for as long as fewer than
    2^32 frames have been classified, every later observation of the four
    counters is component-wise at least any earlier one, monitoring stays
    active, and management + data + control <= total holds. *)
Theorem monitoring_counters_monotone_bounded
    (fw0 : Firmware) (ch : Z) (pre post : list frame) :
  connected_to_wifi (scanner_state fw0) = false ->
  1 <= ch <= 14 ->
  Z.of_nat (length (pre ++ post)) < UINT32_MOD ->
  let start := state_after (startPacketMonitoring ch) fw0 in
  let earlier := scanner_state (deliver_frames pre start) in
  let later := scanner_state (deliver_frames (pre ++ post) start) in
  monitoring_active later = true /\
  counters_le (counters earlier) (counters later) /\
  counters_bounded later.
Proof.
  intros Hc Hch Hlen start earlier later.
  destruct (start_state_monitoring ch fw0 Hc Hch) as [Hm Hz].
  fold start in Hm, Hz. unfold counters in Hz. injection Hz as Ht Hg Hd Hcl.
  rewrite length_app, Nat2Z.inj_add in Hlen.
  destruct (deliver_frames_steps pre start) as (Hm1 & Hn1 & Hb1 & Ht1 & _).
  { exact Hm. }
  { unfold counters_nonneg. lia. }
  { unfold counters_bounded. lia. }
  { lia. }
  destruct (deliver_frames_steps post (deliver_frames pre start))
    as (Hm2 & Hn2 & Hb2 & Ht2 & Hle2); auto.
  { lia. }
  unfold later. rewrite deliver_frames_app. auto.
Qed.

Lemma monitoring_counters_monotone_bounded_witness :
  let start := state_after (startPacketMonitoring 6) initial_firmware in
  let pre := [(sample_pkt, WIFI_PKT_MGMT); (sample_pkt, WIFI_PKT_DATA)] in
  let post := [(sample_pkt, WIFI_PKT_MISC)] in
  let earlier := scanner_state (deliver_frames pre start) in
  let later := scanner_state (deliver_frames (pre ++ post) start) in
  monitoring_active later = true /\
  counters_le (counters earlier) (counters later) /\
  counters_bounded later.
Proof.
  apply (monitoring_counters_monotone_bounded initial_firmware 6
           [(sample_pkt, WIFI_PKT_MGMT); (sample_pkt, WIFI_PKT_DATA)]
           [(sample_pkt, WIFI_PKT_MISC)]).
  - reflexivity.
  - lia.
  - simpl. unfold UINT32_MOD. lia.
Defined.

(** C2 as stated fails once a counter wraps: after 2^32 - 1 management frames
    the total stands at 4294967295; one more (data) frame takes it to 0, below
    the earlier observation, while management + data + control is 2^32. *)
Lemma monitoring_counters_wrap :
  let start := state_after (startPacketMonitoring 6) initial_firmware in
  let frames := replicate (Z.to_nat (UINT32_MOD - 1)) (sample_pkt, WIFI_PKT_MGMT) in
  let earlier := scanner_state (deliver_frames frames start) in
  let later :=
    scanner_state
      (deliver_frames (frames ++ [(sample_pkt, WIFI_PKT_DATA)]) start) in
  monitoring_active earlier = true /\
  counters earlier = (4294967295, 4294967295, 0, 0) /\
  counters later = (0, 4294967295, 1, 0) /\
  ~ counters_le (counters earlier) (counters later) /\
  ~ counters_bounded later.
Proof.
  intros start frames earlier later.
  assert (Hs : connected_to_wifi (scanner_state initial_firmware) = false)
    by reflexivity.
  assert (Hch : 1 <= 6 <= 14) by lia.
  destruct (start_state_monitoring 6 initial_firmware Hs Hch) as [Hm Hz].
  fold start in Hm, Hz.
  destruct (deliver_mgmt_frames (Z.to_nat (UINT32_MOD - 1)) start Hm Hz)
    as [Hm1 Hc1].
  rewrite Z2Nat.id in Hc1 by (unfold UINT32_MOD; lia).
  change ((UINT32_MOD - 1) mod UINT32_MOD) with 4294967295 in Hc1.
  subst earlier later. rewrite deliver_frames_app.
  fold frames in Hm1, Hc1 |- *.
  set (fw1 := deliver_frames frames start) in *.
  clearbody fw1. clear frames Hm Hz start.
  change (deliver_frames [(sample_pkt, WIFI_PKT_DATA)] fw1)
    with (deliver_frame sample_pkt WIFI_PKT_DATA fw1).
  destruct fw1 as [s1 nets cnt]. unfold deliver_frame. cbn [scanner_state] in *.
  assert (Hl : counters (packetSnifferCallback sample_pkt WIFI_PKT_DATA s1)
               = (0, 4294967295, 1, 0)).
  { unfold counters in Hc1. injection Hc1 as Ht Hg Hd Hc.
    unfold packetSnifferCallback. rewrite Hm1. simpl.
    unfold counters; simpl. rewrite Ht, Hg, Hd, Hc. reflexivity. }
  split; [exact Hm1|]. split; [exact Hc1|]. split; [exact Hl|].
  rewrite Hc1. split.
  - rewrite Hl. unfold counters_le. lia.
  - unfold counters_bounded. unfold counters in Hl. injection Hl as Ht Hg Hd Hc.
    rewrite Ht, Hg, Hd, Hc. lia.
Qed.

(** ** Facts about the [String] operations *)

Module WStringFacts.
Import WString.

Lemma length_append (a b : string) :
  String.length (a +:+ b) = (String.length a + String.length b)%nat.
Proof. induction a as [|c a IH]; simpl; [reflexivity|]. now rewrite IH. Qed.

Lemma append_assoc (a b c : string) : (a +:+ b) +:+ c = a +:+ (b +:+ c).
Proof. induction a as [|x a IH]; simpl; [reflexivity|]. now rewrite IH. Qed.

Lemma prefix_split (p s : string) :
  String.prefix p s = true -> exists r, s = p +:+ r.
Proof.
  revert s. induction p as [|c p IH]; intros s H.
  - exists s. reflexivity.
  - destruct s as [|d s]; simpl in H; [discriminate|].
    destruct (ascii_dec c d) as [->|]; [|discriminate].
    destruct (IH s H) as [r ->]. exists r. reflexivity.
Qed.

Lemma drop_append (p r : string) : drop (String.length p) (p +:+ r) = r.
Proof. induction p as [|c p IH]; simpl; auto. Qed.

Lemma take_append (p r : string) : take (String.length p) (p +:+ r) = p.
Proof. induction p as [|c p IH]; simpl; [now destruct r|]. now rewrite IH. Qed.

Lemma take_all (r : string) : take (String.length r) r = r.
Proof. induction r as [|c r IH]; simpl; [reflexivity|]. now rewrite IH. Qed.

(** [(p + r).substring(p.length())] is [r]. *)
Lemma substring_from_append (p r : string) :
  substring_from (p +:+ r) (String.length p) = r.
Proof.
  unfold substring_from, substring. rewrite length_append.
  replace (String.length p + String.length r <? String.length p)%nat
    with false by (symmetry; apply Nat.ltb_ge; lia).
  destruct (Nat.leb_spec (String.length p + String.length r) (String.length p))
    as [Hle|Hlt].
  - destruct r; [reflexivity|]. simpl in Hle. lia.
  - rewrite Nat.min_id, drop_append.
    replace (String.length p + String.length r - String.length p)%nat
      with (String.length r) by lia.
    apply take_all.
Qed.

(** [(p + r).substring(0, p.length())] is [p]. *)
Lemma substring_0_append (p r : string) :
  substring (p +:+ r) 0 (String.length p) = p.
Proof.
  unfold substring. rewrite length_append.
  replace (String.length p <? 0)%nat with false
    by (symmetry; apply Nat.ltb_ge; lia).
  destruct (Nat.leb_spec (String.length p + String.length r) 0) as [Hle|Hlt].
  - destruct p; [reflexivity|]. simpl in Hle. lia.
  - rewrite Nat.min_l by lia. rewrite Nat.sub_0_r. simpl. apply take_append.
Qed.

Lemma toLowerCase_append (a b : string) :
  toLowerCase (a +:+ b) = toLowerCase a +:+ toLowerCase b.
Proof. induction a as [|c a IH]; simpl; [reflexivity|]. now rewrite IH. Qed.

Lemma toLowerCase_length (a : string) :
  String.length (toLowerCase a) = String.length a.
Proof. induction a as [|c a IH]; simpl; [reflexivity|]. now rewrite IH. Qed.

Lemma tolower_not_upper (c : ascii) : not_upper c = true -> tolower c = c.
Proof.
  unfold not_upper, tolower. destruct (isupper c); [discriminate|reflexivity].
Qed.

Lemma toLowerCase_fixed (s : string) :
  all_chars not_upper s = true -> toLowerCase s = s.
Proof.
  induction s as [|c s IH]; simpl; [reflexivity|].
  intros [Hc Hs]%andb_prop. now rewrite tolower_not_upper, IH.
Qed.

(** Lowering a character never makes or unmakes white space or a blank, and
    it always leaves a character that is not upper case. *)
Lemma tolower_props (c : ascii) :
  isspace (tolower c) = isspace c /\
  not_blank (tolower c) = not_blank c /\
  not_upper (tolower c) = true.
Proof.
  destruct c as [[] [] [] [] [] [] [] []]; vm_compute; auto.
Qed.

Lemma toLowerCase_not_upper (s : string) :
  all_chars not_upper (toLowerCase s) = true.
Proof.
  induction s as [|c s IH]; simpl; [reflexivity|].
  rewrite IH. now destruct (tolower_props c) as (_ & _ & ->).
Qed.

Lemma toLowerCase_not_blank (s : string) :
  all_chars not_blank (toLowerCase s) = all_chars not_blank s.
Proof.
  induction s as [|c s IH]; simpl; [reflexivity|].
  rewrite IH. now destruct (tolower_props c) as (_ & -> & _).
Qed.

Lemma rtrim_toLowerCase (s : string) :
  rtrim (toLowerCase s) = toLowerCase (rtrim s).
Proof.
  induction s as [|c s IH]; simpl; [reflexivity|].
  rewrite IH. destruct (tolower_props c) as (Hsp & _ & _).
  destruct (rtrim s); simpl; [|reflexivity].
  rewrite Hsp. now destruct (isspace c).
Qed.

(** Trailing characters that are not white space protect what is before. *)
Lemma rtrim_append (p x : string) :
  rtrim x = x -> x <> EmptyString -> rtrim (p +:+ x) = p +:+ x.
Proof.
  intros Hx Hne. induction p as [|c p IH]; simpl; [exact Hx|].
  rewrite IH. destruct (p +:+ x) eqn:E; [|reflexivity].
  destruct p; simpl in E; [contradiction|discriminate].
Qed.

Lemma rtrim_no_space (s : string) :
  all_chars (fun c => negb (isspace c)) s = true -> rtrim s = s.
Proof.
  induction s as [|c s IH]; simpl; [reflexivity|].
  intros [Hc Hs]%andb_prop. rewrite IH by assumption.
  destruct s; [|reflexivity].
  now destruct (isspace c).
Qed.

Lemma all_chars_impl (P Q : ascii -> bool) (s : string) :
  (forall c, P c = true -> Q c = true) ->
  all_chars P s = true -> all_chars Q s = true.
Proof.
  intros HPQ. induction s as [|c s IH]; simpl; [reflexivity|].
  intros [Hc Hs]%andb_prop. now rewrite (HPQ c Hc), IH.
Qed.

Lemma prefix_blank_cons (c : ascii) (s : string) :
  not_blank c = true -> String.prefix " " (String c s) = false.
Proof.
  intros Hc.
  change (String.prefix " " (String c s))
    with (if ascii_dec " " c then String.prefix EmptyString s else false).
  destruct (ascii_dec " " c) as [<-|]; [discriminate|reflexivity].
Qed.

(** The first blank of [a + " " + b] is right after [a] when [a] has none. *)
Lemma indexOf_blank (a b : string) :
  all_chars not_blank a = true ->
  indexOf (a +:+ String " " b) " " = Z.of_nat (String.length a).
Proof.
  unfold indexOf. intros Ha.
  assert (H : String.index 0 " " (a +:+ String " " b) = Some (String.length a)).
  { induction a as [|c a IH].
    - simpl. now destruct b.
    - simpl in Ha. apply andb_prop in Ha as [Hc Ha].
      cbn [append String.index String.length]. 
      rewrite (prefix_blank_cons c _ Hc), IH by assumption. reflexivity. }
  now rewrite H.
Qed.

(** No blank at all: [indexOf] answers -1. *)
Lemma indexOf_no_blank (a : string) :
  all_chars not_blank a = true -> indexOf a " " = -1.
Proof.
  unfold indexOf. intros Ha.
  assert (H : String.index 0 " " a = None).
  { induction a as [|c a IH]; [reflexivity|].
    simpl in Ha. apply andb_prop in Ha as [Hc Ha].
    cbn [String.index].
    rewrite (prefix_blank_cons c _ Hc), IH by assumption. reflexivity. }
  now rewrite H.
Qed.

(** *** Decimal rendering and [atol] *)

Lemma string_of_uint_digits (d : Decimal.uint) :
  all_chars is_digit (NilEmpty.string_of_uint d) = true.
Proof. induction d; simpl; auto. Qed.

Lemma NilZero_string_of_uint_pos (p : positive) :
  NilZero.string_of_uint (Pos.to_uint p) = NilEmpty.string_of_uint (Pos.to_uint p).
Proof.
  unfold NilZero.string_of_uint.
  pose proof (Unsigned.to_uint_nonnil p) as H.
  destruct (Pos.to_uint p); [contradiction|reflexivity..].
Qed.

Lemma of_int_pos (p : positive) :
  of_int (Z.pos p) = NilEmpty.string_of_uint (Pos.to_uint p).
Proof. unfold of_int. simpl. apply NilZero_string_of_uint_pos. Qed.

Lemma of_int_neg (p : positive) :
  of_int (Z.neg p) = String "-" (NilEmpty.string_of_uint (Pos.to_uint p)).
Proof.
  unfold of_int. simpl. unfold NilZero.string_of_int.
  now rewrite NilZero_string_of_uint_pos.
Qed.

Lemma string_of_uint_nonempty (d : Decimal.uint) :
  d <> Decimal.Nil -> NilEmpty.string_of_uint d <> EmptyString.
Proof. destruct d; simpl; congruence. Qed.

(** [String(n)] is made of digits, after a minus sign when [n < 0]. *)
Lemma of_int_chars (n : Z) : all_chars is_digit_or_minus (of_int n) = true.
Proof.
  assert (H : forall d, all_chars is_digit_or_minus (NilEmpty.string_of_uint d) = true).
  { intros d. apply (all_chars_impl is_digit); [|apply string_of_uint_digits].
    intros c Hc. unfold is_digit_or_minus. now rewrite Hc. }
  destruct n as [|p|p].
  - reflexivity.
  - rewrite of_int_pos. apply H.
  - rewrite of_int_neg. simpl. apply H.
Qed.

Lemma of_int_nonempty (n : Z) : of_int n <> EmptyString.
Proof.
  destruct n as [|p|p].
  - discriminate.
  - rewrite of_int_pos. apply string_of_uint_nonempty, Unsigned.to_uint_nonnil.
  - rewrite of_int_neg. discriminate.
Qed.

Lemma digit_or_minus_plain (c : ascii) :
  is_digit_or_minus c = true ->
  not_upper c = true /\ negb (isspace c) = true /\ not_blank c = true.
Proof.
  destruct c as [[] [] [] [] [] [] [] []]; vm_compute; auto; discriminate.
Qed.

Lemma toLowerCase_of_int (n : Z) : toLowerCase (of_int n) = of_int n.
Proof.
  apply toLowerCase_fixed, (all_chars_impl is_digit_or_minus); [|apply of_int_chars].
  intros c Hc. apply digit_or_minus_plain, Hc.
Qed.

Lemma rtrim_of_int (n : Z) : rtrim (of_int n) = of_int n.
Proof.
  apply rtrim_no_space, (all_chars_impl is_digit_or_minus); [|apply of_int_chars].
  intros c Hc. apply digit_or_minus_plain, Hc.
Qed.

Lemma atol_digits_acc (d : Decimal.uint) : forall acc : positive,
  atol_digits (NilEmpty.string_of_uint d) (Z.pos acc) = Z.pos (Pos.of_uint_acc d acc).
Proof.
  induction d; intros acc; simpl; try reflexivity;
    match goal with
    | |- atol_digits _ ?z = _ =>
        match goal with
        | |- _ = Z.pos (Pos.of_uint_acc _ ?q) =>
            replace z with (Z.pos q) by lia
        end
    end; apply IHd.
Qed.

Lemma atol_digits_uint (d : Decimal.uint) :
  atol_digits (NilEmpty.string_of_uint d) 0 = Z.of_N (Pos.of_uint d).
Proof.
  induction d; simpl; try reflexivity; try exact IHd;
    apply (atol_digits_acc d).
Qed.

Lemma atol_digits_pos (p : positive) :
  atol_digits (NilEmpty.string_of_uint (Pos.to_uint p)) 0 = Z.pos p.
Proof. now rewrite atol_digits_uint, Unsigned.of_to. Qed.

(** Reading back a rendered integer gives the integer, saturated to [long]. *)
Lemma toInt_of_int (n : Z) : toInt (of_int n) = clamp_long n.
Proof.
  destruct n as [|p|p].
  - reflexivity.
  - rewrite of_int_pos. rewrite <- (atol_digits_pos p).
    pose proof (Unsigned.to_uint_nonnil p) as H.
    destruct (Pos.to_uint p); [contradiction|reflexivity..].
  - rewrite of_int_neg. unfold toInt.
    change (ltrim (String "-" ?s)) with (String "-" s).
    cbv iota beta. now rewrite atol_digits_pos.
Qed.

End WStringFacts.

(** ** How the dispatcher routes a line *)

Section Dispatch.

Variable hw : Hardware.

Import WString WStringFacts.

(** A line that reads [connect <rest>] once lowered and trimmed. *)
Lemma processCommand_connect (cmd r : string) (fw : Firmware) :
  trim (toLowerCase cmd) = "connect " +:+ r ->
  processCommand hw cmd fw =
    (println "" ;;
     (if 0 <? indexOf r " " then
        connectToWiFi hw (substring r 0 (Z.to_nat (indexOf r " ")))
                      (substring_from r (Z.to_nat (indexOf r " " + 1)))
      else println "Usage: connect <ssid> <password>") ;;
     print PROMPT) fw.
Proof.
  intros H. unfold processCommand. rewrite H.
  pose proof (substring_from_append "connect " r) as E.
  change (String.length "connect ") with 8%nat in E. rewrite E.
  clear H E. destruct r; reflexivity.
Qed.

(** A line that reads [monitor <rest>] once lowered and trimmed. *)
Lemma processCommand_monitor (cmd r : string) (fw : Firmware) :
  trim (toLowerCase cmd) = "monitor " +:+ r ->
  processCommand hw cmd fw =
    (println "" ;;
     (if (1 <=? toInt r) && (toInt r <=? 14) then startPacketMonitoring (toInt r)
      else println "Invalid channel. Use 1-14 or 0 for current channel.") ;;
     print PROMPT) fw.
Proof.
  intros H. unfold processCommand. rewrite H.
  pose proof (substring_from_append "monitor " r) as E.
  change (String.length "monitor ") with 8%nat in E. rewrite E.
  clear H E. destruct r; reflexivity.
Qed.

(** A line that reads [channel <rest>] once lowered and trimmed. *)
Lemma processCommand_channel (cmd r : string) (fw : Firmware) :
  trim (toLowerCase cmd) = "channel " +:+ r ->
  processCommand hw cmd fw =
    (println "" ;; changeChannel (toInt r) ;; print PROMPT) fw.
Proof.
  intros H. unfold processCommand. rewrite H.
  pose proof (substring_from_append "channel " r) as E.
  change (String.length "channel ") with 8%nat in E. rewrite E.
  clear H E. destruct r; reflexivity.
Qed.

(** The guards at the head of the three session operations. *)
Lemma startNetworkScan_rejected (fw : Firmware) :
  monitoring_active (scanner_state fw) = true ->
  startNetworkScan hw fw =
    (Some tt, fw, [Serial_println "Stop packet monitoring before scanning networks."]).
Proof.
  intros H. unfold startNetworkScan, bind, get_state. rewrite H. reflexivity.
Qed.

Lemma connectToWiFi_rejected (name pw : string) (fw : Firmware) :
  monitoring_active (scanner_state fw) = true ->
  connectToWiFi hw name pw fw =
    (Some tt, fw, [Serial_println "Stop packet monitoring before connecting to WiFi."]).
Proof.
  intros H. unfold connectToWiFi, bind, get_state. rewrite H. reflexivity.
Qed.

Lemma startPacketMonitoring_rejected (ch : Z) (fw : Firmware) :
  connected_to_wifi (scanner_state fw) = true ->
  startPacketMonitoring ch fw =
    (Some tt, fw,
     [Serial_println "Disconnect from WiFi before starting packet monitoring."]).
Proof.
  intros H. unfold startPacketMonitoring, bind, get_state. rewrite H. reflexivity.
Qed.

Lemma changeChannel_rejected (ch : Z) (fw : Firmware) :
  ~ (1 <= ch <= 14) ->
  changeChannel ch fw =
    (Some tt, fw, [Serial_println "Invalid channel. Use 1-14 (2.4GHz ISM band)."]).
Proof.
  intros H. unfold changeChannel.
  destruct (Z.ltb_spec ch 1); [reflexivity|].
  destruct (Z.ltb_spec 14 ch); [reflexivity|]. lia.
Qed.

End Dispatch.

(** ** Guards and rejections *)

Section Guards.

Variable hw : Hardware.

Import WString WStringFacts.

(** A command whose operation [op] returns: blank line, the trace of [op],
    prompt. *)
Lemma run_command (cmd : string) (op : M unit) (fw fw' : Firmware)
    (t t' : list event) :
  processCommand hw cmd fw = (println "" ;; op ;; print PROMPT) fw ->
  op fw = (Some tt, fw', t) ->
  t' = Serial_println "" :: t ++ [Serial_print PROMPT] ->
  run (processCommand hw cmd) fw = (fw', t').
Proof.
  intros Hcmd Hop ->. unfold run. rewrite Hcmd.
  unfold bind, println, print, emit. rewrite Hop. reflexivity.
Qed.

(** C3: while monitoring is active a scan command and a connect command are
    answered with one message and leave every global as it was; a well-formed
    connect (and [connect MyNet pw123] in particular) gets exactly "Stop
    packet monitoring before connecting to WiFi.".  While connected a monitor
    command, with or without a channel, is answered with one message and
    leaves every global as it was. *)
Theorem mutual_exclusion_guards (fw : Firmware) (cmd : string) :
  let c := trim (toLowerCase cmd) in
  (monitoring_active (scanner_state fw) = true ->
     (c = "scan" \/ c = "s" ->
      run (processCommand hw cmd) fw =
        (fw, [Serial_println "";
              Serial_println "Stop packet monitoring before scanning networks.";
              Serial_print PROMPT])) /\
     (startsWith c "connect " = true ->
      run (processCommand hw cmd) fw =
        (fw, [Serial_println "";
              Serial_println
                (if 0 <? indexOf (substring_from c 8) " "
                 then "Stop packet monitoring before connecting to WiFi."
                 else "Usage: connect <ssid> <password>");
              Serial_print PROMPT])) /\
     run (processCommand hw "connect MyNet pw123") fw =
       (fw, [Serial_println "";
             Serial_println "Stop packet monitoring before connecting to WiFi.";
             Serial_print PROMPT]) /\
     mode_of (scanner_state (state_after (processCommand hw "connect MyNet pw123") fw))
       = Monitoring) /\
  (connected_to_wifi (scanner_state fw) = true ->
     c = "monitor" \/ c = "m" \/ startsWith c "monitor " = true ->
     run (processCommand hw cmd) fw =
       (fw, [Serial_println "";
             Serial_println
               (if startsWith c "monitor " &&
                   negb ((1 <=? toInt (substring_from c 8)) &&
                         (toInt (substring_from c 8) <=? 14))
                then "Invalid channel. Use 1-14 or 0 for current channel."
                else "Disconnect from WiFi before starting packet monitoring.");
             Serial_print PROMPT])).
Proof.
  intros c. split.
  - intros Hm.
    assert (Hex : run (processCommand hw "connect MyNet pw123") fw =
       (fw, [Serial_println "";
             Serial_println "Stop packet monitoring before connecting to WiFi.";
             Serial_print PROMPT])).
    { eapply (run_command _ (connectToWiFi hw "mynet" "pw123"));
        [reflexivity | now apply connectToWiFi_rejected | reflexivity]. }
    repeat split.
    + intros Hc.
      eapply (run_command _ (startNetworkScan hw));
        [ | now apply startNetworkScan_rejected | reflexivity].
      unfold processCommand. fold c. destruct Hc as [-> | ->]; reflexivity.
    + intros Hc. destruct (prefix_split _ _ Hc) as [r Hr]. fold c in Hr.
      rewrite Hr.
      pose proof (substring_from_append "connect " r) as E.
      change (String.length "connect ") with 8%nat in E. rewrite E.
      destruct (0 <? indexOf r " ") eqn:Hi.
      * eapply run_command;
          [ rewrite (processCommand_connect hw cmd r fw Hr), Hi; reflexivity
          | now apply connectToWiFi_rejected | reflexivity].
      * eapply run_command;
          [ rewrite (processCommand_connect hw cmd r fw Hr), Hi; reflexivity
          | reflexivity | reflexivity].
    + exact Hex.
    + unfold state_after. rewrite Hex. simpl. unfold mode_of. now rewrite Hm.
  - intros Hc [Hb | [Hb | Hp]].
    + fold c in Hb. rewrite Hb. simpl.
      eapply (run_command _ (startPacketMonitoring 0));
        [ | now apply startPacketMonitoring_rejected | reflexivity].
      unfold processCommand. fold c. rewrite Hb. reflexivity.
    + fold c in Hb. rewrite Hb. simpl.
      eapply (run_command _ (startPacketMonitoring 0));
        [ | now apply startPacketMonitoring_rejected | reflexivity].
      unfold processCommand. fold c. rewrite Hb. reflexivity.
    + rewrite Hp. destruct (prefix_split _ _ Hp) as [r Hr]. fold c in Hr.
      rewrite Hr.
      pose proof (substring_from_append "monitor " r) as E.
      change (String.length "monitor ") with 8%nat in E. rewrite E.
      destruct ((1 <=? toInt r) && (toInt r <=? 14)) eqn:Hv; simpl.
      * eapply run_command;
          [ rewrite (processCommand_monitor hw cmd r fw Hr), Hv; reflexivity
          | now apply startPacketMonitoring_rejected | reflexivity].
      * eapply run_command;
          [ rewrite (processCommand_monitor hw cmd r fw Hr), Hv; reflexivity
          | reflexivity | reflexivity].
Qed.

End Guards.

Lemma mutual_exclusion_guards_witness :
  run (processCommand bench_hw "SCAN") monitoring_firmware =
    (monitoring_firmware,
     [Serial_println "";
      Serial_println "Stop packet monitoring before scanning networks.";
      Serial_print PROMPT]) /\
  run (processCommand bench_hw "monitor 6") connected_firmware =
    (connected_firmware,
     [Serial_println "";
      Serial_println "Disconnect from WiFi before starting packet monitoring.";
      Serial_print PROMPT]).
Proof.
  split.
  - apply (mutual_exclusion_guards bench_hw monitoring_firmware "SCAN");
      [reflexivity | left; reflexivity].
  - apply (mutual_exclusion_guards bench_hw connected_firmware "monitor 6");
      [reflexivity | right; right; reflexivity].
Defined.

(** ** Validation of the channel and of the argument shape *)

Section Validation.

Variable hw : Hardware.

Import WString WStringFacts.

Lemma clamp_long_outside (n : Z) :
  ~ (1 <= n <= 14) -> ~ (1 <= clamp_long n <= 14).
Proof.
  unfold clamp_long, LONG_MIN, LONG_MAX.
  destruct (Z.ltb_spec n (-2147483648)); [lia|].
  destruct (Z.ltb_spec 2147483647 n); lia.
Qed.

(** A command word followed by a rendered integer is already lowered and
    trimmed. *)
Lemma normal_numeric_command (word : string) (n : Z) :
  ltrim word = word -> toLowerCase word = word -> word <> EmptyString ->
  trim (toLowerCase (word +:+ of_int n)) = word +:+ of_int n.
Proof.
  intros Hl Hw Hne. rewrite toLowerCase_append, Hw, toLowerCase_of_int.
  unfold trim.
  assert (E : ltrim (word +:+ of_int n) = word +:+ of_int n).
  { destruct word as [|c w]; [contradiction|].
    simpl in *. destruct (isspace c); [|reflexivity].
    exfalso. clear -Hl. assert (H : (String.length (ltrim w) <= String.length w)%nat).
    { clear. induction w as [|d w IH]; simpl; [lia|].
      destruct (isspace d); simpl; lia. }
    rewrite Hl in H. simpl in H. lia. }
  rewrite E. apply rtrim_append; [apply rtrim_of_int | apply of_int_nonempty].
Qed.

(** C5: for every integer [n] outside 1..14 the lines [channel n] and
    [monitor n] are answered with a message only; no global changes, so the
    stored channel and the mode stay as they were. *)
Theorem out_of_range_channel_rejected (fw : Firmware) (n : Z) :
  ~ (1 <= n <= 14) ->
  let after_channel := run (processCommand hw ("channel " +:+ of_int n)) fw in
  let after_monitor := run (processCommand hw ("monitor " +:+ of_int n)) fw in
  after_channel =
    (fw, [Serial_println "";
          Serial_println "Invalid channel. Use 1-14 (2.4GHz ISM band).";
          Serial_print PROMPT]) /\
  after_monitor =
    (fw, [Serial_println "";
          Serial_println "Invalid channel. Use 1-14 or 0 for current channel.";
          Serial_print PROMPT]) /\
  current_channel (scanner_state (fst after_channel)) =
    current_channel (scanner_state fw) /\
  current_channel (scanner_state (fst after_monitor)) =
    current_channel (scanner_state fw) /\
  mode_of (scanner_state (fst after_channel)) = mode_of (scanner_state fw) /\
  mode_of (scanner_state (fst after_monitor)) = mode_of (scanner_state fw).
Proof.
  intros Hn after_channel after_monitor.
  assert (Hc : after_channel =
    (fw, [Serial_println "";
          Serial_println "Invalid channel. Use 1-14 (2.4GHz ISM band).";
          Serial_print PROMPT])).
  { assert (Hr : trim (toLowerCase ("channel " +:+ of_int n)) = "channel " +:+ of_int n)
      by (apply normal_numeric_command; [reflexivity | reflexivity | discriminate]).
    eapply run_command;
      [ apply (processCommand_channel hw _ _ fw Hr)
      | rewrite toInt_of_int; apply changeChannel_rejected;
        now apply clamp_long_outside
      | reflexivity ]. }
  assert (Hm : after_monitor =
    (fw, [Serial_println "";
          Serial_println "Invalid channel. Use 1-14 or 0 for current channel.";
          Serial_print PROMPT])).
  { assert (Hr : trim (toLowerCase ("monitor " +:+ of_int n)) = "monitor " +:+ of_int n)
      by (apply normal_numeric_command; [reflexivity | reflexivity | discriminate]).
    pose proof (clamp_long_outside n Hn) as Ho.
    assert (Hv : (1 <=? clamp_long n) && (clamp_long n <=? 14) = false).
    { apply andb_false_iff.
      destruct (Z.leb_spec 1 (clamp_long n)); [|now left].
      destruct (Z.leb_spec (clamp_long n) 14); [lia|now right]. }
    eapply run_command;
      [ rewrite (processCommand_monitor hw _ _ fw Hr), toInt_of_int, Hv;
        reflexivity
      | reflexivity | reflexivity ]. }
  rewrite Hc, Hm. simpl. repeat split; reflexivity.
Qed.

End Validation.

Lemma out_of_range_channel_rejected_witness :
  run (processCommand bench_hw "channel 15") monitoring_firmware =
    (monitoring_firmware,
     [Serial_println "";
      Serial_println "Invalid channel. Use 1-14 (2.4GHz ISM band).";
      Serial_print PROMPT]) /\
  run (processCommand bench_hw "monitor -3") monitoring_firmware =
    (monitoring_firmware,
     [Serial_println "";
      Serial_println "Invalid channel. Use 1-14 or 0 for current channel.";
      Serial_print PROMPT]).
Proof.
  split.
  - apply (out_of_range_channel_rejected bench_hw monitoring_firmware 15). lia.
  - apply (out_of_range_channel_rejected bench_hw monitoring_firmware (-3)). lia.
Defined.

(** C6, as amended: whatever the mode (Idle in particular), the line
    [monitor 15] is answered with "Invalid channel. Use 1-14 or 0 for current
    channel." and nothing else happens: the globals, hence the mode, are
    untouched. *)
Theorem monitor_15_response (hw : Hardware) (fw : Firmware) :
  run (processCommand hw "monitor 15") fw =
    (fw, [Serial_println "";
          Serial_println "Invalid channel. Use 1-14 or 0 for current channel.";
          Serial_print PROMPT]) /\
  mode_of (scanner_state (state_after (processCommand hw "monitor 15") fw)) =
    mode_of (scanner_state fw).
Proof. split; reflexivity. Qed.

(** C6 as stated fails: from Idle, [monitor 15] never prints "Invalid
    channel. Use 1-14."; the range check of the dispatcher answers first, with
    its own wording. *)
Lemma monitor_15_not_the_short_message :
  mode_of (scanner_state initial_firmware) = Idle /\
  printed_lines (trace_of (processCommand bench_hw "monitor 15") initial_firmware) =
    [""; "Invalid channel. Use 1-14 or 0 for current channel."] /\
  ~ In "Invalid channel. Use 1-14."
       (printed_lines
          (trace_of (processCommand bench_hw "monitor 15") initial_firmware)).
Proof.
  split; [reflexivity|]. split; [reflexivity|].
  intros [H | [H | []]]; discriminate H.
Qed.

(** C9, as amended: a line recognised as a connect command (it starts with
    [connect ] once lowered and trimmed) but without a second token after a
    non-empty first one gets the usage message; the bare word [connect] is
    not recognised as a connect command and gets the unknown-command answer.
    Neither changes any global. *)
Theorem malformed_connect_no_transition
    (hw : Hardware) (fw : Firmware) (cmd : string) :
  let c := WString.trim (WString.toLowerCase cmd) in
  (WString.startsWith c "connect " = true ->
   (0 <? WString.indexOf (WString.substring_from c 8) " ") = false ->
   run (processCommand hw cmd) fw =
     (fw, [Serial_println "";
           Serial_println "Usage: connect <ssid> <password>";
           Serial_print PROMPT])) /\
  (c = "connect" ->
   run (processCommand hw cmd) fw =
     (fw, [Serial_println "";
           Serial_println "Unknown command: connect";
           Serial_println "Type 'help' for available commands.";
           Serial_print PROMPT])).
Proof.
  intros c. split.
  - intros Hc Hi.
    destruct (WStringFacts.prefix_split _ _ Hc) as [r Hr]. fold c in Hr.
    rewrite Hr in Hi.
    pose proof (WStringFacts.substring_from_append "connect " r) as E.
    change (String.length "connect ") with 8%nat in E. rewrite E in Hi.
    eapply run_command;
      [ rewrite (processCommand_connect hw cmd r fw Hr), Hi; reflexivity
      | reflexivity | reflexivity ].
  - intros Hc. unfold run, processCommand. fold c. rewrite Hc. reflexivity.
Qed.

Lemma malformed_connect_no_transition_witness :
  run (processCommand bench_hw "connect MyNet") initial_firmware =
    (initial_firmware,
     [Serial_println "";
      Serial_println "Usage: connect <ssid> <password>";
      Serial_print PROMPT]) /\
  run (processCommand bench_hw "Connect ") initial_firmware =
    (initial_firmware,
     [Serial_println "";
      Serial_println "Unknown command: connect";
      Serial_println "Type 'help' for available commands.";
      Serial_print PROMPT]).
Proof.
  split.
  - apply (malformed_connect_no_transition bench_hw initial_firmware "connect MyNet");
      reflexivity.
  - apply (malformed_connect_no_transition bench_hw initial_firmware "Connect ");
      reflexivity.
Defined.

(** C9 as stated fails for [connect] without any argument: the answer is the
    unknown-command one and the usage message is not printed. *)
Lemma bare_connect_no_usage_message :
  printed_lines (trace_of (processCommand bench_hw "connect") initial_firmware) =
    [""; "Unknown command: connect"; "Type 'help' for available commands."] /\
  ~ In "Usage: connect <ssid> <password>"
       (printed_lines (trace_of (processCommand bench_hw "connect") initial_firmware)).
Proof.
  split; [reflexivity|].
  intros [H | [H | [H | []]]]; discriminate H.
Qed.

(** ** Start Monitoring, as the operator sees it *)

Lemma mode_Idle_flags (s : ScannerState) :
  mode_of s = Idle ->
  monitoring_active s = false /\ connected_to_wifi s = false /\
  scanning_active s = false.
Proof.
  unfold mode_of.
  destruct (monitoring_active s), (connected_to_wifi s), (scanning_active s);
    intros H; try discriminate H; auto.
Qed.









(** ** The network registry after a scan *)

Lemma registry_allocated_initial : registry_allocated initial_firmware.
Proof. reflexivity. Qed.

Section Scan.

Variable hw : Hardware.

(** The loop of [startNetworkScan] over [len] indices from [a] on: slots
    [a .. a + len - 1] receive what the driver reports for them, in order,
    and [network_count] grows by [len]. *)
Lemma scan_loop_result (len : nat) : forall (a : nat) (fw : Firmware),
  (a + len <= length (detected_networks fw))%nat ->
  exists t,
    for_each (map Z.of_nat (seq a len)) (scan_store hw) fw =
      (Some tt,
       mkFirmware (scanner_state fw)
         (take a (detected_networks fw)
            ++ map (scanned_network hw) (map Z.of_nat (seq a len))
            ++ drop (a + len) (detected_networks fw))
         (network_count fw + Z.of_nat len),
       t).
Proof.
  induction len as [|len IH]; intros a fw Hlen.
  - exists []. destruct fw as [s nets cnt]. simpl.
    rewrite Nat.add_0_r, take_drop, Z.add_0_r. reflexivity.
  - destruct fw as [s nets cnt]. simpl in Hlen.
    set (x := scanned_network hw (Z.of_nat a)).
    destruct (IH (S a) (mkFirmware s (<[a := x]> nets) (cnt + 1))) as [t Ht].
    { simpl. rewrite length_insert. lia. }
    exists (network_row (Z.of_nat a) x :: t).
    cbn [seq map for_each].
    unfold bind at 1. unfold scan_store at 1.
    unfold bind, put_network, emit, get_network_count, put_network_count.
    cbn [scanner_state detected_networks network_count].
    rewrite Nat2Z.id. fold x.
    unfold bind in Ht. rewrite Ht. simpl.
    f_equal. f_equal. f_equal.
    + rewrite (take_S_r _ _ x) by (apply list_lookup_insert_eq; lia).
      rewrite take_insert_ge by lia.
      rewrite drop_insert_lt by lia.
      rewrite <- app_assoc. simpl.
      replace (a + S len)%nat with (S (a + len)) by lia. reflexivity.
    + lia.
Qed.

Lemma scan_indices_length (n : Z) :
  length (scan_indices n) = Z.to_nat (Z.min n MAX_NETWORKS).
Proof. unfold scan_indices. now rewrite length_map, length_seq. Qed.

(** What a scan that runs leaves in the globals. *)
Lemma startNetworkScan_state (fw : Firmware) :
  monitoring_active (scanner_state fw) = false ->
  registry_allocated fw ->
  let found := map (scanned_network hw) (scan_indices (hw_scan_n hw)) in
  exists t,
    startNetworkScan hw fw =
      (Some tt,
       mkFirmware (scanner_state fw)
         (found ++ drop (length found) (detected_networks fw))
         (Z.of_nat (length found)),
       t).
Proof.
  intros Hm Ha found. destruct fw as [s nets cnt].
  unfold registry_allocated in Ha. cbn [scanner_state detected_networks] in *.
  assert (Hf : length found = Z.to_nat (Z.min (hw_scan_n hw) MAX_NETWORKS))
    by (unfold found; now rewrite length_map, scan_indices_length).
  unfold startNetworkScan. unfold bind at 1. unfold get_state.
  cbn [scanner_state]. rewrite Hm.
  destruct (hw_scan_n hw =? 0) eqn:E.
  - apply Z.eqb_eq in E. rewrite E in Hf. 
    assert (Hnil : found = []) by (destruct found; [reflexivity|discriminate Hf]).
    rewrite Hnil. simpl. eexists. reflexivity.
  - destruct (scan_loop_result (Z.to_nat (Z.min (hw_scan_n hw) MAX_NETWORKS)) 0
                (mkFirmware s nets 0)) as [t Ht].
    { cbn [detected_networks]. rewrite Ha. unfold MAX_NETWORKS. lia. }
    fold (scan_indices (hw_scan_n hw)) in Ht. fold found in Ht.
    unfold bind, println, emit, put_network_count.
    cbn [scanner_state detected_networks network_count].
    rewrite Ht. cbn [scanner_state detected_networks network_count].
    rewrite take_0, Nat.add_0_l, Z.add_0_l, <- Hf. simpl.
    eexists. reflexivity.
Qed.

(** C7: a scan that runs (monitoring not active) leaves in the registry
    exactly the first min(n, 50) networks of the sweep, in the order of the
    sweep, whatever the registry held before; so its size is at most 50
    however many networks the sweep reports.  Slot [i] holds what the driver
    answers for index [i] of the sweep: [WiFi.SSID(i)], [WiFi.BSSIDstr(i)],
    [WiFi.channel(i)], [WiFi.RSSI(i)], [WiFi.encryptionType(i)], the WiFi 6
    guess [WiFi.RSSI(i) > -50] and the hidden flag [WiFi.SSID(i)] empty. *)
Theorem scan_registry_bounded (fw : Firmware) :
  monitoring_active (scanner_state fw) = false ->
  registry_allocated fw ->
  let fw' := state_after (startNetworkScan hw) fw in
  registry fw' = map (scanned_network hw) (scan_indices (hw_scan_n hw)) /\
  (forall i, 0 <= i < Z.min (hw_scan_n hw) MAX_NETWORKS ->
     registry fw' !! Z.to_nat i = Some (scanned_network hw i)) /\
  (forall i, 0 <= i < Z.min (hw_scan_n hw) 50 ->
     registry fw' !! Z.to_nat i =
       Some (mkNetworkInfo (hw_SSID hw i) (hw_BSSIDstr hw i)
               (hw_scan_channel hw i) (hw_scan_RSSI hw i)
               (hw_encryptionType hw i)
               (-50 <? hw_scan_RSSI hw i)
               (Nat.eqb (String.length (hw_SSID hw i)) 0))) /\
  (forall k, (Z.to_nat (Z.min (hw_scan_n hw) 50) <= k)%nat ->
     registry fw' !! k = None) /\
  network_count fw' = Z.max 0 (Z.min (hw_scan_n hw) MAX_NETWORKS) /\
  Z.of_nat (length (registry fw')) = network_count fw' /\
  0 <= network_count fw' <= MAX_NETWORKS /\
  registry_allocated fw' /\
  scanner_state fw' = scanner_state fw.
Proof.
  intros Hm Ha fw'.
  destruct (startNetworkScan_state fw Hm Ha) as [t Ht].
  subst fw'. unfold state_after, run. rewrite Ht. clear Ht.
  set (found := map (scanned_network hw) (scan_indices (hw_scan_n hw))).
  assert (Hf : length found = Z.to_nat (Z.min (hw_scan_n hw) MAX_NETWORKS))
    by (unfold found; now rewrite length_map, scan_indices_length).
  assert (Hreg : registry
            (mkFirmware (scanner_state fw)
               (found ++ drop (length found) (detected_networks fw))
               (Z.of_nat (length found))) = found).
  { unfold registry. cbn [network_count detected_networks].
    rewrite Nat2Z.id. apply take_app_length. }
  cbn [fst]. rewrite Hreg. cbn [network_count scanner_state].
  assert (Hslot : forall i, 0 <= i < Z.min (hw_scan_n hw) MAX_NETWORKS ->
            found !! Z.to_nat i = Some (scanned_network hw i)).
  { intros i Hi. unfold found, scan_indices.
    rewrite !list_lookup_fmap.
    rewrite lookup_seq_lt by lia. simpl. now rewrite Z2Nat.id by lia. }
  split; [reflexivity|]. split; [exact Hslot|]. split.
  { intros i Hi. rewrite (Hslot i) by (unfold MAX_NETWORKS; lia). reflexivity. }
  split.
  { intros k Hk. apply lookup_ge_None_2. rewrite Hf. unfold MAX_NETWORKS. lia. }
  split; [rewrite Hf; lia|]. split; [reflexivity|].
  split; [rewrite Hf; unfold MAX_NETWORKS; lia|]. split; [|reflexivity].
  unfold registry_allocated in *. cbn [detected_networks].
  rewrite length_app, length_drop, Ha, Hf. unfold MAX_NETWORKS. lia.
Qed.

End Scan.

Lemma scan_registry_bounded_witness :
  let fw' := state_after (startNetworkScan crowded_hw) initial_firmware in
  network_count fw' = 50 /\
  registry fw' = map (scanned_network crowded_hw) (scan_indices 73) /\
  registry fw' !! 49%nat =
    Some (mkNetworkInfo "ap49" "24:6f:28:aa:bb:cc" 11 (-79) 3 false false) /\
  registry fw' !! 50%nat = None.
Proof.
  assert (Hm : monitoring_active (scanner_state initial_firmware) = false)
    by reflexivity.
  assert (Ha : registry_allocated initial_firmware) by reflexivity.
  destruct (scan_registry_bounded crowded_hw initial_firmware Hm Ha)
    as (Hreg & _ & Hslot & Hend & Hcnt & _).
  split; [exact Hcnt|]. split; [exact Hreg|]. split.
  - apply (Hslot 49). simpl. lia.
  - apply Hend. simpl. lia.
Defined.

(** ** Connect *)

Section Connect.

Variable hw : Hardware.

Import WString WStringFacts.

Lemma association_attempts_app (t1 t2 : list event) :
  association_attempts (t1 ++ t2) =
    association_attempts t1 ++ association_attempts t2.
Proof.
  induction t1 as [|e t1 IH]; simpl; [reflexivity|].
  destruct e; simpl; now rewrite ?IH.
Qed.

(** The polling loop always comes back, leaves the globals alone and only
    sleeps and prints dots. *)
Lemma wait_for_link_returns (budget : nat) : forall (poll : nat) (fw : Firmware),
  exists p t,
    wait_for_link hw budget poll fw = (Some p, fw, t) /\
    association_attempts t = [].
Proof.
  induction budget as [|b IH]; intros poll fw; simpl.
  - destruct (is_WL_CONNECTED (hw_status hw poll)); do 2 eexists; split; reflexivity.
  - destruct (is_WL_CONNECTED (hw_status hw poll)).
    + do 2 eexists; split; reflexivity.
    + destruct (IH (S poll) fw) as (p & t & Hw & Ht).
      exists p, (delay 500 :: Serial_print "." :: t).
      unfold bind, emit, print. simpl. rewrite Hw. split; [reflexivity|exact Ht].
Qed.

(** With the link down at every poll the loop uses up its whole budget: one
    500 ms sleep and one dot per attempt, [budget + 1] polls. *)
Lemma wait_for_link_exhausted (budget : nat) : forall (poll : nat) (fw : Firmware),
  (forall k, (poll <= k <= poll + budget)%nat ->
             is_WL_CONNECTED (hw_status hw k) = false) ->
  wait_for_link hw budget poll fw =
    (Some (S (poll + budget)), fw,
     concat (replicate budget [delay 500; Serial_print "."])).
Proof.
  induction budget as [|b IH]; intros poll fw Hdown; simpl.
  - rewrite Hdown by lia. now rewrite Nat.add_0_r.
  - rewrite Hdown by lia.
    unfold bind, emit, print. simpl.
    rewrite IH by (intros k Hk; apply Hdown; lia).
    now rewrite Nat.add_succ_r.
Qed.

(** Past the guard, [connectToWiFi] hands exactly its two arguments to
    [WiFi.begin], once. *)
Lemma connectToWiFi_attempt (name pw : string) (fw : Firmware) :
  monitoring_active (scanner_state fw) = false ->
  exists fw' t,
    connectToWiFi hw name pw fw = (Some tt, fw', t) /\
    association_attempts t = [(name, pw)].
Proof.
  intros Hm. unfold connectToWiFi. unfold bind at 1. unfold get_state.
  rewrite Hm.
  destruct (wait_for_link_returns 20 0 fw) as (p & t & Hw & Ht).
  unfold bind, println, print, emit. rewrite Hw.
  destruct (is_WL_CONNECTED (hw_status hw p)).
  - destruct checkCurrentConnectionWiFi6; do 2 eexists;
      (split; [reflexivity|]); simpl;
      rewrite association_attempts_app, Ht; reflexivity.
  - do 2 eexists. split; [reflexivity|]. simpl.
    rewrite association_attempts_app, Ht. reflexivity.
Qed.

(** C8: a connect attempt that is let through (monitoring not active) and
    during which the link is down at every poll sleeps 500 ms twenty times,
    reports the failure and leaves every global as it was.  Made from Idle,
    the mode is still Idle, [connected_to_wifi] is still false and
    [connected_ssid] is what it was; made while connected, the mode is still
    Connected and the flag and the recorded SSID of the earlier association
    stay. *)
Theorem connect_exhausted_changes_nothing (fw : Firmware) (name pw : string) :
  monitoring_active (scanner_state fw) = false ->
  (forall k, (k <= 21)%nat -> is_WL_CONNECTED (hw_status hw k) = false) ->
  let after := run (connectToWiFi hw name pw) fw in
  after =
    (fw,
     [Serial_println ("Connecting to: " +:+ name);
      Serial_print "Attempting connection";
      WiFi_mode WIFI_STA;
      WiFi_begin name pw]
     ++ concat (replicate 20 [delay 500; Serial_print "."])
     ++ [Serial_println (LF +:+ "Connection failed!");
         Serial_println "Check SSID and password, or network availability."]) /\
  mode_of (scanner_state (fst after)) = mode_of (scanner_state fw) /\
  connected_to_wifi (scanner_state (fst after)) =
    connected_to_wifi (scanner_state fw) /\
  connected_ssid (scanner_state (fst after)) = connected_ssid (scanner_state fw) /\
  (mode_of (scanner_state fw) = Idle ->
   mode_of (scanner_state (fst after)) = Idle /\
   connected_to_wifi (scanner_state (fst after)) = false) /\
  (connected_to_wifi (scanner_state fw) = true ->
   mode_of (scanner_state (fst after)) = Connected /\
   connected_to_wifi (scanner_state (fst after)) = true).
Proof.
  intros Hm Hdown after.
  assert (Hrun : after =
    (fw,
     [Serial_println ("Connecting to: " +:+ name);
      Serial_print "Attempting connection";
      WiFi_mode WIFI_STA;
      WiFi_begin name pw]
     ++ concat (replicate 20 [delay 500; Serial_print "."])
     ++ [Serial_println (LF +:+ "Connection failed!");
         Serial_println "Check SSID and password, or network availability."])).
  { subst after. unfold run, connectToWiFi. unfold bind at 1. unfold get_state.
    rewrite Hm. unfold bind, println, print, emit.
    rewrite wait_for_link_exhausted by (intros k Hk; apply Hdown; lia).
    rewrite Hdown by lia. reflexivity. }
  rewrite Hrun. cbn [fst].
  split; [reflexivity|]. split; [reflexivity|]. split; [reflexivity|].
  split; [reflexivity|]. split.
  - intros Hidle. split; [exact Hidle|].
    now destruct (mode_Idle_flags _ Hidle) as (_ & Hc & _).
  - intros Hc. split; [|exact Hc]. unfold mode_of. now rewrite Hm, Hc.
Qed.

End Connect.

Lemma connect_exhausted_changes_nothing_witness :
  fst (run (connectToWiFi bench_hw "labnet" "wrong-password") initial_firmware)
    = initial_firmware /\
  mode_of (scanner_state
             (fst (run (connectToWiFi bench_hw "labnet" "wrong-password")
                     initial_firmware))) = Idle.
Proof.
  assert (Hm : monitoring_active (scanner_state initial_firmware) = false)
    by reflexivity.
  assert (Hdown : forall k, (k <= 21)%nat ->
                    is_WL_CONNECTED (hw_status bench_hw k) = false)
    by (intros k _; reflexivity).
  destruct (connect_exhausted_changes_nothing bench_hw initial_firmware
              "labnet" "wrong-password" Hm Hdown) as (H & _ & _ & _ & Hidle & _).
  split.
  - rewrite H. reflexivity.
  - apply Hidle. reflexivity.
Defined.

(** C8 as stated fails for [connect othernet secret] typed while the station
    is connected to "labnet", with the link to the new network down at every
    poll.  The attempt is made ([WiFi.begin] is called for the
    new network), the twenty sleeps are spent and the failure is reported,
    and the mode is Connected afterwards, not Idle: [connected_to_wifi] is
    still true and [connected_ssid] is still "labnet". *)
Lemma connect_exhausted_while_connected :
  let fw := connected_firmware in
  let after := run (processCommand bench_hw "connect othernet secret") fw in
  mode_of (scanner_state fw) = Connected /\
  (forall k, is_WL_CONNECTED (hw_status bench_hw k) = false) /\
  snd after =
    [Serial_println "";
     Serial_println "Connecting to: othernet";
     Serial_print "Attempting connection";
     WiFi_mode WIFI_STA;
     WiFi_begin "othernet" "secret"]
    ++ concat (replicate 20 [delay 500; Serial_print "."])
    ++ [Serial_println (LF +:+ "Connection failed!");
        Serial_println "Check SSID and password, or network availability.";
        Serial_print PROMPT] /\
  mode_of (scanner_state (fst after)) = Connected /\
  mode_of (scanner_state (fst after)) <> Idle /\
  connected_to_wifi (scanner_state (fst after)) = true /\
  connected_ssid (scanner_state (fst after)) = "labnet".
Proof.
  cbv zeta.
  split; [reflexivity|]. split; [intros k; reflexivity|].
  split; [vm_compute; reflexivity|]. split; [vm_compute; reflexivity|].
  split; [vm_compute; discriminate|]. split; vm_compute; reflexivity.
Qed.

(** ** Case folding of the credentials *)

Section Credentials.

Variable hw : Hardware.

Import WString WStringFacts.

Lemma toLowerCase_nonempty (s : string) :
  s <> EmptyString -> toLowerCase s <> EmptyString.
Proof. destruct s; [contradiction|discriminate]. Qed.

(** A string with an upper-case letter is changed by [toLowerCase]. *)
Lemma toLowerCase_changes (s : string) :
  all_chars not_upper s = false -> toLowerCase s <> s.
Proof.
  intros Hup Heq. pose proof (toLowerCase_not_upper s) as H.
  rewrite Heq in H. congruence.
Qed.

(** Cutting a string keeps a property that all its characters have. *)
Lemma all_chars_drop (P : ascii -> bool) (n : nat) : forall s,
  all_chars P s = true -> all_chars P (drop n s) = true.
Proof.
  induction n as [|n IH]; intros s Hs; [exact Hs|].
  destruct s as [|c s]; [reflexivity|].
  simpl in Hs. apply andb_prop in Hs as [_ Hs]. simpl. now apply IH.
Qed.

Lemma all_chars_take (P : ascii -> bool) (n : nat) : forall s,
  all_chars P s = true -> all_chars P (take n s) = true.
Proof.
  induction n as [|n IH]; intros s Hs; [reflexivity|].
  destruct s as [|c s]; [reflexivity|].
  simpl in Hs. apply andb_prop in Hs as [Hc Hs]. simpl.
  now rewrite Hc, IH.
Qed.

Lemma all_chars_substring (P : ascii -> bool) (s : string) (l r : nat) :
  all_chars P s = true -> all_chars P (substring s l r) = true.
Proof.
  intros Hs. unfold substring.
  destruct (r <? l)%nat; destruct (Nat.leb _ _); try reflexivity;
    now apply all_chars_take, all_chars_drop.
Qed.

Lemma all_chars_ltrim (P : ascii -> bool) (s : string) :
  all_chars P s = true -> all_chars P (ltrim s) = true.
Proof.
  induction s as [|c s IH]; intros Hs; [reflexivity|].
  simpl. destruct (isspace c); [|exact Hs].
  simpl in Hs. apply andb_prop in Hs as [_ Hs]. now apply IH.
Qed.

Lemma all_chars_rtrim (P : ascii -> bool) (s : string) :
  all_chars P s = true -> all_chars P (rtrim s) = true.
Proof.
  induction s as [|c s IH]; intros Hs; [reflexivity|].
  simpl in Hs. apply andb_prop in Hs as [Hc Hs]. specialize (IH Hs).
  simpl. destruct (rtrim s) as [|d r].
  - destruct (isspace c); [reflexivity|]. simpl. now rewrite Hc.
  - simpl in *. now rewrite Hc, IH.
Qed.

(** The line the dispatcher works on has no upper-case letter left. *)
Lemma normalised_lower_case (cmd : string) :
  lower_case (trim (toLowerCase cmd)) = true.
Proof.
  unfold lower_case, trim.
  apply all_chars_rtrim, all_chars_ltrim, toLowerCase_not_upper.
Qed.

Lemma attempts_lower_case_app (t1 t2 : list event) :
  attempts_lower_case t1 -> attempts_lower_case t2 ->
  attempts_lower_case (t1 ++ t2).
Proof.
  unfold attempts_lower_case. rewrite association_attempts_app.
  apply Forall_app_2.
Qed.

Lemma attempts_lower_case_none (t : list event) :
  association_attempts t = [] -> attempts_lower_case t.
Proof. unfold attempts_lower_case. intros ->. constructor. Qed.

Lemma lower_case_only_bind {A B} (m : M A) (k : A -> M B) :
  lower_case_only m -> (forall a, lower_case_only (k a)) ->
  lower_case_only (bind m k).
Proof.
  intros Hm Hk fw. unfold bind. specialize (Hm fw).
  destruct (m fw) as [[[a|] fw1] t1]; [|exact Hm].
  specialize (Hk a fw1). destruct (k a fw1) as [[ob fw2] t2].
  now apply attempts_lower_case_app.
Qed.

Lemma lower_case_only_emits (t : list event) :
  association_attempts t = [] -> lower_case_only (emits t).
Proof. intros H fw. now apply attempts_lower_case_none. Qed.

Lemma lower_case_only_emit (e : event) :
  association_attempts [e] = [] -> lower_case_only (emit e).
Proof. intros H fw. now apply attempts_lower_case_none. Qed.

Lemma lower_case_only_begin (name pw : string) :
  lower_case name = true -> lower_case pw = true ->
  lower_case_only (emit (WiFi_begin name pw)).
Proof.
  intros Hn Hp fw. unfold attempts_lower_case. simpl.
  constructor; [|constructor]. simpl. now rewrite Hn, Hp.
Qed.

Lemma lower_case_only_silent {A} (m : M A) :
  (forall fw, snd (m fw) = []) -> lower_case_only m.
Proof. intros H fw. rewrite H. constructor. Qed.

Lemma lower_case_only_for_each {A} (body : A -> M unit) (l : list A) :
  (forall i, lower_case_only (body i)) -> lower_case_only (for_each l body).
Proof.
  intros Hb. induction l as [|i l IH]; simpl.
  - now apply lower_case_only_silent.
  - apply lower_case_only_bind; [apply Hb | intros _; exact IH].
Qed.

Lemma lower_case_only_wait (budget : nat) : forall poll,
  lower_case_only (wait_for_link hw budget poll).
Proof.
  intros poll fw.
  destruct (wait_for_link_returns hw budget poll fw) as (p & t & -> & Ht).
  now apply attempts_lower_case_none.
Qed.

Lemma no_attempt_in_rows {A} (row : A -> event) (l : list A) :
  (forall i, association_attempts [row i] = []) ->
  association_attempts (map row l) = [].
Proof.
  intros Hrow. induction l as [|i l IH]; [reflexivity|].
  change (map row (i :: l)) with ([row i] ++ map row l).
  now rewrite association_attempts_app, Hrow, IH.
Qed.

(** Steps that print, call the driver (other than [WiFi.begin]) or only
    touch the globals. *)
Ltac lower_case_steps :=
  repeat first
    [ apply lower_case_only_bind; [|intros ?]
    | apply lower_case_only_emit; reflexivity
    | apply lower_case_only_emits; reflexivity
    | apply lower_case_only_silent; intros ?; reflexivity
    | apply lower_case_only_begin; assumption
    | apply lower_case_only_wait
    | match goal with
      | |- lower_case_only (if ?b then _ else _) => destruct b
      | |- lower_case_only (println _) => unfold println
      | |- lower_case_only (print _) => unfold print
      end ].

Lemma lower_case_only_connectToWiFi (name pw : string) :
  lower_case name = true -> lower_case pw = true ->
  lower_case_only (connectToWiFi hw name pw).
Proof.
  intros Hn Hp. unfold connectToWiFi.
  apply lower_case_only_bind; [lower_case_steps | intros s].
  destruct (monitoring_active s); lower_case_steps.
Qed.

Lemma lower_case_only_startNetworkScan :
  lower_case_only (startNetworkScan hw).
Proof.
  unfold startNetworkScan.
  apply lower_case_only_bind; [lower_case_steps | intros s].
  destruct (monitoring_active s); [lower_case_steps|].
  do 5 (apply lower_case_only_bind; [lower_case_steps | intros ?]).
  apply lower_case_only_bind; [|intros ?; lower_case_steps].
  destruct (hw_scan_n hw =? 0); [lower_case_steps|].
  do 4 (apply lower_case_only_bind; [lower_case_steps | intros ?]).
  apply lower_case_only_bind; [|intros ?; lower_case_steps].
  apply lower_case_only_for_each. intros i. unfold scan_store.
  lower_case_steps.
Qed.

Lemma lower_case_only_showNetworks : lower_case_only showNetworks.
Proof.
  unfold showNetworks. lower_case_steps.
  apply lower_case_only_emits, no_attempt_in_rows. reflexivity.
Qed.

Lemma lower_case_only_exportResults : lower_case_only (exportResults hw).
Proof.
  unfold exportResults. lower_case_steps.
  apply lower_case_only_emits, no_attempt_in_rows. reflexivity.
Qed.

(** Whatever the line, no upper-case letter reaches [WiFi.begin]. *)
Lemma lower_case_only_processCommand (cmd : string) :
  lower_case_only (processCommand hw cmd).
Proof.
  unfold processCommand.
  pose proof (normalised_lower_case cmd) as Hc.
  set (c := trim (toLowerCase cmd)) in *.
  apply lower_case_only_bind; [lower_case_steps | intros _].
  apply lower_case_only_bind; [|intros _; lower_case_steps].
  destruct (eqs c "help" || eqs c "h"); [unfold showHelp; lower_case_steps|].
  destruct (eqs c "scan" || eqs c "s"); [apply lower_case_only_startNetworkScan|].
  destruct (startsWith c "connect ").
  { destruct (0 <? _); [|lower_case_steps].
    apply lower_case_only_connectToWiFi; unfold lower_case, substring_from;
      repeat apply all_chars_substring; exact Hc. }
  destruct (eqs c "disconnect" || eqs c "dc");
    [unfold disconnectWiFi; lower_case_steps|].
  destruct (startsWith c "monitor ").
  { destruct (_ && _); [|lower_case_steps].
    unfold startPacketMonitoring, updateMonitoringStatus. lower_case_steps. }
  destruct (eqs c "monitor" || eqs c "m");
    [unfold startPacketMonitoring, updateMonitoringStatus; lower_case_steps|].
  destruct (eqs c "stop" || eqs c "x");
    [unfold stopPacketMonitoring; lower_case_steps|].
  destruct (eqs c "networks" || eqs c "n"); [apply lower_case_only_showNetworks|].
  destruct (eqs c "status" || eqs c "st"); [unfold showStatus; lower_case_steps|].
  destruct (startsWith c "channel "); [unfold changeChannel; lower_case_steps|].
  destruct (eqs c "clear" || eqs c "cls"); [unfold printBanner; lower_case_steps|].
  destruct (eqs c "info" || eqs c "i"); [unfold systemInfo; lower_case_steps|].
  destruct (eqs c "export" || eqs c "e"); [apply lower_case_only_exportResults|].
  destruct (eqs c "reset" || eqs c "r"); [unfold restart; lower_case_steps|].
  lower_case_steps.
Qed.

Lemma trace_of_snd {A} (m : M A) (fw : Firmware) : trace_of m fw = snd (m fw).
Proof. unfold trace_of, run. now destruct (m fw) as [[o f] t]. Qed.

(** C10: the dispatcher lowers the whole line first, so for a line
    [connect <ssid> <password>] (keyword in any case, both tokens non-empty,
    SSID without blanks, password without trailing white space) typed while
    monitoring is off, the
    one call to [WiFi.begin] receives the lowered SSID and the lowered
    password; a credential with an upper-case letter therefore never reaches
    the driver as typed.  More generally, whatever line is typed in whatever
    state, the arguments of every [WiFi.begin] are free of upper-case
    letters. *)
Theorem connect_credentials_lowered
    (fw : Firmware) (keyword name pw : string) :
  monitoring_active (scanner_state fw) = false ->
  toLowerCase keyword = "connect" ->
  (0 < String.length name)%nat -> all_chars not_blank name = true ->
  (0 < String.length pw)%nat -> rtrim pw = pw ->
  let line := keyword +:+ " " +:+ name +:+ " " +:+ pw in
  association_attempts (trace_of (processCommand hw line) fw) =
    [(toLowerCase name, toLowerCase pw)] /\
  (lower_case name = false -> toLowerCase name <> name) /\
  (lower_case pw = false -> toLowerCase pw <> pw) /\
  (forall (any_line : string) (any_fw : Firmware),
     attempts_lower_case (trace_of (processCommand hw any_line) any_fw)).
Proof.
  intros Hm Hkw Hname Hblank Hpw Htrim line.
  assert (Hname' : name <> EmptyString) by (intros ->; simpl in Hname; lia).
  assert (Hpw' : pw <> EmptyString) by (intros ->; simpl in Hpw; lia).
  split; [|split; [apply toLowerCase_changes|split; [apply toLowerCase_changes|]]];
    [|intros any_line any_fw; rewrite trace_of_snd;
      apply lower_case_only_processCommand].
  set (lname := toLowerCase name). set (lpw := toLowerCase pw).
  assert (Hline : trim (toLowerCase line) = "connect " +:+ (lname +:+ String " " lpw)).
  { unfold line. rewrite !toLowerCase_append, Hkw. fold lname lpw.
    unfold trim.
    change (ltrim ("connect" +:+ toLowerCase " " +:+ lname +:+ toLowerCase " " +:+ lpw))
      with ("connect " +:+ (lname +:+ String " " lpw)).
    change (lname +:+ String " " lpw) with (lname +:+ (" " +:+ lpw)).
    rewrite <- !append_assoc.
    apply rtrim_append.
    - unfold lpw. now rewrite rtrim_toLowerCase, Htrim.
    - now apply toLowerCase_nonempty. }
  assert (Hidx : indexOf (lname +:+ String " " lpw) " " = Z.of_nat (String.length lname)).
  { apply indexOf_blank. unfold lname. now rewrite toLowerCase_not_blank. }
  assert (Hlen : (0 < String.length lname)%nat).
  { unfold lname. now rewrite toLowerCase_length. }
  assert (Hssid : substring (lname +:+ String " " lpw) 0
                    (Z.to_nat (Z.of_nat (String.length lname))) = lname).
  { rewrite Nat2Z.id. apply substring_0_append. }
  assert (Hpass : substring_from (lname +:+ String " " lpw)
                    (Z.to_nat (Z.of_nat (String.length lname) + 1)) = lpw).
  { change (lname +:+ String " " lpw) with (lname +:+ (" " +:+ lpw)).
    rewrite <- append_assoc.
    replace (Z.to_nat (Z.of_nat (String.length lname) + 1))
      with (String.length (lname +:+ " "))
      by (rewrite length_append; simpl; lia).
    apply substring_from_append. }
  destruct (connectToWiFi_attempt hw lname lpw fw Hm) as (fw' & t & Hrun & Hatt).
  unfold trace_of.
  rewrite (run_command hw line (connectToWiFi hw lname lpw) fw fw' t
             (Serial_println "" :: t ++ [Serial_print PROMPT])).
  - cbn [snd association_attempts].
    rewrite association_attempts_app, Hatt. reflexivity.
  - rewrite (processCommand_connect hw line _ fw Hline), Hidx, Hssid, Hpass.
    replace (0 <? Z.of_nat (String.length lname)) with true
      by (symmetry; apply Z.ltb_lt; lia).
    reflexivity.
  - exact Hrun.
  - reflexivity.
Qed.

End Credentials.

Lemma connect_credentials_lowered_witness :
  association_attempts
    (trace_of (processCommand bench_hw "Connect MyNet Pw123") initial_firmware) =
    [("mynet", "pw123")] /\
  WString.toLowerCase "MyNet" <> "MyNet".
Proof.
  destruct (connect_credentials_lowered bench_hw initial_firmware
              "Connect" "MyNet" "Pw123")
    as (Hatt & Hname & _ & _);
    [reflexivity | reflexivity | simpl; lia | reflexivity
    | simpl; lia | reflexivity | ].
  split; [exact Hatt | apply Hname; reflexivity].
Defined.

(** * Further properties of the sketch *)

(** ** Reports *)

Section Reports.

Variable hw : Hardware.

Import WString WStringFacts.

Lemma report_only_bind {A B} (m : M A) (k : A -> M B) :
  report_only m -> (forall a, report_only (k a)) -> report_only (bind m k).
Proof.
  intros Hm Hk fw. destruct (Hm fw) as (a & t1 & E1 & S1).
  destruct (Hk a fw) as (b & t2 & E2 & S2).
  exists b, (t1 ++ t2). unfold bind. rewrite E1, E2. split; [reflexivity|].
  rewrite forallb_app, S1, S2. reflexivity.
Qed.

Lemma report_only_emits (t : list event) :
  forallb is_serial t = true -> report_only (emits t).
Proof. intros H fw. exists tt, t. split; [reflexivity|exact H]. Qed.

Lemma report_only_ret {A} (a : A) : report_only (ret a).
Proof. intros fw. exists a, []. split; reflexivity. Qed.

Lemma report_only_read {A} (f : Firmware -> A) :
  report_only (fun fw => (Some (f fw), fw, [])).
Proof. intros fw. exists (f fw), []. split; reflexivity. Qed.

Lemma rows_are_serial {A} (row : A -> event) (l : list A) :
  (forall i, is_serial (row i) = true) -> forallb is_serial (map row l) = true.
Proof.
  intros H. induction l as [|i l IH]; simpl; [reflexivity|].
  now rewrite H, IH.
Qed.

Lemma driver_commands_serial (t : list event) :
  forallb is_serial t = true -> driver_commands t = [].
Proof.
  induction t as [|e t IH]; simpl; [reflexivity|].
  intros [He Ht]%andb_prop. rewrite He. simpl. now apply IH.
Qed.

Ltac report_steps :=
  repeat first
    [ apply report_only_bind; [|intros ?]
    | apply (report_only_emits [_]); reflexivity
    | apply report_only_emits; reflexivity
    | apply report_only_ret
    | apply (report_only_read scanner_state)
    | apply (report_only_read network_count)
    | apply (report_only_read detected_networks)
    | match goal with
      | |- report_only (if ?b then _ else _) => destruct b
      end ].

Lemma report_only_showHelp : report_only showHelp.
Proof. unfold showHelp. report_steps. Qed.

Lemma report_only_printBanner : report_only (printBanner hw).
Proof. unfold printBanner. report_steps. Qed.

Lemma report_only_systemInfo : report_only (systemInfo hw).
Proof. unfold systemInfo. report_steps. Qed.

Lemma report_only_showStatus : report_only (showStatus hw).
Proof. unfold showStatus. report_steps. Qed.

Lemma report_only_showNetworks : report_only showNetworks.
Proof.
  unfold showNetworks. report_steps.
  apply report_only_emits, rows_are_serial. reflexivity.
Qed.

Lemma report_only_exportResults : report_only (exportResults hw).
Proof.
  unfold exportResults. report_steps.
  apply report_only_emits, rows_are_serial. reflexivity.
Qed.

Lemma report_only_updateMonitoringStatus : report_only updateMonitoringStatus.
Proof. unfold updateMonitoringStatus. report_steps. Qed.

(** The reporting commands ([help], [networks], [status], [info], [export],
    [clear] and their short forms) come back, change no global and give no
    command to the radio or the chip, whatever the state: no mode change,
    association, disconnect, scan, channel or promiscuous setting, no sleep
    and no restart; every event of their trace is serial output.  The values
    they print are read from the driver and the chip ([WiFi.localIP],
    [WiFi.RSSI], [WiFi.macAddress], [ESP.getFreeHeap], [millis] and the
    like); those reads are not events and are not counted here. *)
Theorem reporting_commands_read_only (cmd : string) (fw : Firmware) :
  In (trim (toLowerCase cmd))
     ["help"; "h"; "networks"; "n"; "status"; "st"; "info"; "i";
      "export"; "e"; "clear"; "cls"] ->
  exists t,
    processCommand hw cmd fw =
      (Some tt, fw, Serial_println "" :: t ++ [Serial_print PROMPT]) /\
    forallb is_serial t = true /\
    driver_commands (trace_of (processCommand hw cmd) fw) = [].
Proof.
  intros Hin.
  assert (Hop : exists op : M unit, report_only op /\
            processCommand hw cmd fw = (println "" ;; op ;; print PROMPT) fw).
  { unfold processCommand. set (c := trim (toLowerCase cmd)) in *.
    simpl in Hin.
    repeat (destruct Hin as [<- | Hin]);
      [ exists showHelp | exists showHelp | exists showNetworks
      | exists showNetworks | exists (showStatus hw) | exists (showStatus hw)
      | exists (systemInfo hw) | exists (systemInfo hw)
      | exists (exportResults hw) | exists (exportResults hw)
      | exists (print (ESC +:+ "[2J" +:+ ESC +:+ "[H") ;; printBanner hw)
      | exists (print (ESC +:+ "[2J" +:+ ESC +:+ "[H") ;; printBanner hw)
      | contradiction ];
      (split; [|reflexivity]);
      first [ apply report_only_showHelp | apply report_only_showNetworks
            | apply report_only_showStatus | apply report_only_systemInfo
            | apply report_only_exportResults
            | apply report_only_bind;
                [apply (report_only_emits [_]); reflexivity
                | intros _; apply report_only_printBanner] ]. }
  destruct Hop as (op & Hrep & Hcmd).
  destruct (Hrep fw) as ([] & t & Hrun & Hser).
  assert (Hfull : processCommand hw cmd fw =
            (Some tt, fw, Serial_println "" :: t ++ [Serial_print PROMPT])).
  { rewrite Hcmd. unfold bind, println, print, emit. rewrite Hrun. reflexivity. }
  exists t. split; [exact Hfull|]. split; [exact Hser|].
  unfold trace_of, run. rewrite Hfull. cbn [snd].
  apply driver_commands_serial. simpl. now rewrite forallb_app, Hser.
Qed.

End Reports.

Lemma reporting_commands_read_only_witness :
  state_after (processCommand bench_hw "Status") monitoring_firmware
    = monitoring_firmware /\
  driver_commands (trace_of (processCommand bench_hw "Status") monitoring_firmware)
    = [].
Proof.
  destruct (reporting_commands_read_only bench_hw "Status" monitoring_firmware)
    as (t & Hrun & _ & Hdrv).
  - simpl. tauto.
  - split; [|exact Hdrv]. unfold state_after, run. rewrite Hrun. reflexivity.
Defined.

(** ** The session invariant *)

Section Invariant.

Variable hw : Hardware.

Import WString WStringFacts.

Lemma session_invariant_initial : session_invariant initial_firmware.
Proof.
  unfold session_invariant, is_u32, registry_allocated, UINT32_MOD, MAX_NETWORKS.
  simpl. repeat split; try reflexivity; lia.
Qed.

Lemma keeps_invariant_bind {A B} (m : M A) (k : A -> M B) :
  keeps_invariant m -> (forall a, keeps_invariant (k a)) ->
  keeps_invariant (bind m k).
Proof.
  intros Hm Hk fw Hinv. unfold bind. specialize (Hm fw Hinv).
  destruct (m fw) as [[[a|] fw1] t1]; [|exact Hm].
  specialize (Hk a fw1 Hm). now destruct (k a fw1) as [[ob fw2] t2].
Qed.

Lemma keeps_invariant_report {A} (m : M A) :
  report_only m -> keeps_invariant m.
Proof. intros H fw Hinv. destruct (H fw) as (a & t & -> & _). exact Hinv. Qed.

Lemma keeps_invariant_if {A} (b : bool) (m1 m2 : M A) :
  keeps_invariant m1 -> keeps_invariant m2 ->
  keeps_invariant (if b then m1 else m2).
Proof. now destruct b. Qed.

Lemma keeps_invariant_println (l : string) : keeps_invariant (println l).
Proof. now intros fw H. Qed.

Lemma keeps_invariant_print (l : string) : keeps_invariant (print l).
Proof. now intros fw H. Qed.

Lemma keeps_invariant_restart : keeps_invariant restart.
Proof. intros fw _. apply session_invariant_initial. Qed.

Lemma keeps_invariant_disconnectWiFi : keeps_invariant disconnectWiFi.
Proof.
  intros [s nets cnt]. unfold session_invariant, disconnectWiFi, bind, get_state.
  cbn [scanner_state]. destruct (connected_to_wifi s) eqn:Hc; simpl.
  - rewrite andb_false_r. tauto.
  - rewrite Hc. tauto.
Qed.

Lemma keeps_invariant_stopPacketMonitoring : keeps_invariant stopPacketMonitoring.
Proof.
  intros [s nets cnt]. unfold session_invariant, stopPacketMonitoring, bind, get_state.
  cbn [scanner_state]. destruct (monitoring_active s) eqn:Hm; simpl.
  - tauto.
  - rewrite Hm. tauto.
Qed.

Lemma keeps_invariant_changeChannel (ch : Z) : keeps_invariant (changeChannel ch).
Proof.
  intros [s nets cnt]. unfold session_invariant, changeChannel.
  destruct (Z.ltb_spec ch 1); [simpl; tauto|].
  destruct (Z.ltb_spec 14 ch); [simpl; tauto|].
  unfold bind, get_state. cbn [scanner_state orb].
  destruct (monitoring_active s) eqn:Hm; simpl; rewrite Hm; intuition lia.
Qed.

Lemma keeps_invariant_startPacketMonitoring (ch : Z) :
  keeps_invariant (startPacketMonitoring ch).
Proof.
  intros [s nets cnt]. unfold session_invariant, startPacketMonitoring, bind, get_state.
  cbn [scanner_state]. destruct (connected_to_wifi s) eqn:Hc; [simpl; now rewrite Hc|].
  set (e := if ch =? 0 then current_channel s else ch).
  destruct (Z.ltb_spec e 1); [simpl; now rewrite Hc|].
  destruct (Z.ltb_spec 14 e); [simpl; now rewrite Hc|].
  simpl. rewrite Hc. unfold is_u32, UINT32_MOD. intuition lia.
Qed.

Lemma keeps_invariant_connectToWiFi (name pw : string) :
  keeps_invariant (connectToWiFi hw name pw).
Proof.
  intros [s nets cnt] Hinv. unfold connectToWiFi. unfold bind at 1.
  unfold get_state. cbn [scanner_state].
  destruct (monitoring_active s) eqn:Hm; [exact Hinv|].
  destruct (wait_for_link_returns hw 20 0 (mkFirmware s nets cnt))
    as (p & t & Hw & _).
  unfold bind, println, print, emit. rewrite Hw.
  destruct (is_WL_CONNECTED (hw_status hw p)); [|exact Hinv].
  assert (Hgoal : session_invariant
            (mkFirmware (set_connection true name s) nets cnt)).
  { revert Hinv. unfold session_invariant. simpl. rewrite Hm. simpl.
    intuition discriminate. }
  destruct checkCurrentConnectionWiFi6; exact Hgoal.
Qed.

Lemma keeps_invariant_startNetworkScan : keeps_invariant (startNetworkScan hw).
Proof.
  intros fw Hinv.
  destruct (monitoring_active (scanner_state fw)) eqn:Hm.
  - now rewrite (startNetworkScan_rejected hw fw Hm).
  - assert (Ha : registry_allocated fw) by (unfold session_invariant in Hinv; tauto).
    destruct (startNetworkScan_state hw fw Hm Ha) as [t ->]. cbn [fst snd].
    set (found := map (scanned_network hw) (scan_indices (hw_scan_n hw))).
    assert (Hf : length found = Z.to_nat (Z.min (hw_scan_n hw) MAX_NETWORKS))
      by (unfold found; now rewrite length_map, scan_indices_length).
    revert Hinv. unfold session_invariant, registry_allocated.
    cbn [scanner_state detected_networks network_count].
    rewrite length_app, length_drop, Hf. unfold MAX_NETWORKS.
    intuition lia.
Qed.

Lemma keeps_invariant_processCommand (cmd : string) :
  keeps_invariant (processCommand hw cmd).
Proof.
  unfold processCommand.
    apply keeps_invariant_bind; [apply keeps_invariant_println | intros _].
    apply keeps_invariant_bind; [|intros _; apply keeps_invariant_print].
    repeat
      match goal with
      | |- keeps_invariant (if _ then _ else _) => apply keeps_invariant_if
      | |- keeps_invariant (bind _ _) => apply keeps_invariant_bind; [|intros _]
      | |- keeps_invariant (emit _) => now intros ? ?
      | |- keeps_invariant (println _) => apply keeps_invariant_println
      | |- keeps_invariant (print _) => apply keeps_invariant_print
      | |- keeps_invariant (startNetworkScan _) =>
          apply keeps_invariant_startNetworkScan
      | |- keeps_invariant (connectToWiFi _ _ _) =>
          apply keeps_invariant_connectToWiFi
      | |- keeps_invariant disconnectWiFi => apply keeps_invariant_disconnectWiFi
      | |- keeps_invariant (startPacketMonitoring _) =>
          apply keeps_invariant_startPacketMonitoring
      | |- keeps_invariant stopPacketMonitoring =>
          apply keeps_invariant_stopPacketMonitoring
      | |- keeps_invariant (changeChannel _) => apply keeps_invariant_changeChannel
      | |- keeps_invariant restart => apply keeps_invariant_restart
      | |- keeps_invariant showHelp =>
          apply keeps_invariant_report, report_only_showHelp
      | |- keeps_invariant showNetworks =>
          apply keeps_invariant_report, report_only_showNetworks
      | |- keeps_invariant (showStatus _) =>
          apply keeps_invariant_report, report_only_showStatus
      | |- keeps_invariant (systemInfo _) =>
          apply keeps_invariant_report, report_only_systemInfo
      | |- keeps_invariant (exportResults _) =>
          apply keeps_invariant_report, report_only_exportResults
      | |- keeps_invariant (printBanner _) =>
          apply keeps_invariant_report, report_only_printBanner
      | |- keeps_invariant (ret _) =>
          apply keeps_invariant_report, report_only_ret
      end.
Qed.

(** Every command line, in every state that satisfies the session invariant
    and with any answers from the hardware, leaves a state that satisfies it:
    channel within 1..14, monitoring and connected never both set,
    [scanning_active] never set, no SSID recorded unless connected, counters
    within 32 bits, the registry array at its size and [network_count]
    within 0..50. *)
Theorem processCommand_keeps_invariant (cmd : string) (fw : Firmware) :
  session_invariant fw ->
  session_invariant (state_after (processCommand hw cmd) fw).
Proof.
  intros Hinv. pose proof (keeps_invariant_processCommand cmd fw Hinv) as H.
  unfold state_after, run.
  now destruct (processCommand hw cmd fw) as [[o fw'] t].
Qed.

End Invariant.

Lemma processCommand_keeps_invariant_witness :
  session_invariant
    (state_after (processCommand crowded_hw "scan") initial_firmware).
Proof.
  apply (processCommand_keeps_invariant crowded_hw "scan" initial_firmware).
  unfold session_invariant, is_u32, registry_allocated, UINT32_MOD, MAX_NETWORKS.
  simpl. repeat split; try reflexivity; lia.
Defined.

Lemma deliver_frame_invariant
    (pkt : wifi_promiscuous_pkt_t) (type : wifi_promiscuous_pkt_type_t)
    (fw : Firmware) :
  session_invariant fw -> session_invariant (deliver_frame pkt type fw).
Proof.
  destruct fw as [s nets cnt].
  unfold deliver_frame. cbn [scanner_state detected_networks network_count].
  destruct (packetSnifferCallback_frame pkt type s) as (Hs & Hm & Hc & Hch & Hn).
  cbv zeta in Hs, Hm, Hc, Hch, Hn.
  unfold session_invariant, registry_allocated.
  cbn [scanner_state detected_networks network_count].
  rewrite Hs, Hm, Hc, Hch, Hn.
  intros (H1 & H2 & H3 & H4 & (Ht & Hg & Hd & Hl) & H6 & H7).
  repeat split; try assumption; try apply H1; try apply H7;
    unfold packetSnifferCallback;
    destruct (monitoring_active s);
    destruct ((-80 <? rx_rssi pkt) && (24 <? rx_sig_len pkt)), type; simpl;
    first [ apply u32_incr_range | apply Ht | apply Hg | apply Hd | apply Hl ].
Qed.

(** A delivered frame touches nothing but the four counters and keeps the
    session invariant, wrap-around of a counter included. *)
Theorem deliver_frame_keeps_invariant
    (pkt : wifi_promiscuous_pkt_t) (type : wifi_promiscuous_pkt_type_t)
    (fw : Firmware) :
  session_invariant fw ->
  let fw' := deliver_frame pkt type fw in
  session_invariant fw' /\
  detected_networks fw' = detected_networks fw /\
  network_count fw' = network_count fw /\
  mode_of (scanner_state fw') = mode_of (scanner_state fw) /\
  current_channel (scanner_state fw') = current_channel (scanner_state fw) /\
  connected_ssid (scanner_state fw') = connected_ssid (scanner_state fw).
Proof.
  intros Hinv fw'. subst fw'.
  split; [now apply deliver_frame_invariant|].
  destruct fw as [s nets cnt].
  unfold deliver_frame. cbn [scanner_state detected_networks network_count].
  destruct (packetSnifferCallback_frame pkt type s) as (Hs & Hm & Hc & Hch & Hn).
  cbv zeta in Hs, Hm, Hc, Hch, Hn.
  repeat split; auto. unfold mode_of. now rewrite Hs, Hm, Hc.
Qed.

Lemma deliver_frame_keeps_invariant_witness :
  session_invariant (deliver_frame sample_pkt WIFI_PKT_CTRL monitoring_firmware).
Proof.
  apply (deliver_frame_keeps_invariant sample_pkt WIFI_PKT_CTRL monitoring_firmware).
  unfold session_invariant, is_u32, registry_allocated, UINT32_MOD, MAX_NETWORKS.
  simpl. repeat split; try reflexivity; lia.
Defined.

(** ** Connect, disconnect *)

Section Association.

Variable hw : Hardware.

Import WString WStringFacts.

(** The polling loop when the link first shows up at poll [poll + k], or not
    within the budget ([k = budget]): [k] sleeps, [k + 1] polls. *)
Lemma wait_for_link_first_up (k : nat) : forall (budget poll : nat) (fw : Firmware),
  (k <= budget)%nat ->
  (forall j, (j < k)%nat -> is_WL_CONNECTED (hw_status hw (poll + j)) = false) ->
  ((k < budget)%nat -> is_WL_CONNECTED (hw_status hw (poll + k)) = true) ->
  wait_for_link hw budget poll fw =
    (Some (S (poll + k)), fw, concat (replicate k [delay 500; Serial_print "."])).
Proof.
  induction k as [|k IH]; intros budget poll fw Hk Hdown Hup.
  - rewrite Nat.add_0_r in *. destruct budget as [|b]; simpl.
    + now destruct (is_WL_CONNECTED (hw_status hw poll)).
    + rewrite Hup by lia. reflexivity.
  - destruct budget as [|b]; [lia|]. simpl.
    pose proof (Hdown 0%nat ltac:(lia)) as H0. rewrite Nat.add_0_r in H0.
    rewrite H0. unfold bind, emit, print. simpl.
    rewrite (IH b (S poll) fw).
    + now rewrite Nat.add_succ_r.
    + lia.
    + intros j Hj. replace (S poll + j)%nat with (poll + S j)%nat by lia.
      apply Hdown. lia.
    + intros Hlt. replace (S poll + k)%nat with (poll + S k)%nat by lia.
      apply Hup. lia.
Qed.

Lemma driver_commands_app (t1 t2 : list event) :
  driver_commands (t1 ++ t2) = driver_commands t1 ++ driver_commands t2.
Proof. unfold driver_commands. apply List.filter_app. Qed.

Lemma driver_commands_cons (e : event) (t : list event) :
  driver_commands (e :: t) =
    if is_serial e then driver_commands t else e :: driver_commands t.
Proof. unfold driver_commands. simpl. now destruct (is_serial e). Qed.

Lemma driver_commands_waiting (k : nat) :
  driver_commands (concat (replicate k [delay 500; Serial_print "."])) =
    replicate k (delay 500).
Proof. induction k as [|k IH]; simpl; [reflexivity|]. now rewrite IH. Qed.

Lemma connectToWiFi_run (fw : Firmware) (name pw : string) (k : nat) :
  monitoring_active (scanner_state fw) = false ->
  (k <= 20)%nat ->
  (forall j, (j < k)%nat -> is_WL_CONNECTED (hw_status hw j) = false) ->
  ((k < 20)%nat -> is_WL_CONNECTED (hw_status hw k) = true) ->
  exists suffix,
    forallb is_serial suffix = true /\
    run (connectToWiFi hw name pw) fw =
      ((if is_WL_CONNECTED (hw_status hw (S k))
        then mkFirmware (set_connection true name (scanner_state fw))
                        (detected_networks fw) (network_count fw)
        else fw),
       [Serial_println ("Connecting to: " +:+ name);
        Serial_print "Attempting connection";
        WiFi_mode WIFI_STA; WiFi_begin name pw]
       ++ concat (replicate k [delay 500; Serial_print "."]) ++ suffix).
Proof.
  intros Hm Hk Hdown Hup.
  unfold run, connectToWiFi. unfold bind at 1. unfold get_state. rewrite Hm.
  unfold bind, println, print, emit.
  rewrite (wait_for_link_first_up k 20 0 fw Hk Hdown Hup).
  cbn [Nat.add].
  destruct (is_WL_CONNECTED (hw_status hw (S k)));
    [destruct checkCurrentConnectionWiFi6|];
    unfold put_state; cbv beta iota zeta; cbn [fst snd app];
    eexists; (split; [|reflexivity]); reflexivity.
Qed.

(** A connect attempt with monitoring off sleeps 500 ms once per poll that
    finds the link down, at most twenty times, and then decides on one more
    reading of the status: connected sets the flag and records the SSID,
    anything else leaves every global as it was.  So a link that is up at the
    last poll of the loop but down at the final reading is reported as a
    failure, and one that comes up only at the final reading as a success.
    With [k] sleeps the loop reads [WiFi.status()] [k + 1] times and the
    decision is reading number [k + 2]; the commands given to the radio are
    [WiFi.mode(WIFI_STA)] and [WiFi.begin], followed by the [k] sleeps.  On
    success the procedure also reads the address, gateway, DNS, signal
    strength and channel of the link to print them; those reads are not
    events. *)
Theorem connect_outcome (fw : Firmware) (name pw : string) (k : nat) :
  monitoring_active (scanner_state fw) = false ->
  (k <= 20)%nat ->
  (forall j, (j < k)%nat -> is_WL_CONNECTED (hw_status hw j) = false) ->
  ((k < 20)%nat -> is_WL_CONNECTED (hw_status hw k) = true) ->
  let after := run (connectToWiFi hw name pw) fw in
  driver_commands (snd after) =
    [WiFi_mode WIFI_STA; WiFi_begin name pw] ++ replicate k (delay 500) /\
  fst after =
    (if is_WL_CONNECTED (hw_status hw (S k))
     then mkFirmware (set_connection true name (scanner_state fw))
                     (detected_networks fw) (network_count fw)
     else fw) /\
  wait_for_link hw 20 0 fw =
    (Some (S k), fw, concat (replicate k [delay 500; Serial_print "."])) /\
  In (Serial_println (LF +:+ (if is_WL_CONNECTED (hw_status hw (S k))
                              then "Connection successful!"
                              else "Connection failed!")))
     (snd after).
Proof.
  intros Hm Hk Hdown Hup after. subst after.
  assert (Hwait := wait_for_link_first_up k 20 0 fw Hk Hdown Hup).
  cbn [Nat.add] in Hwait.
  split; [|split; [|split; [exact Hwait|]]].
  3: { unfold run, connectToWiFi. unfold bind at 1. unfold get_state. rewrite Hm.
    unfold bind, println, print, emit. rewrite Hwait.
    destruct (is_WL_CONNECTED (hw_status hw (S k)));
      [destruct checkCurrentConnectionWiFi6|];
      unfold put_state; cbv beta iota zeta; cbn [fst snd app];
      do 4 apply in_cons; apply in_or_app; right; left; reflexivity. }
  all: destruct (connectToWiFi_run fw name pw k Hm Hk Hdown Hup)
    as (suffix & Hser & ->); cbn [fst snd].
  2: reflexivity.
  cbn [app]. rewrite !driver_commands_cons. cbn [is_serial].
  rewrite driver_commands_app, driver_commands_waiting,
    (driver_commands_serial suffix Hser).
  now rewrite app_nil_r.
Qed.

(** From Idle with no SSID recorded, a connect that succeeds followed by a
    disconnect brings every global back to what it was, and the disconnect
    makes exactly one driver call, [WiFi.disconnect()]. *)
Theorem connect_disconnect_round_trip
    (fw : Firmware) (name pw : string) (k : nat) :
  mode_of (scanner_state fw) = Idle ->
  connected_ssid (scanner_state fw) = EmptyString ->
  (k <= 20)%nat ->
  (forall j, (j < k)%nat -> is_WL_CONNECTED (hw_status hw j) = false) ->
  ((k < 20)%nat -> is_WL_CONNECTED (hw_status hw k) = true) ->
  is_WL_CONNECTED (hw_status hw (S k)) = true ->
  let connected := state_after (connectToWiFi hw name pw) fw in
  mode_of (scanner_state connected) = Connected /\
  connected_ssid (scanner_state connected) = name /\
  state_after disconnectWiFi connected = fw /\
  driver_commands (trace_of disconnectWiFi connected) = [WiFi_disconnect].
Proof.
  intros Hidle Hssid Hk Hdown Hup Hfinal connected.
  destruct (mode_Idle_flags _ Hidle) as (Hm & Hc & Hs).
  destruct (connectToWiFi_run fw name pw k Hm Hk Hdown Hup)
    as (suffix & _ & Hrun).
  subst connected. unfold state_after. rewrite Hrun, Hfinal. cbn [fst].
  destruct fw as [s nets cnt]. destruct s as [sa ma ca ch pc dp mp cp cs].
  simpl in *. subst. repeat split; reflexivity.
Qed.

End Association.

Lemma connect_outcome_witness :
  driver_commands (trace_of (connectToWiFi friendly_hw "labnet" "secret") initial_firmware)
    = [WiFi_mode WIFI_STA; WiFi_begin "labnet" "secret"; delay 500; delay 500] /\
  mode_of (scanner_state
             (state_after (connectToWiFi friendly_hw "labnet" "secret")
                          initial_firmware)) = Connected.
Proof.
  destruct (connect_outcome friendly_hw initial_firmware "labnet" "secret" 2)
    as (Hd & Hs & _).
  - reflexivity.
  - lia.
  - intros [|[|j]] Hj; [reflexivity | reflexivity | lia].
  - intros _. reflexivity.
  - split; [exact Hd|]. unfold state_after. rewrite Hs. reflexivity.
Defined.

Lemma connect_disconnect_round_trip_witness :
  state_after disconnectWiFi
    (state_after (connectToWiFi friendly_hw "labnet" "secret") initial_firmware)
  = initial_firmware.
Proof.
  apply (connect_disconnect_round_trip friendly_hw initial_firmware
           "labnet" "secret" 2).
  - reflexivity.
  - reflexivity.
  - lia.
  - intros [|[|j]] Hj; [reflexivity | reflexivity | lia].
  - intros _. reflexivity.
  - reflexivity.
Defined.

(** ** Disconnect, stop, channel *)

(** In a state that satisfies the session invariant, [disconnectWiFi] leaves
    the session not connected with no SSID recorded, calls the driver once if
    and only if it was connected, touches nothing else, and a second call is
    a no-op that only prints. *)
Theorem disconnect_clears_association (fw : Firmware) :
  session_invariant fw ->
  let after := run disconnectWiFi fw in
  let s := scanner_state fw in
  let s' := scanner_state (fst after) in
  connected_to_wifi s' = false /\
  connected_ssid s' = EmptyString /\
  monitoring_active s' = monitoring_active s /\
  current_channel s' = current_channel s /\
  counters s' = counters s /\
  detected_networks (fst after) = detected_networks fw /\
  network_count (fst after) = network_count fw /\
  driver_commands (snd after) =
    (if connected_to_wifi s then [WiFi_disconnect] else []) /\
  run disconnectWiFi (fst after) =
    (fst after, [Serial_println "Not connected to any WiFi network."]).
Proof.
  intros (_ & _ & _ & Hssid & _) after s s'. subst after s s'.
  destruct fw as [s nets cnt]. cbn [scanner_state] in *.
  unfold run, disconnectWiFi, bind, get_state. cbn [scanner_state].
  destruct (connected_to_wifi s) eqn:Hc; simpl.
  - repeat split; reflexivity.
  - rewrite Hc. repeat split; try reflexivity; first [exact Hc | now apply Hssid].
Qed.

Lemma disconnect_clears_association_witness :
  connected_to_wifi
    (scanner_state (fst (run disconnectWiFi connected_firmware))) = false /\
  driver_commands (snd (run disconnectWiFi connected_firmware)) = [WiFi_disconnect].
Proof.
  assert (Hinv : session_invariant connected_firmware).
  { unfold session_invariant, is_u32, registry_allocated, UINT32_MOD, MAX_NETWORKS.
    simpl. repeat split; try reflexivity; try lia; try discriminate. }
  destruct (disconnect_clears_association connected_firmware Hinv)
    as (H1 & _ & _ & _ & _ & _ & _ & H8 & _).
  split; [exact H1 | exact H8].
Defined.

(** Stopping a running monitor turns frame delivery off, keeps the four
    counters, the channel and everything else, prints the four counters as
    the final statistics, and from then on any number of late frames changes
    nothing. *)
Theorem stop_freezes_counters (fw : Firmware) (late : list frame) :
  monitoring_active (scanner_state fw) = true ->
  let after := run stopPacketMonitoring fw in
  let s := scanner_state fw in
  fst after =
    mkFirmware (set_monitoring_active false s)
               (detected_networks fw) (network_count fw) /\
  counters (scanner_state (fst after)) = counters s /\
  driver_commands (snd after) = [esp_wifi_set_promiscuous false] /\
  printed_lines (snd after) =
    [LF +:+ "Packet monitoring stopped.";
     "Final Statistics:";
     "  Total Packets: " +:+ WString.of_int (packet_count s);
     "  Management: " +:+ WString.of_int (mgmt_packets s);
     "  Data: " +:+ WString.of_int (data_packets s);
     "  Control: " +:+ WString.of_int (ctrl_packets s)] /\
  deliver_frames late (fst after) = fst after.
Proof.
  intros Hm after s. subst after s.
  assert (Hrun : run stopPacketMonitoring fw =
    (mkFirmware (set_monitoring_active false (scanner_state fw))
                (detected_networks fw) (network_count fw),
     [esp_wifi_set_promiscuous false;
      Serial_println (LF +:+ "Packet monitoring stopped.");
      Serial_println "Final Statistics:";
      Serial_println ("  Total Packets: " +:+ WString.of_int (packet_count (scanner_state fw)));
      Serial_println ("  Management: " +:+ WString.of_int (mgmt_packets (scanner_state fw)));
      Serial_println ("  Data: " +:+ WString.of_int (data_packets (scanner_state fw)));
      Serial_println ("  Control: " +:+ WString.of_int (ctrl_packets (scanner_state fw)))])).
  { unfold run, stopPacketMonitoring, bind, get_state. rewrite Hm. reflexivity. }
  rewrite Hrun. cbn [fst snd].
  repeat split; try reflexivity.
  now apply deliver_frames_off.
Qed.

Lemma stop_freezes_counters_witness :
  counters (scanner_state (fst (run stopPacketMonitoring monitoring_firmware)))
    = (10, 3, 6, 0) /\
  deliver_frames [(sample_pkt, WIFI_PKT_DATA); (sample_pkt, WIFI_PKT_MGMT)]
    (fst (run stopPacketMonitoring monitoring_firmware))
    = fst (run stopPacketMonitoring monitoring_firmware).
Proof.
  destruct (stop_freezes_counters monitoring_firmware
              [(sample_pkt, WIFI_PKT_DATA); (sample_pkt, WIFI_PKT_MGMT)] eq_refl)
    as (_ & Hc & _ & _ & Hl).
  split; [exact Hc | exact Hl].
Defined.

Section Channel.

Variable hw : Hardware.

Import WString WStringFacts.

Lemma clamp_long_inside (n : Z) : 1 <= n <= 14 -> clamp_long n = n.
Proof.
  intros H. unfold clamp_long, LONG_MIN, LONG_MAX.
  destruct (Z.ltb_spec n (-2147483648)); [lia|].
  destruct (Z.ltb_spec 2147483647 n); [lia|reflexivity].
Qed.

(** The line [channel n] with [n] in 1..14 stores [n] and keeps the mode, the
    counters and the registry; the radio is retuned at once if and only if
    monitoring is active, otherwise no driver call is made. *)
Theorem channel_command_keeps_counters (fw : Firmware) (n : Z) :
  1 <= n <= 14 ->
  let after := run (processCommand hw ("channel " +:+ of_int n)) fw in
  fst after =
    mkFirmware (set_current_channel n (scanner_state fw))
               (detected_networks fw) (network_count fw) /\
  counters (scanner_state (fst after)) = counters (scanner_state fw) /\
  mode_of (scanner_state (fst after)) = mode_of (scanner_state fw) /\
  driver_commands (snd after) =
    (if monitoring_active (scanner_state fw)
     then [esp_wifi_set_channel n] else []).
Proof.
  intros Hn after. subst after.
  assert (Hr : trim (toLowerCase ("channel " +:+ of_int n)) = "channel " +:+ of_int n)
    by (apply normal_numeric_command; [reflexivity | reflexivity | discriminate]).
  assert (Hop : exists t,
    changeChannel n fw =
      (Some tt,
       mkFirmware (set_current_channel n (scanner_state fw))
                  (detected_networks fw) (network_count fw), t) /\
    driver_commands t =
      (if monitoring_active (scanner_state fw)
       then [esp_wifi_set_channel n] else [])).
  { unfold changeChannel.
    replace (n <? 1) with false by (symmetry; apply Z.ltb_ge; lia).
    replace (14 <? n) with false by (symmetry; apply Z.ltb_ge; lia).
    unfold bind, get_state, put_state. cbn [scanner_state orb].
    destruct (monitoring_active (scanner_state fw));
      eexists; split; reflexivity. }
  destruct Hop as (t & Hop & Hdrv).
  rewrite (run_command hw _ (changeChannel n) fw
             (mkFirmware (set_current_channel n (scanner_state fw))
                         (detected_networks fw) (network_count fw)) t
             (Serial_println "" :: t ++ [Serial_print PROMPT]));
    [ | rewrite (processCommand_channel hw _ _ fw Hr), toInt_of_int,
          clamp_long_inside by assumption; reflexivity
      | exact Hop | reflexivity ].
  cbn [fst snd]. repeat split; try reflexivity.
  rewrite driver_commands_cons. cbn [is_serial].
  rewrite driver_commands_app, Hdrv. cbn. now rewrite app_nil_r.
Qed.

(** In a state that satisfies the session invariant and is not connected,
    the bare [monitor] (or [m]) starts monitoring on the stored channel: the
    range check inside [startPacketMonitoring] cannot fail there, so
    "Invalid channel. Use 1-14." is not printed. *)
Theorem bare_monitor_uses_stored_channel (fw : Firmware) (cmd : string) :
  session_invariant fw ->
  connected_to_wifi (scanner_state fw) = false ->
  trim (toLowerCase cmd) = "monitor" \/ trim (toLowerCase cmd) = "m" ->
  let after := run (processCommand hw cmd) fw in
  fst after = started_state (current_channel (scanner_state fw)) fw /\
  snd after =
    Serial_println "" :: started_trace (current_channel (scanner_state fw))
      ++ [Serial_print PROMPT] /\
  ~ In "Invalid channel. Use 1-14." (printed_lines (snd after)).
Proof.
  intros Hinv Hc Hcmd after. subst after.
  assert (Hch : 1 <= current_channel (scanner_state fw) <= 14)
    by (unfold session_invariant in Hinv; tauto).
  assert (Hop : startPacketMonitoring 0 fw =
            (Some tt, started_state (current_channel (scanner_state fw)) fw,
             started_trace (current_channel (scanner_state fw)))).
  { rewrite <- (startPacketMonitoring_ok _ fw Hc Hch).
    unfold startPacketMonitoring, bind, get_state. rewrite Hc.
    replace (current_channel (scanner_state fw) =? 0) with false
      by (symmetry; apply Z.eqb_neq; lia).
    reflexivity. }
  rewrite (run_command hw cmd (startPacketMonitoring 0) fw
             (started_state (current_channel (scanner_state fw)) fw)
             (started_trace (current_channel (scanner_state fw)))
             (Serial_println "" :: started_trace (current_channel (scanner_state fw))
                ++ [Serial_print PROMPT]));
    [ | unfold processCommand; destruct Hcmd as [-> | ->]; reflexivity
      | exact Hop | reflexivity ].
  cbn [fst snd]. split; [reflexivity|]. split; [reflexivity|].
  unfold started_trace. simpl.
  intros [H | [H | [H | [H | [H | []]]]]]; try discriminate H.
Qed.

End Channel.

Lemma channel_command_keeps_counters_witness :
  counters
    (scanner_state
       (fst (run (processCommand bench_hw "channel 11") monitoring_firmware)))
    = (10, 3, 6, 0) /\
  driver_commands (snd (run (processCommand bench_hw "channel 11") monitoring_firmware))
    = [esp_wifi_set_channel 11].
Proof.
  destruct (channel_command_keeps_counters bench_hw monitoring_firmware 11)
    as (_ & Hc & _ & Hd); [lia|].
  split; [exact Hc | exact Hd].
Defined.

Lemma bare_monitor_uses_stored_channel_witness :
  fst (run (processCommand bench_hw "Monitor") initial_firmware)
    = started_state 1 initial_firmware.
Proof.
  apply (bare_monitor_uses_stored_channel bench_hw initial_firmware "Monitor").
  - unfold session_invariant, is_u32, registry_allocated, UINT32_MOD, MAX_NETWORKS.
    simpl. repeat split; try reflexivity; lia.
  - reflexivity.
  - left. reflexivity.
Defined.

(** ** The table of networks *)

Section Table.

Variable hw : Hardware.

Import WString WStringFacts.

Lemma take_length (n : nat) : forall s,
  (n <= String.length s)%nat -> String.length (take n s) = n.
Proof.
  induction n as [|n IH]; intros s Hn; [reflexivity|].
  destruct s as [|c s]; simpl in *; [lia|]. rewrite IH; lia.
Qed.

(** The SSID column of a row never takes more than 20 characters: a hidden
    network shows as "<Hidden>", a name of up to 20 characters shows as it
    is, and a longer one shows as its first 17 characters followed by three
    dots. *)
Theorem network_row_ssid_width (i : Z) (net : NetworkInfo) :
  exists shown,
    network_row i net =
      Serial_printf ("%2d  %-20s  %s  %2d  %4d  %s  %s" +:+ LF)
        [ArgInt (i + 1); ArgStr shown; ArgStr (bssid net);
         ArgInt (channel net); ArgInt (rssi net);
         ArgStr (getEncryptionString (encryption net));
         ArgStr (of_bool_yes_no (is_wifi6 net))] /\
    (String.length shown <= 20)%nat /\
    shown =
      (if is_hidden net then "<Hidden>"
       else if (20 <? String.length (ssid net))%nat
            then take 17 (ssid net) +:+ "..."
            else ssid net).
Proof.
  unfold network_row.
  destruct (is_hidden net).
  - exists "<Hidden>". simpl. repeat split; try reflexivity. lia.
  - destruct (Nat.ltb_spec 20 (String.length (ssid net))) as [Hlong|Hshort].
    + assert (Hsub : substring (ssid net) 0 17 = take 17 (ssid net)).
      { unfold substring. cbn [Nat.ltb Nat.leb].
        destruct (Nat.leb_spec (String.length (ssid net)) 0); [lia|].
        rewrite Nat.min_l by lia. reflexivity. }
      exists (take 17 (ssid net) +:+ "..."). rewrite Hsub.
      repeat split; try reflexivity.
      rewrite length_append, take_length by lia. simpl. lia.
    + exists (ssid net). repeat split; try reflexivity. exact Hshort.
Qed.

Lemma printed_rows_app (t1 t2 : list event) :
  printed_rows (t1 ++ t2) = printed_rows t1 ++ printed_rows t2.
Proof.
  induction t1 as [|e t1 IH]; simpl; [reflexivity|].
  destruct e; simpl; now rewrite ?IH.
Qed.

Lemma printed_rows_table {A} (f : A -> NetworkInfo) (ix : A -> Z) (l : list A) :
  printed_rows (map (fun i => network_row (ix i) (f i)) l) =
    map (fun i => network_row (ix i) (f i)) l.
Proof. induction l as [|i l IH]; simpl; [reflexivity|]. now rewrite IH. Qed.

(** The rows a scan prints depend on the sweep only. *)
Lemma scan_loop_trace (l : list Z) : forall fw,
  snd (for_each l (scan_store hw) fw) =
    map (fun i => network_row i (scanned_network hw i)) l.
Proof.
  induction l as [|i l IH]; intros fw; [reflexivity|].
  cbn [for_each map]. unfold bind at 1. unfold scan_store at 1.
  unfold bind, put_network, emit, get_network_count, put_network_count.
  cbn [scanner_state detected_networks network_count].
  match goal with
  | |- context [for_each l (scan_store hw) ?f] =>
      specialize (IH f); destruct (for_each l (scan_store hw) f) as [[o f'] t']
  end.
  simpl in *. now rewrite IH.
Qed.

Lemma startNetworkScan_rows (fw : Firmware) :
  monitoring_active (scanner_state fw) = false ->
  printed_rows (trace_of (startNetworkScan hw) fw) =
    map (fun i => network_row i (scanned_network hw i))
        (scan_indices (hw_scan_n hw)).
Proof.
  intros Hm. unfold trace_of, run, startNetworkScan. unfold bind at 1.
  unfold get_state. rewrite Hm.
  destruct (hw_scan_n hw =? 0) eqn:E.
  - apply Z.eqb_eq in E. rewrite E. reflexivity.
  - unfold bind, println, emit, put_network_count.
    cbn [scanner_state detected_networks network_count].
    match goal with
    | |- context [for_each ?l (scan_store hw) ?f] =>
        pose proof (scan_loop_trace l f) as Ht;
        destruct (for_each l (scan_store hw) f) as [[[[]|] f'] t']
    end; cbn [snd] in Ht; subst t'; cbn [snd app printed_rows];
      rewrite ?printed_rows_app;
      rewrite (printed_rows_table (scanned_network hw) (fun i => i));
      cbn [printed_rows]; now rewrite ?app_nil_r.
Qed.

Lemma nth_found (found rest : list NetworkInfo) (i : nat) :
  (i < length found)%nat ->
  nth i (found ++ rest) empty_network = nth i found empty_network.
Proof. intros H. now apply List.app_nth1. Qed.

(** [networks] typed after a scan prints the very rows the scan printed, one
    per registry entry. *)
Theorem showNetworks_repeats_scan (fw : Firmware) :
  monitoring_active (scanner_state fw) = false ->
  registry_allocated fw ->
  let scanned := state_after (startNetworkScan hw) fw in
  printed_rows (trace_of showNetworks scanned) =
    printed_rows (trace_of (startNetworkScan hw) fw) /\
  Z.of_nat (length (printed_rows (trace_of showNetworks scanned))) =
    network_count scanned.
Proof.
  intros Hm Ha scanned.
  rewrite (startNetworkScan_rows fw Hm).
  destruct (startNetworkScan_state hw fw Hm Ha) as [t Ht].
  set (found := map (scanned_network hw) (scan_indices (hw_scan_n hw))) in *.
  assert (Hstate : scanned =
            mkFirmware (scanner_state fw)
              (found ++ list.drop (length found) (detected_networks fw))
              (Z.of_nat (length found)))
    by (subst scanned; unfold state_after, run; now rewrite Ht).
  rewrite Hstate. clear Hstate scanned Ht.
  set (len := Z.to_nat (Z.min (hw_scan_n hw) MAX_NETWORKS)).
  assert (Hf : length found = len)
    by (unfold found, len; now rewrite length_map, scan_indices_length).
  assert (Hrows : printed_rows
            (trace_of showNetworks
               (mkFirmware (scanner_state fw)
                  (found ++ list.drop (length found) (detected_networks fw))
                  (Z.of_nat (length found)))) =
          map (fun i => network_row i (scanned_network hw i))
              (scan_indices (hw_scan_n hw))).
  { unfold trace_of, run, showNetworks, bind, get_network_count, get_networks.
    cbn [network_count detected_networks].
    destruct (Z.eqb_spec (Z.of_nat (length found)) 0) as [E|E].
    - assert (Hz : len = 0%nat) by lia.
      unfold scan_indices. fold len. rewrite Hz. reflexivity.
    - unfold println, emit, emits. cbn [snd app printed_rows].
      rewrite printed_rows_app.
      rewrite (printed_rows_table
                 (fun i => nth (Z.to_nat i)
                             (found ++ list.drop (length found) (detected_networks fw))
                             empty_network)
                 (fun i => i)).
      cbn [printed_rows]. rewrite app_nil_r, Nat2Z.id, Hf.
      unfold scan_indices. fold len.
      rewrite !List.map_map. apply List.map_ext_in.
      intros i Hi%List.in_seq. rewrite Nat2Z.id.
      rewrite nth_found by lia. f_equal.
      unfold found, scan_indices. fold len.
      rewrite List.map_map.
      rewrite (List.nth_indep _ empty_network (scanned_network hw (Z.of_nat 0)))
        by (rewrite length_map, length_seq; lia).
      rewrite (List.map_nth (fun x => scanned_network hw (Z.of_nat x))).
      now rewrite List.seq_nth by lia. }
  rewrite Hrows. split; [reflexivity|].
  cbn [network_count]. rewrite length_map, scan_indices_length. fold len.
  now rewrite Hf.
Qed.

(** Every record a scan stores is marked hidden exactly when its SSID is
    empty and WiFi 6 exactly when its signal is stronger than -50 dBm. *)
Theorem scan_records_flags (fw : Firmware) :
  monitoring_active (scanner_state fw) = false ->
  registry_allocated fw ->
  Forall (fun net =>
            is_hidden net = Nat.eqb (String.length (ssid net)) 0 /\
            is_wifi6 net = (-50 <? rssi net))
         (registry (state_after (startNetworkScan hw) fw)).
Proof.
  intros Hm Ha.
  destruct (startNetworkScan_state hw fw Hm Ha) as [t Ht].
  unfold state_after, run. rewrite Ht. cbn [fst].
  unfold registry. cbn [network_count detected_networks].
  rewrite Nat2Z.id, take_app_length.
  apply Forall_forall. intros net Hin.
  apply list_elem_of_In, List.in_map_iff in Hin. destruct Hin as (i & <- & _).
  split; reflexivity.
Qed.

Lemma nth_indices (nets : list NetworkInfo) : forall n : nat,
  (n <= length nets)%nat ->
  map (fun i => nth i nets empty_network) (seq 0 n) = list.take n nets.
Proof.
  induction nets as [|x nets IH]; intros n Hn.
  - simpl in Hn. replace n with 0%nat by lia. reflexivity.
  - destruct n as [|n]; [reflexivity|].
    simpl in Hn. rewrite <- List.cons_seq, <- List.seq_shift.
    cbn [map nth]. rewrite List.map_map. simpl. f_equal. apply IH. lia.
Qed.

(** [export] prints one CSV line per registry entry, in registry order,
    between the header and the end marker, and changes no global. *)
Theorem export_lists_registry (fw : Firmware) :
  0 <= network_count fw ->
  (Z.to_nat (network_count fw) <= length (detected_networks fw))%nat ->
  exists head,
    run (exportResults hw) fw =
      (fw,
       head
       ++ [Serial_println "SSID,BSSID,Channel,RSSI,Encryption,WiFi6,Hidden"]
       ++ map export_row (registry fw)
       ++ [Serial_println ("--- END EXPORT ---" +:+ LF)]) /\
    forallb is_serial head = true.
Proof.
  intros Hc Hlen.
  assert (Hrows :
    map (fun i => export_row (nth (Z.to_nat i) (detected_networks fw) empty_network))
        (map Z.of_nat (seq 0 (Z.to_nat (network_count fw)))) =
    map export_row (registry fw)).
  { unfold registry. rewrite <- (nth_indices _ _ Hlen), !List.map_map.
    apply List.map_ext. intros i. now rewrite Nat2Z.id. }
  unfold run, exportResults.
  unfold bind, get_state, get_network_count, get_networks, println, emit, emits.
  rewrite Hrows.
  destruct (monitoring_active (scanner_state fw)).
  - exists [Serial_println "Exporting scan results...";
            Serial_println (LF +:+ "--- SCAN RESULTS EXPORT ---");
            Serial_println ("Timestamp: " +:+ of_int (hw_millis hw));
            Serial_println "Device: ESP32-C6 WiFi Scanner";
            Serial_println ("Total Networks: " +:+ of_int (network_count fw));
            Serial_println ("Packet Monitoring: Active (Channel " +:+
                            of_int (current_channel (scanner_state fw)) +:+ ")");
            Serial_println ("Packets Captured: " +:+
                            of_int (packet_count (scanner_state fw)));
            Serial_println (LF +:+ "Network Details (CSV Format):")].
    split; reflexivity.
  - exists [Serial_println "Exporting scan results...";
            Serial_println (LF +:+ "--- SCAN RESULTS EXPORT ---");
            Serial_println ("Timestamp: " +:+ of_int (hw_millis hw));
            Serial_println "Device: ESP32-C6 WiFi Scanner";
            Serial_println ("Total Networks: " +:+ of_int (network_count fw));
            Serial_println (LF +:+ "Network Details (CSV Format):")].
    split; reflexivity.
Qed.

End Table.

Lemma showNetworks_repeats_scan_witness :
  printed_rows
    (trace_of showNetworks (state_after (startNetworkScan bench_hw) initial_firmware))
  = printed_rows (trace_of (startNetworkScan bench_hw) initial_firmware).
Proof.
  apply (showNetworks_repeats_scan bench_hw initial_firmware); reflexivity.
Defined.

Lemma scan_records_flags_witness :
  Forall (fun net =>
            is_hidden net = Nat.eqb (String.length (ssid net)) 0 /\
            is_wifi6 net = (-50 <? rssi net))
         (registry (state_after (startNetworkScan bench_hw) initial_firmware)).
Proof.
  apply (scan_records_flags bench_hw initial_firmware); reflexivity.
Defined.

Lemma export_lists_registry_witness :
  exists head,
    run (exportResults bench_hw)
        (state_after (startNetworkScan bench_hw) initial_firmware) =
      (state_after (startNetworkScan bench_hw) initial_firmware,
       head
       ++ [Serial_println "SSID,BSSID,Channel,RSSI,Encryption,WiFi6,Hidden"]
       ++ map export_row
            (registry (state_after (startNetworkScan bench_hw) initial_firmware))
       ++ [Serial_println ("--- END EXPORT ---" +:+ LF)]) /\
    forallb is_serial head = true.
Proof.
  apply (export_lists_registry bench_hw
           (state_after (startNetworkScan bench_hw) initial_firmware)).
  - vm_compute. discriminate.
  - vm_compute. lia.
Defined.

(** ** The dispatcher as a whole *)

Section Dispatcher.

Variable hw : Hardware.

Import WString WStringFacts.

Lemma ltrim_toLowerCase (s : string) :
  ltrim (toLowerCase s) = toLowerCase (ltrim s).
Proof.
  induction s as [|c s IH]; simpl; [reflexivity|].
  destruct (tolower_props c) as (-> & _ & _).
  now destruct (isspace c).
Qed.

Lemma toLowerCase_idempotent (s : string) :
  toLowerCase (toLowerCase s) = toLowerCase s.
Proof. apply toLowerCase_fixed, toLowerCase_not_upper. Qed.

Lemma ltrim_idempotent (s : string) : ltrim (ltrim s) = ltrim s.
Proof.
  induction s as [|c s IH]; simpl; [reflexivity|].
  destruct (isspace c) eqn:E; [exact IH|]. simpl. now rewrite E.
Qed.

Lemma rtrim_idempotent (s : string) : rtrim (rtrim s) = rtrim s.
Proof.
  induction s as [|c s IH]; simpl; [reflexivity|].
  destruct (rtrim s) as [|d r] eqn:E.
  - destruct (isspace c) eqn:Ec; simpl; [reflexivity|]. now rewrite Ec.
  - change (rtrim (String c (String d r)))
      with (match rtrim (String d r) with
            | EmptyString => if isspace c then EmptyString else String c EmptyString
            | r' => String c r'
            end).
    now rewrite IH.
Qed.

(** [rtrim] leaves no leading white space that was not there: trimming the
    right end commutes with trimming the left end. *)
Lemma ltrim_rtrim (s : string) : ltrim (rtrim s) = rtrim (ltrim s).
Proof.
  induction s as [|c s IH]; [reflexivity|].
  change (rtrim (String c s))
    with (match rtrim s with
          | EmptyString => if isspace c then EmptyString else String c EmptyString
          | String d r => String c (String d r)
          end).
  change (ltrim (String c s)) with (if isspace c then ltrim s else String c s).
  destruct (isspace c) eqn:Ec.
  - rewrite <- IH. destruct (rtrim s) as [|d r]; [reflexivity|].
    change (ltrim (String c (String d r)))
      with (if isspace c then ltrim (String d r) else String c (String d r)).
    now rewrite Ec.
  - change (rtrim (String c s))
      with (match rtrim s with
            | EmptyString => if isspace c then EmptyString else String c EmptyString
            | String d r => String c (String d r)
            end).
    rewrite Ec. destruct (rtrim s) as [|d r]; simpl; now rewrite Ec.
Qed.

Lemma trim_idempotent (s : string) : trim (trim s) = trim s.
Proof.
  unfold trim. now rewrite ltrim_rtrim, ltrim_idempotent, rtrim_idempotent.
Qed.

Lemma normalise_idempotent (cmd : string) :
  trim (toLowerCase (trim (toLowerCase cmd))) = trim (toLowerCase cmd).
Proof.
  unfold trim at 2.
  rewrite <- rtrim_toLowerCase, <- ltrim_toLowerCase, toLowerCase_idempotent.
  apply trim_idempotent.
Qed.

(** The dispatcher is insensitive to the case of the line and to white space
    around it: a line and its lowered, trimmed form do exactly the same. *)
Theorem processCommand_case_and_padding (cmd : string) (fw : Firmware) :
  processCommand hw cmd fw = processCommand hw (trim (toLowerCase cmd)) fw /\
  processCommand hw (toLowerCase cmd) fw = processCommand hw cmd fw /\
  processCommand hw (trim cmd) fw = processCommand hw cmd fw.
Proof.
  assert (H : forall a b, trim (toLowerCase a) = trim (toLowerCase b) ->
                          processCommand hw a fw = processCommand hw b fw).
  { intros a b E. unfold processCommand. now rewrite E. }
  split; [|split]; apply H.
  - now rewrite normalise_idempotent.
  - now rewrite toLowerCase_idempotent.
  - unfold trim at 2. rewrite <- rtrim_toLowerCase, <- ltrim_toLowerCase.
    apply trim_idempotent.
Qed.

End Dispatcher.

(** ** Every command answers *)

Section Prompt.

Variable hw : Hardware.

Import WString WStringFacts.

Lemma returns_bind {A B} (m : M A) (k : A -> M B) :
  returns m -> (forall a, returns (k a)) -> returns (bind m k).
Proof.
  intros Hm Hk fw. destruct (Hm fw) as (a & fw1 & t1 & E1).
  destruct (Hk a fw1) as (b & fw2 & t2 & E2).
  exists b, fw2, (t1 ++ t2). unfold bind. now rewrite E1, E2.
Qed.

Lemma returns_report {A} (m : M A) : report_only m -> returns m.
Proof. intros H fw. destruct (H fw) as (a & t & E & _). now exists a, fw, t. Qed.

Lemma returns_for_each {A} (body : A -> M unit) (l : list A) :
  (forall i, returns (body i)) -> returns (for_each l body).
Proof.
  intros Hb. induction l as [|i l IH]; simpl.
  - intros fw. now exists tt, fw, [].
  - apply returns_bind; [apply Hb | intros _; exact IH].
Qed.

Lemma returns_wait (budget poll : nat) : returns (wait_for_link hw budget poll).
Proof.
  intros fw. destruct (wait_for_link_returns hw budget poll fw) as (p & t & E & _).
  now exists p, fw, t.
Qed.

Ltac returns_steps :=
  repeat
    match goal with
    | |- returns (if ?b then _ else _) => destruct b
    | |- returns (bind _ _) => apply returns_bind; [|intros ?]
    | |- returns (wait_for_link _ _ _) => apply returns_wait
    | |- returns (for_each _ _) => apply returns_for_each; intros ?
    | |- returns (let x := _ in _) => cbv zeta
    | |- returns _ => solve [intros ?; do 3 eexists; reflexivity]
    end.

Lemma returns_startNetworkScan : returns (startNetworkScan hw).
Proof. unfold startNetworkScan. returns_steps. Qed.

Lemma returns_connectToWiFi (name pw : string) : returns (connectToWiFi hw name pw).
Proof. unfold connectToWiFi. returns_steps. Qed.

Lemma returns_disconnectWiFi : returns disconnectWiFi.
Proof. unfold disconnectWiFi. returns_steps. Qed.

Lemma returns_startPacketMonitoring (ch : Z) : returns (startPacketMonitoring ch).
Proof. unfold startPacketMonitoring, updateMonitoringStatus. returns_steps. Qed.

Lemma returns_stopPacketMonitoring : returns stopPacketMonitoring.
Proof. unfold stopPacketMonitoring. returns_steps. Qed.

Lemma returns_changeChannel (ch : Z) : returns (changeChannel ch).
Proof. unfold changeChannel. returns_steps. Qed.

(** Every command prints a blank line first.  [reset] (or [r]) then
    announces the restart, sleeps a second, restarts the chip and prints no
    prompt; every other line, recognised or not, comes back and ends its
    output with the prompt. *)
Theorem processCommand_prompt (cmd : string) (fw : Firmware) :
  let c := trim (toLowerCase cmd) in
  if eqs c "reset" || eqs c "r" then
    processCommand hw cmd fw =
      (None, initial_firmware,
       [Serial_println ""; Serial_println "Resetting ESP32-C6...";
        delay 1000; ESP_restart])
  else
    exists fw' t,
      processCommand hw cmd fw =
        (Some tt, fw', Serial_println "" :: t ++ [Serial_print PROMPT]).
Proof.
  intros c. destruct (eqs c "reset" || eqs c "r") eqn:Hreset.
  - unfold processCommand. fold c.
    apply orb_prop in Hreset as [H | H]; apply String.eqb_eq in H;
      rewrite H; reflexivity.
  - assert (Hop : exists op : M unit, returns op /\
              processCommand hw cmd fw = (println "" ;; op ;; print PROMPT) fw).
    { eexists. split; [|unfold processCommand; fold c; rewrite Hreset; reflexivity].
      repeat
        match goal with
        | |- returns (if _ then _ else _) =>
            match goal with |- returns (if ?b then _ else _) => destruct b end
        | |- returns (bind _ _) => apply returns_bind; [|intros _]
        | |- returns (startNetworkScan _) => apply returns_startNetworkScan
        | |- returns (connectToWiFi _ _ _) => apply returns_connectToWiFi
        | |- returns disconnectWiFi => apply returns_disconnectWiFi
        | |- returns (startPacketMonitoring _) => apply returns_startPacketMonitoring
        | |- returns stopPacketMonitoring => apply returns_stopPacketMonitoring
        | |- returns (changeChannel _) => apply returns_changeChannel
        | |- returns showHelp => apply returns_report, report_only_showHelp
        | |- returns showNetworks => apply returns_report, report_only_showNetworks
        | |- returns (showStatus _) => apply returns_report, report_only_showStatus
        | |- returns (systemInfo _) => apply returns_report, report_only_systemInfo
        | |- returns (exportResults _) =>
            apply returns_report, report_only_exportResults
        | |- returns (printBanner _) => apply returns_report, report_only_printBanner
        | |- returns (let x := _ in _) => cbv zeta
        | |- returns _ => solve [intros ?; do 3 eexists; reflexivity]
        end. }
    destruct Hop as (op & Hret & Hcmd).
    destruct (Hret fw) as ([] & fw' & t & Hrun).
    exists fw', t. rewrite Hcmd. unfold bind, println, print, emit.
    now rewrite Hrun.
Qed.

(** The label of an authentication mode identifies it: two codes get the
    same label exactly when they are equal or both outside the eight known
    modes, which all read "Unknown". *)
Theorem getEncryptionString_labels (a b : Z) :
  getEncryptionString a = getEncryptionString b <->
  a = b \/ (~ (0 <= a <= 7) /\ ~ (0 <= b <= 7)).
Proof.
  assert (Hcase : forall x,
            x = 0 \/ x = 1 \/ x = 2 \/ x = 3 \/ x = 4 \/ x = 5 \/ x = 6 \/ x = 7
            \/ (~ (0 <= x <= 7) /\ getEncryptionString x = "Unknown")).
  { intros x.
    destruct (Z.eq_dec x 0); [tauto|]. destruct (Z.eq_dec x 1); [tauto|].
    destruct (Z.eq_dec x 2); [tauto|]. destruct (Z.eq_dec x 3); [tauto|].
    destruct (Z.eq_dec x 4); [tauto|]. destruct (Z.eq_dec x 5); [tauto|].
    destruct (Z.eq_dec x 6); [tauto|]. destruct (Z.eq_dec x 7); [tauto|].
    do 8 right. split; [lia|]. unfold getEncryptionString,
      WIFI_AUTH_OPEN, WIFI_AUTH_WEP, WIFI_AUTH_WPA_PSK, WIFI_AUTH_WPA2_PSK,
      WIFI_AUTH_WPA_WPA2_PSK, WIFI_AUTH_WPA2_ENTERPRISE, WIFI_AUTH_WPA3_PSK,
      WIFI_AUTH_WPA2_WPA3_PSK.
    repeat match goal with
           | |- context [?x =? ?k] =>
               replace (x =? k) with false by (symmetry; apply Z.eqb_neq; lia)
           end.
    reflexivity. }
  split.
  - intros Heq.
    destruct (Hcase a) as [->|[->|[->|[->|[->|[->|[->|[->|[Ha Hua]]]]]]]]];
    destruct (Hcase b) as [->|[->|[->|[->|[->|[->|[->|[->|[Hb Hub]]]]]]]]];
      try (left; reflexivity); try (right; split; assumption);
      exfalso; rewrite ?Hua, ?Hub in Heq; discriminate Heq.
  - intros [-> | [Ha Hb]]; [reflexivity|].
    destruct (Hcase a) as [->|[->|[->|[->|[->|[->|[->|[->|[_ Hua]]]]]]]]];
      try (exfalso; apply Ha; lia).
    destruct (Hcase b) as [->|[->|[->|[->|[->|[->|[->|[->|[_ Hub]]]]]]]]];
      try (exfalso; apply Hb; lia).
    now rewrite Hua, Hub.
Qed.

End Prompt.

(** ** The line editor of [loop] *)

Section LineEditor.

Variable hw : Hardware.

Import WString WStringFacts.

Lemma append_nil_r (s : string) : s +:+ EmptyString = s.
Proof. induction s as [|c s IH]; simpl; [reflexivity|]. now rewrite IH. Qed.

Lemma drop_last_length (s : string) :
  (String.length (drop_last s) <= String.length s)%nat.
Proof.
  induction s as [|c s IH]; simpl; [lia|].
  destruct s as [|d s]; simpl in *; lia.
Qed.

Lemma drop_last_snoc (s : string) (c : ascii) :
  drop_last (s +:+ String c EmptyString) = s.
Proof.
  induction s as [|d s IH]; [reflexivity|].
  change (String d s +:+ String c EmptyString)
    with (String d (s +:+ String c EmptyString)).
  destruct s as [|e s]; [reflexivity|].
  change (drop_last (String d (String e s +:+ String c EmptyString)))
    with (String d (drop_last (String e s +:+ String c EmptyString))).
  now rewrite IH.
Qed.

Lemma ordinary_tests (c : ascii) :
  ordinary c = true -> is_line_end c = false /\ is_backspace c = false.
Proof.
  unfold ordinary. destruct (is_line_end c), (is_backspace c);
    simpl; intros H; try discriminate H; auto.
Qed.

(** An ordinary character with room left: stored and echoed. *)
Lemma loop_char_store (c : ascii) (con : Console) :
  ordinary c = true ->
  command_index con < COMMAND_BUFFER_SIZE - 1 ->
  loop_char hw c con =
    (Some tt,
     mkConsole (firmware con) (command_buffer con +:+ String c EmptyString)
               (last_status_update con),
     [Serial_print (String c EmptyString)]).
Proof.
  intros [Hl Hb]%ordinary_tests Hroom. unfold loop_char. rewrite Hl, Hb.
  now replace (command_index con <? COMMAND_BUFFER_SIZE - 1) with true
    by (symmetry; apply Z.ltb_lt; exact Hroom).
Qed.

(** An ordinary character with the buffer full: dropped without echo. *)
Lemma loop_char_full (c : ascii) (con : Console) :
  ordinary c = true ->
  command_index con = COMMAND_BUFFER_SIZE - 1 ->
  loop_char hw c con = (Some tt, con, []).
Proof.
  intros [Hl Hb]%ordinary_tests Hfull. unfold loop_char. rewrite Hl, Hb, Hfull.
  reflexivity.
Qed.

Lemma serial_input_full (extra : string) : forall con,
  all_chars ordinary extra = true ->
  command_index con = COMMAND_BUFFER_SIZE - 1 ->
  serial_input hw extra con = (Some tt, con, []).
Proof.
  induction extra as [|c extra IH]; intros con Hord Hfull; [reflexivity|].
  simpl in Hord. apply andb_prop in Hord as [Hc Hord].
  cbn [serial_input]. rewrite (loop_char_full c con Hc Hfull).
  now rewrite (IH con Hord Hfull).
Qed.

(** Ordinary characters typed on an empty line: the first 255 are stored and
    echoed, the rest is lost. *)
Lemma serial_input_typed (line : string) : forall (buf : string) (fw : Firmware) (last : Z),
  all_chars ordinary line = true ->
  serial_input hw line (mkConsole fw buf last) =
    (Some tt,
     mkConsole fw (buf +:+ take (255 - String.length buf) line) last,
     echo (take (255 - String.length buf) line)).
Proof.
  induction line as [|c line IH]; intros buf fw last Hord.
  - simpl. destruct (255 - String.length buf)%nat; simpl; now rewrite append_nil_r.
  - simpl in Hord. apply andb_prop in Hord as [Hc Hord].
    destruct (Nat.lt_ge_cases (String.length buf) 255) as [Hroom|Hfull].
    + cbn [serial_input].
      rewrite loop_char_store
        by (try assumption; unfold command_index, COMMAND_BUFFER_SIZE; simpl; lia).
      cbn [firmware command_buffer last_status_update].
      rewrite IH by assumption.
      rewrite length_append. cbn [String.length].
      replace (255 - String.length buf)%nat
        with (S (255 - (String.length buf + 1)))%nat by lia.
      cbn [take echo app]. now rewrite append_assoc.
    + assert (Hlen : String.length buf = 255%nat \/ (255 < String.length buf)%nat) by lia.
      replace (255 - String.length buf)%nat with 0%nat by lia.
      cbn [take echo]. rewrite append_nil_r.
      destruct Hlen as [Hlen|Hlen].
      * apply (serial_input_full (String c line)).
        -- simpl. now rewrite Hc, Hord.
        -- unfold command_index, COMMAND_BUFFER_SIZE. simpl. lia.
      * (* beyond the buffer size nothing is stored either *)
        assert (Hover : forall l con, all_chars ordinary l = true ->
                  COMMAND_BUFFER_SIZE - 1 <= command_index con ->
                  serial_input hw l con = (Some tt, con, [])).
        { clear. induction l as [|d l IHl]; intros con Ho Hi; [reflexivity|].
          simpl in Ho. apply andb_prop in Ho as [Hd Ho].
          cbn [serial_input]. unfold loop_char.
          destruct (ordinary_tests d Hd) as [-> ->].
          replace (command_index con <? COMMAND_BUFFER_SIZE - 1) with false
            by (symmetry; apply Z.ltb_ge; exact Hi).
          now rewrite (IHl con Ho Hi). }
        apply Hover; [simpl; now rewrite Hc, Hord|].
        unfold command_index, COMMAND_BUFFER_SIZE. simpl. lia.
Qed.

Lemma serial_input_app (a b : string) : forall con,
  serial_input hw (a +:+ b) con =
    (let '(o, con1, t1) := serial_input hw a con in
     match o with
     | None => (None, con1, t1)
     | Some _ =>
         let '(o2, con2, t2) := serial_input hw b con1 in (o2, con2, t1 ++ t2)
     end).
Proof.
  induction a as [|c a IH]; intros con.
  - simpl. now destruct (serial_input hw b con) as [[o2 con2] t2].
  - cbn [append serial_input].
    destruct (loop_char hw c con) as [[[[]|] con1] t1]; [|reflexivity].
    rewrite IH.
    destruct (serial_input hw a con1) as [[[[]|] con2] t2]; [|reflexivity].
    destruct (serial_input hw b con2) as [[o3 con3] t3].
    now rewrite app_assoc.
Qed.

(** A line of ordinary characters followed by a line feed or a carriage
    return, typed on an empty buffer: the first 255 characters are echoed and
    kept, the rest is dropped in silence; what is kept is cut at its first
    NUL and trimmed, and if something is left it goes to [processCommand],
    otherwise nothing is printed, not even a prompt.  The buffer is empty
    afterwards. *)
Theorem typed_line_is_dispatched
    (fw : Firmware) (last : Z) (line : string) (eol : ascii) :
  all_chars ordinary line = true ->
  is_line_end eol = true ->
  let kept := take 255 line in
  let cmd := trim (c_string kept) in
  serial_input hw (line +:+ String eol EmptyString) (mkConsole fw "" last) =
    if (0 <? String.length cmd)%nat then
      let '(o, fw', t) := processCommand hw cmd fw in
      (o, mkConsole fw' "" (match o with Some _ => last | None => 0 end),
       echo kept ++ t)
    else (Some tt, mkConsole fw "" last, echo kept).
Proof.
  intros Hord Heol kept cmd.
  rewrite serial_input_app, (serial_input_typed line "" fw last Hord).
  cbn [String.length Nat.sub append]. fold kept.
  cbn [serial_input]. unfold loop_char. rewrite Heol.
  cbn [firmware command_buffer last_status_update].
  unfold command_index. cbn [command_buffer]. fold cmd.
  destruct kept as [|k0 kept'] eqn:Ek.
  - subst cmd. simpl. reflexivity.
  - replace (0 <? Z.of_nat (String.length (String k0 kept'))) with true
      by (symmetry; apply Z.ltb_lt; simpl; lia).
    destruct (0 <? String.length cmd)%nat.
    + destruct (processCommand hw cmd fw) as [[[[]|] fw'] t];
        now rewrite ?app_nil_r.
    + now rewrite app_nil_r.
Qed.

(** The pending line never outgrows the buffer: whatever arrives on the
    serial port, [command_index] stays at most 255, so the terminating NUL
    written at [command_buffer[command_index]] is inside the 256 bytes. *)
Theorem command_index_bounded (input : string) : forall con : Console,
  command_index con <= COMMAND_BUFFER_SIZE - 1 ->
  command_index (snd (fst (serial_input hw input con))) <= COMMAND_BUFFER_SIZE - 1.
Proof.
  assert (Hstep : forall c con,
            command_index con <= COMMAND_BUFFER_SIZE - 1 ->
            command_index (snd (fst (loop_char hw c con))) <= COMMAND_BUFFER_SIZE - 1).
  { intros c con Hb. unfold loop_char.
    destruct (is_line_end c).
    - destruct (0 <? command_index con); [|exact Hb].
      destruct (0 <? String.length _)%nat;
        [|unfold command_index, COMMAND_BUFFER_SIZE; simpl; lia].
      destruct (processCommand hw _ (firmware con)) as [[[[]|] fw'] t];
        unfold command_index, COMMAND_BUFFER_SIZE; simpl; lia.
    - destruct (is_backspace c).
      + destruct (0 <? command_index con); [|exact Hb].
        cbn [fst snd]. unfold command_index in *. cbn [command_buffer].
        pose proof (drop_last_length (command_buffer con)). lia.
      + destruct (Z.ltb_spec (command_index con) (COMMAND_BUFFER_SIZE - 1));
          [|exact Hb].
        cbn [fst snd]. unfold command_index in *. cbn [command_buffer].
        rewrite length_append. simpl. lia. }
  induction input as [|c input IH]; intros con Hb; [exact Hb|].
  cbn [serial_input]. specialize (Hstep c con Hb).
  destruct (loop_char hw c con) as [[[[]|] con1] t1]; [|exact Hstep].
  specialize (IH con1 Hstep).
  now destruct (serial_input hw input con1) as [[o2 con2] t2].
Qed.

(** Backspace (or DEL) takes back the last character typed and answers with
    backspace, blank, backspace; on an empty line it does nothing at all. *)
Theorem backspace_undoes_last_character (c bs : ascii) (con : Console) :
  ordinary c = true ->
  is_backspace bs = true ->
  command_index con < COMMAND_BUFFER_SIZE - 1 ->
  serial_input hw (String c (String bs EmptyString)) con =
    (Some tt, con,
     [Serial_print (String c EmptyString); Serial_print (BS +:+ " " +:+ BS)]) /\
  loop_char hw bs (mkConsole (firmware con) "" (last_status_update con)) =
    (Some tt, mkConsole (firmware con) "" (last_status_update con), []).
Proof.
  intros Hc Hbs Hroom.
  assert (Hnl : is_line_end bs = false).
  { revert Hbs. unfold is_backspace, is_line_end.
    destruct bs as [[] [] [] [] [] [] [] []]; vm_compute; auto; discriminate. }
  split.
  - cbn [serial_input]. rewrite (loop_char_store c con Hc Hroom).
    unfold loop_char. rewrite Hnl, Hbs. unfold command_index at 1.
    cbn [firmware command_buffer last_status_update].
    rewrite length_append. cbn [String.length].
    replace (0 <? Z.of_nat (String.length (command_buffer con) + 1)) with true
      by (symmetry; apply Z.ltb_lt; lia).
    rewrite drop_last_snoc. now destruct con.
  - unfold loop_char. rewrite Hnl, Hbs. reflexivity.
Qed.

End LineEditor.

Lemma typed_line_is_dispatched_witness :
  serial_input bench_hw ("monitor 15" +:+ CR) initial_console =
    (Some tt, initial_console,
     echo "monitor 15"
     ++ [Serial_println "";
         Serial_println "Invalid channel. Use 1-14 or 0 for current channel.";
         Serial_print PROMPT]).
Proof.
  exact (typed_line_is_dispatched bench_hw initial_firmware 0 "monitor 15" "013"
           eq_refl eq_refl).
Defined.

Lemma command_index_bounded_witness :
  command_index
    (snd (fst (serial_input bench_hw "sca" initial_console))) <= COMMAND_BUFFER_SIZE - 1.
Proof.
  apply (command_index_bounded bench_hw "sca" initial_console).
  unfold command_index, COMMAND_BUFFER_SIZE. simpl. lia.
Defined.

Lemma backspace_undoes_last_character_witness :
  serial_input bench_hw (String "x" (String "127" EmptyString)) initial_console =
    (Some tt, initial_console,
     [Serial_print "x"; Serial_print (BS +:+ " " +:+ BS)]).
Proof.
  apply (backspace_undoes_last_character bench_hw "x" "127" initial_console).
  - reflexivity.
  - reflexivity.
  - unfold command_index, COMMAND_BUFFER_SIZE. simpl. lia.
Defined.

(** ** The periodic status line *)

(** Handling a character, and so a whole command, leaves the time of the
    last periodic status line alone, unless the chip restarts. *)
Lemma loop_char_keeps_timer (hw : Hardware) (c : ascii) (con con1 : Console)
    (t : list event) :
  loop_char hw c con = (Some tt, con1, t) ->
  last_status_update con1 = last_status_update con.
Proof.
  unfold loop_char.
  destruct (is_line_end c).
  - destruct (0 <? command_index con); [|now intros [= <- _]].
    destruct (0 <? String.length _)%nat; [|now intros [= <- _]].
    destruct (processCommand hw _ (firmware con)) as [[[[]|] fw'] t'];
      [now intros [= <- _] | discriminate].
  - destruct (is_backspace c).
    + destruct (0 <? command_index con); now intros [= <- _].
    + destruct (command_index con <? COMMAND_BUFFER_SIZE - 1);
        now intros [= <- _].
Qed.

Lemma serial_input_keeps_timer (hw : Hardware) (input : string) :
  forall (con con1 : Console) (t : list event),
  serial_input hw input con = (Some tt, con1, t) ->
  last_status_update con1 = last_status_update con.
Proof.
  induction input as [|c rest IH]; intros con con1 t; cbn [serial_input].
  - now intros [= <- _].
  - destruct (loop_char hw c con) as [[[[]|] con0] t0] eqn:E; [|discriminate].
    destruct (serial_input hw rest con0) as [[o2 con2] t2] eqn:E2.
    intros [= -> <- _].
    rewrite (IH _ _ _ E2). now apply (loop_char_keeps_timer hw c con con0 t0).
Qed.

(** A pass of [loop], [elapsed] milliseconds after the time held in
    [last_status_update]: once the waiting input is handled, the status line
    is printed (and the time of the pass stored in [last_status_update])
    exactly when monitoring is active and more than 2000 ms have passed, also
    across the wrap-around of the 32-bit millisecond clock; the pass changes
    no other global and ends with a 10 ms sleep.  [last_status_update] is
    written nowhere else: it is 0 after boot and handling input leaves it
    alone, so the interval is counted from the last periodic line and not
    from the status line that [startPacketMonitoring] prints. *)
Theorem periodic_status_timing
    (hw : Hardware) (con : Console) (elapsed now' : Z) :
  is_u32 (last_status_update con) ->
  0 <= elapsed < UINT32_MOD ->
  let now := (last_status_update con + elapsed) mod UINT32_MOD in
  let due := monitoring_active (scanner_state (firmware con)) && (2000 <? elapsed) in
  loop hw "" now now' con =
    (Some tt,
     (if due then mkConsole (firmware con) (command_buffer con) now' else con),
     (if due then trace_of updateMonitoringStatus (firmware con) else [])
       ++ [delay 10]) /\
  (forall (input : string) (con1 : Console) (t1 : list event),
     serial_input hw input con = (Some tt, con1, t1) ->
     let due1 :=
       monitoring_active (scanner_state (firmware con1)) && (2000 <? elapsed) in
     last_status_update con1 = last_status_update con /\
     loop hw input now now' con =
       (Some tt,
        (if due1 then mkConsole (firmware con1) (command_buffer con1) now'
         else con1),
        t1 ++ (if due1 then trace_of updateMonitoringStatus (firmware con1)
               else [])
           ++ [delay 10])).
Proof.
  intros Hlast He now due.
  assert (Hel : (now - last_status_update con) mod UINT32_MOD = elapsed).
  { subst now. rewrite Zminus_mod_idemp_l.
    replace (last_status_update con + elapsed - last_status_update con)
      with elapsed by lia.
    now apply Z.mod_small. }
  assert (Hpass : forall (input : string) (con1 : Console) (t1 : list event),
    serial_input hw input con = (Some tt, con1, t1) ->
    last_status_update con1 = last_status_update con /\
    loop hw input now now' con =
      (Some tt,
       (if monitoring_active (scanner_state (firmware con1)) && (2000 <? elapsed)
        then mkConsole (firmware con1) (command_buffer con1) now' else con1),
       t1 ++ (if monitoring_active (scanner_state (firmware con1))
                 && (2000 <? elapsed)
              then trace_of updateMonitoringStatus (firmware con1) else [])
          ++ [delay 10])).
  { intros input con1 t1 Hin.
    assert (Ht := serial_input_keeps_timer hw input con con1 t1 Hin).
    split; [exact Ht|].
    unfold loop, loop_status. rewrite Hin, Ht, Hel.
    destruct (monitoring_active (scanner_state (firmware con1)) && (2000 <? elapsed));
      [|reflexivity].
    destruct (report_only_updateMonitoringStatus (firmware con1))
      as ([] & t & Hrun & _).
    unfold trace_of, run. rewrite Hrun. reflexivity. }
  split; [|exact Hpass].
  destruct (Hpass "" con [] eq_refl) as [_ H]. exact H.
Qed.

Lemma periodic_status_timing_witness :
  loop bench_hw "" 905 906 (mkConsole monitoring_firmware "" 4294966200) =
    (Some tt, mkConsole monitoring_firmware "" 906,
     trace_of updateMonitoringStatus monitoring_firmware ++ [delay 10]) /\
  loop bench_hw ("monitor 6" +:+ CR) 5000 5001 initial_console =
    (Some tt, mkConsole (started_state 6 initial_firmware) "" 5001,
     (echo "monitor 6"
      ++ Serial_println "" :: started_trace 6 ++ [Serial_print PROMPT])
     ++ [Serial_print (CR +:+ ESC +:+ "[K");
         Serial_print "CH6 | Packets: 0 | Mgmt: 0 | Data: 0 | Ctrl: 0 | Freq: 2437MHz"]
     ++ [delay 10]).
Proof.
  split.
  - apply (periodic_status_timing bench_hw
             (mkConsole monitoring_firmware "" 4294966200) 2001 906).
    + unfold is_u32, UINT32_MOD. simpl. lia.
    + unfold UINT32_MOD. lia.
  - assert (Hu : is_u32 (last_status_update initial_console))
      by (unfold is_u32, UINT32_MOD; simpl; lia).
    assert (He : 0 <= 5000 < UINT32_MOD) by (unfold UINT32_MOD; lia).
    destruct (periodic_status_timing bench_hw initial_console 5000 5001 Hu He)
      as [_ H].
    destruct (H ("monitor 6" +:+ CR)
                (mkConsole (started_state 6 initial_firmware) "" 0)
                (echo "monitor 6"
                 ++ Serial_println "" :: started_trace 6 ++ [Serial_print PROMPT])
                eq_refl) as [_ Hpass].
    exact Hpass.
Defined.

(** ** Every reachable state *)

(** In every state the firmware can reach from boot, by any sequence of
    command lines (with any answers from the hardware) and delivered frames,
    the session invariant holds; in particular monitoring and connected are
    never both set, the stored channel is within 1..14 and the registry
    holds at most 50 networks. *)
Theorem reachable_states_invariant (fw : Firmware) :
  reachable fw ->
  session_invariant fw /\
  mode_of (scanner_state fw) <> Scanning /\
  ~ (monitoring_active (scanner_state fw) = true /\
     connected_to_wifi (scanner_state fw) = true) /\
  1 <= current_channel (scanner_state fw) <= 14 /\
  (length (registry fw) <= 50)%nat.
Proof.
  intros Hreach.
  assert (Hinv : session_invariant fw).
  { induction Hreach as [|hw cmd fw _ IH|pkt type fw _ IH].
    - apply session_invariant_initial.
    - pose proof (keeps_invariant_processCommand hw cmd fw IH) as H.
      unfold state_after, run.
      now destruct (processCommand hw cmd fw) as [[o fw'] t].
    - now apply deliver_frame_invariant. }
  split; [exact Hinv|].
  destruct Hinv as (Hch & Hex & Hsc & _ & _ & Ha & Hn).
  repeat split; try apply Hch.
  - unfold mode_of. rewrite Hsc.
    destruct (monitoring_active (scanner_state fw)),
             (connected_to_wifi (scanner_state fw)); discriminate.
  - intros [Hm Hc]. rewrite Hm, Hc in Hex. discriminate.
  - unfold registry. rewrite length_take. unfold MAX_NETWORKS in Hn. lia.
Qed.

Lemma reachable_states_invariant_witness :
  ~ (monitoring_active
       (scanner_state
          (deliver_frame sample_pkt WIFI_PKT_DATA
             (state_after (processCommand friendly_hw "monitor 11")
                (state_after (processCommand friendly_hw "connect labnet secret")
                             initial_firmware)))) = true /\
     connected_to_wifi
       (scanner_state
          (deliver_frame sample_pkt WIFI_PKT_DATA
             (state_after (processCommand friendly_hw "monitor 11")
                (state_after (processCommand friendly_hw "connect labnet secret")
                             initial_firmware)))) = true).
Proof.
  apply (reachable_states_invariant
           (deliver_frame sample_pkt WIFI_PKT_DATA
              (state_after (processCommand friendly_hw "monitor 11")
                 (state_after (processCommand friendly_hw "connect labnet secret")
                              initial_firmware)))).
  apply reach_frame, reach_command, reach_command, reach_boot.
Defined.
